(** * TixGo server: booking lifecycle, inventory and payment reconciliation

    A shallow embedding of the Express route handlers of the TixGo backend.
    Two revisions of the service are embedded side by side:

    - [Part002]: the revision with [POST /payments/verify], which reserves
      stock when a booking is created (src/unnamed/part_002, first file);
    - [IndexJs]: src/index.js, which decrements stock when a payment
      succeeds.

    The MongoDB collections are finite maps from [_id] to documents; every
    driver call ([findOne], [updateOne], [insertOne], [deleteOne],
    [countDocuments]) is one function on the store, and a handler threads
    the store through its calls in program order. *)

From Stdlib Require QArith.
From stdpp Require Import gmap strings list fin_maps.

Set Warnings "-register-all".

(** ** JavaScript values and documents *)

(** An [ObjectId]. *)
Definition oid := N.
Bind Scope N_scope with oid.

(** JSON/BSON values as they appear in request bodies and ticket documents.
    [undefined] is the absence of a field.  Numbers are integers, with
    [VNaN] for the one non-integer the handlers can produce themselves. *)
Inductive value :=
| VNull
| VBool (b : bool)
| VNum (n : Z)
| VNaN
| VStr (s : string)
| VDate (t : Z)
| VId (o : oid)
| VArr (items : list value)
| VObj (fields : list (string * value)).

Global Instance value_eq_dec : EqDecision value.
Proof.
  refine (fix go (v1 v2 : value) {struct v1} : Decision (v1 = v2) :=
    let _ : EqDecision value := @go in
    match v1, v2 with
    | VNull, VNull => left _
    | VBool a, VBool b => cast_if (decide (a = b))
    | VNum a, VNum b => cast_if (decide (a = b))
    | VNaN, VNaN => left _
    | VStr a, VStr b => cast_if (decide (a = b))
    | VDate a, VDate b => cast_if (decide (a = b))
    | VId a, VId b => cast_if (decide (a = b))
    | VArr a, VArr b => cast_if (decide (a = b))
    | VObj a, VObj b => cast_if (decide (a = b))
    | _, _ => right _
    end); abstract congruence.
Defined.

(** A document, or a JSON object used as a request body: field name to
    value.  An embedded document is a [VObj]; in the operand of an update
    a name is a dotted path into the document. *)
Abbreviation doc := (gmap string value).

(** [if (v)]: JavaScript truthiness of a possibly missing field. *)
Definition truthy (v : option value) : bool :=
  match v with
  | None | Some VNull | Some VNaN => false
  | Some (VBool b) => b
  | Some (VNum n) => negb (n =? 0)%Z
  | Some (VStr s) => negb (String.eqb s EmptyString)
  | Some _ => true
  end.

(** [v === s] for a string literal or a verified e-mail [s]. *)
Definition is_string (v : option value) (s : string) : bool :=
  match v with
  | Some (VStr s') => String.eqb s' s
  | _ => false
  end.

(** [Array.isArray(v)]. *)
Definition isArray (v : option value) : bool :=
  match v with
  | Some (VArr _) => true
  | _ => false
  end.

(** [Number(v)] and the coercion of [v < n]: exact on the primitive values;
    strings and objects go through [StringToNumber], the language's own
    conversion, which the model takes as given. *)
Definition ToNumber (StringToNumber : value → value) (v : option value) : value :=
  match v with
  | None => VNaN
  | Some VNull => VNum 0
  | Some (VBool b) => VNum (if b then 1 else 0)
  | Some (VNum n) => VNum n
  | Some VNaN => VNaN
  | Some w => StringToNumber w
  end.

(** [a < q] where [q] is a number. *)
Definition js_lt (StringToNumber : value → value) (a : option value) (q : Z) : bool :=
  match ToNumber StringToNumber a with
  | VNum n => (n <? q)%Z
  | _ => false
  end.

(** An identifier as a client sends it: the text of an ObjectId, or
    something the [ObjectId] constructor rejects. *)
Inductive raw_id :=
| Hex24 (o : oid)
| NotAnId (s : string).

(** [function toObjectId(id) { try { return new ObjectId(id) } catch { return null } }] *)
Definition toObjectId (id : raw_id) : option oid :=
  match id with
  | Hex24 o => Some o
  | NotAnId _ => None
  end.

(** ** The collections *)

Inductive booking_status := pending | accepted | rejected | paid | cancelled.

Global Instance booking_status_eq_dec : EqDecision booking_status.
Proof. solve_decision. Defined.

(** A booking document.  [vendorEmail], [title] and [price] are copied from
    the ticket when the booking is created, whatever the ticket holds. *)
Record booking := mkBooking {
  b_ticketId : oid;
  b_vendorEmail : option value;
  b_customerEmail : string;
  b_title : option value;
  b_price : option value;
  b_quantity : Z;
  b_status : booking_status;
  b_createdAt : Z;
  b_acceptedAt : option Z;
  b_rejectedAt : option Z;
  b_paidAt : option Z
}.

Global Instance booking_eq_dec : EqDecision booking.
Proof. solve_decision. Defined.

(** A payment document.  [p_amount] is [session.amount_total / 100]. *)
Record payment := mkPayment {
  p_bookingId : oid;
  p_ticketId : option oid;
  p_customerEmail : string;
  p_ticketTitle : option value;
  p_amount : QArith_base.Q;
  p_quantity : Z;
  p_currency : string;
  p_transactionId : string;
  p_paidAt : Z
}.

Record user := mkUser {
  u_email : string;
  u_role : string;
  u_isFraud : bool
}.

#[projections(primitive)]
Record store := mkStore {
  usersCollection : list user;
  ticketsCollection : gmap oid doc;
  bookingsCollection : gmap oid booking;
  paymentsCollection : list payment
}.

Definition with_tickets (t : gmap oid doc) (st : store) : store :=
  mkStore (usersCollection st) t (bookingsCollection st) (paymentsCollection st).

Definition with_bookings (b : gmap oid booking) (st : store) : store :=
  mkStore (usersCollection st) (ticketsCollection st) b (paymentsCollection st).

Definition with_payments (p : list payment) (st : store) : store :=
  mkStore (usersCollection st) (ticketsCollection st) (bookingsCollection st) p.

(** ** Driver calls *)

Record update_result := mkResult { matchedCount : nat; modifiedCount : nat }.

Definition no_match : update_result := mkResult 0 0.

(** [coll.updateOne({ _id: id, ...filter }, update)].  [update] returns
    [None] where the server refuses the write and the driver throws. *)
Definition updateOne {A} `{EqDecision A} (id : oid) (filter : A → bool)
    (update : A → option A) (coll : gmap oid A)
  : option (update_result * gmap oid A) :=
  match coll !! id with
  | Some a =>
      if filter a then
        match update a with
        | Some a' =>
            Some (mkResult 1 (if decide (a' = a) then 0 else 1), <[id := a']> coll)
        | None => None
        end
      else Some (no_match, coll)
  | None => Some (no_match, coll)
  end.

(** [coll.insertOne(d)]: the driver picks an [_id] not in the collection. *)
Definition insertOne {A} (a : A) (coll : gmap oid A) : oid * gmap oid A :=
  let id := fresh (dom coll) in (id, <[id := a]> coll).

(** [coll.deleteOne({ _id: id })], with its [deletedCount]. *)
Definition deleteOne {A} (id : oid) (coll : gmap oid A) : nat * gmap oid A :=
  match coll !! id with
  | Some _ => (1, delete id coll)
  | None => (0, coll)
  end.

(** *** [{ $set: upd }]

    The server (MongoDB 5.0 and later) reads every name of [upd] as a
    dotted path.  A path of one segment overwrites that field.  A longer
    path goes down into embedded documents and arrays, making the embedded
    documents that are missing on its way; it is refused where it would
    cross a string, a number, a boolean, a date, an id or null.  The whole
    update is refused, and the driver throws, when one path is refused,
    when a path has an empty segment, starts with a dollar sign or [_id],
    asks for a positional match, or when one path of [upd] is the beginning
    of another. *)

(** The segments of a dotted path. *)
Fixpoint segments (path : string) : list string :=
  match path with
  | EmptyString => [EmptyString]
  | String c rest =>
      if Ascii.eqb c (Ascii.ascii_of_N 46) then EmptyString :: segments rest
      else
        match segments rest with
        | segment :: more => String c segment :: more
        | [] => [String c EmptyString]
        end
  end.

Fixpoint digits (s : string) (acc : N) : option N :=
  match s with
  | EmptyString => Some acc
  | String c rest =>
      let n := Ascii.N_of_ascii c in
      if (48 <=? n)%N && (n <=? 57)%N then digits rest (acc * 10 + (n - 48))%N
      else None
  end.

(** A segment that is an array index: decimal digits, no leading zero. *)
Definition index_of (segment : string) : option nat :=
  if String.eqb segment "0" then Some 0
  else if String.eqb segment EmptyString || String.prefix "0" segment then None
  else N.to_nat <$> digits segment 0.

(** The field [name] of an embedded document, updated by [f] or added at
    the end. *)
Fixpoint set_member (name : string) (f : option value → option value)
    (fields : list (string * value)) : option (list (string * value)) :=
  match fields with
  | [] => (λ v, [(name, v)]) <$> f None
  | (k, w) :: rest =>
      if String.eqb k name then (λ v, (k, v) :: rest) <$> f (Some w)
      else (λ r, (k, w) :: r) <$> set_member name f rest
  end.

(** The item [i] of an array, updated by [f]; an array that is too short
    is filled up with nulls. *)
Definition set_index (i : nat) (f : option value → option value) (items : list value)
  : option (list value) :=
  match items !! i with
  | Some item => (λ v, <[i := v]> items) <$> f (Some item)
  | None => (λ v, items ++ replicate (i - length items) VNull ++ [v]) <$> f None
  end.

(** [v] written at [path] below the value [target] of a field ([None]: the
    field is missing).  The segment [$[]] stands for every item of an
    array; [$] and [$[name]] need a match that a filter on [_id] alone does
    not give. *)
Fixpoint set_path (path : list string) (v : value) (target : option value)
  : option value :=
  match path with
  | [] => Some v
  | segment :: rest =>
      if String.eqb segment EmptyString || String.eqb segment "$" then None
      else if String.eqb segment "$[]" then
        match target with
        | Some (VArr items) => VArr <$> mapM (λ item, set_path rest v (Some item)) items
        | _ => None
        end
      else if String.prefix "$[" segment then None
      else
        match target with
        | None => (λ w, VObj [(segment, w)]) <$> set_path rest v None
        | Some (VObj fields) => VObj <$> set_member segment (set_path rest v) fields
        | Some (VArr items) =>
            match index_of segment with
            | Some i => VArr <$> set_index i (set_path rest v) items
            | None => None
            end
        | Some _ => None
        end
  end.

(** One path of the update, applied to the document so far. *)
Definition set_field (d : option doc) (kv : string * value) : option doc :=
  d ≫= λ d,
    match segments kv.1 with
    | [] => None
    | name :: rest =>
        if String.eqb name EmptyString || String.prefix "$" name || String.eqb name "_id"
        then None
        else (λ w, <[name := w]> d) <$> set_path rest kv.2 (d !! name)
    end.

Fixpoint is_prefix (p q : list string) : bool :=
  match p, q with
  | [], _ => true
  | a :: p, b :: q => String.eqb a b && is_prefix p q
  | _ :: _, [] => false
  end.

(** Two names of one update of which one is the beginning of the other. *)
Definition conflicting (names : list string) : bool :=
  existsb
    (λ k1, existsb (λ k2, negb (String.eqb k1 k2)
                          && is_prefix (segments k1) (segments k2)) names)
    names.

(** The server applies the paths in the order of their names. *)
Fixpoint insert_by_name (kv : string * value) (l : list (string * value))
  : list (string * value) :=
  match l with
  | [] => [kv]
  | x :: rest =>
      if String.leb kv.1 x.1 then kv :: l else x :: insert_by_name kv rest
  end.

Definition in_order (l : list (string * value)) : list (string * value) :=
  foldr insert_by_name [] l.

Definition set_fields (upd : doc) (d : doc) : option doc :=
  if conflicting (map_to_list upd).*1 then None
  else foldl set_field (Some d) (in_order (map_to_list upd)).

(** A name that is one field of the document: one segment (no dot), not
    empty, no dollar sign in front. *)
Definition plain (name : string) : bool :=
  bool_decide (segments name = [name])
  && negb (String.eqb name EmptyString)
  && negb (String.prefix "$" name).

(** A value a dotted path cannot cross. *)
Definition scalar (v : option value) : bool :=
  match v with
  | None | Some (VArr _) | Some (VObj _) => false
  | Some _ => true
  end.

(** [{ $inc: { f: k } }]: adds to a number, creates a missing field, is
    refused on any other value. *)
Definition inc_field (f : string) (k : Z) (d : doc) : option doc :=
  match d !! f with
  | None => Some (<[f := VNum k]> d)
  | Some (VNum n) => Some (<[f := VNum (n + k)]> d)
  | Some VNaN => Some d
  | Some _ => None
  end.

(** The filter [{ f: { $gte: q } }] on the tickets part_002 writes, whose
    [quantity] its [POST /tickets] and [PATCH /tickets/:id] convert with
    [Number]: the field is a number of at least [q]. *)
Definition field_gte (f : string) (q : Z) (d : doc) : bool :=
  match d !! f with
  | Some (VNum n) => (q <=? n)%Z
  | _ => false
  end.

(** The same filter on any document, for src/index.js, which stores a
    ticket's fields as they are sent: the server also matches an array
    one of whose items is a number of at least [q]. *)
Definition field_gte_any (f : string) (q : Z) (d : doc) : bool :=
  match d !! f with
  | Some (VArr items) =>
      existsb (λ v, match v with VNum n => (q <=? n)%Z | _ => false end) items
  | _ => field_gte f q d
  end.

(** The query [{ f: x }] for a string or a boolean [x]: the field is [x],
    or an array one of whose items is [x]. *)
Definition field_is (x : value) (v : option value) : bool :=
  match v with
  | Some (VArr items) => bool_decide (x ∈ items)
  | Some w => bool_decide (w = x)
  | None => false
  end.

Definition any {A} (a : A) : bool := true.

(** [paymentsCollection.findOne({ transactionId })]. *)
Definition findPayment (tx : string) (ps : list payment) : option payment :=
  List.find (λ p, String.eqb (p_transactionId p) tx) ps.

(** [coll.countDocuments(query)]. *)
Definition countDocuments {A} (query : A → bool) (coll : gmap oid A) : nat :=
  size (filter (λ kv : oid * A, query kv.2 = true) coll).

(** The query [{ verificationStatus: "approved", advertised: true }]. *)
Definition advertised_query (d : doc) : bool :=
  field_is (VStr "approved") (d !! "verificationStatus")
  && field_is (VBool true) (d !! "advertised").

(** A ticket whose status is the string [approved] and whose flag is the
    boolean [true], as the moderation and advertise routes write them, and
    the number of such tickets. *)
Definition approved_advertised (d : doc) : bool :=
  is_string (d !! "verificationStatus") "approved" &&
  bool_decide (d !! "advertised" = Some (VBool true)).

Definition countAdvertised (coll : gmap oid doc) : nat :=
  size (filter (λ kv : oid * doc, approved_advertised kv.2 = true) coll).

(** ** Requests and responses *)

Inductive body :=
| Message (m : string)
| ErrMessage
| Success
| SuccessModified (n : nat)
| SuccessBooking (id : oid)
| UpdateResult (r : update_result)
| DeleteResult (deletedCount : nat).

(** What the client receives: [res.status(c).send(b)] ([res.send] is 200),
    a redirect to a page of the site, or nothing at all when an async
    handler without [try] rejects. *)
Inductive response :=
| Send (code : N) (b : body)
| Redirect (page : string)
| NoResponse.

Definition handler := store → response * store.

(** The outcome of [admin.auth().verifyIdToken] on the request's header. *)
Inductive credential :=
| NoBearer
| BadToken
| Verified (email : string).

Definition verifyJWT (c : credential) (next : string → handler) : handler :=
  λ st,
    match c with
    | NoBearer => (Send 401 (Message "Unauthorized"), st)
    | BadToken => (Send 401 (Message "Invalid token"), st)
    | Verified email => next email st
    end.

Definition verifyAdmin (email : string) (next : handler) : handler :=
  λ st,
    match List.find (λ u, String.eqb (u_email u) email) (usersCollection st) with
    | Some u =>
        if String.eqb (u_role u) "admin" then next st
        else (Send 403 (Message "Forbidden"), st)
    | None => (Send 403 (Message "Forbidden"), st)
    end.

(** [stripe.checkout.sessions.retrieve(sessionId)], as far as the handlers
    read it.  [metadata_quantity] is [parseInt(session.metadata.quantity)]. *)
Record checkout_session := mkSession {
  payment_status : string;
  metadata_bookingId : raw_id;
  metadata_ticketId : raw_id;
  metadata_quantity : Z;
  payment_intent : string;
  amount_total : Z;
  currency : string
}.

(** The body of [POST /bookings]. *)
Record booking_request := mkBookingRequest {
  r_ticketId : option raw_id;
  r_quantity : option Z;
  r_customerEmail : option string
}.

(** [!id] for an identifier as a client sends it: the empty string. *)
Definition blank (id : raw_id) : bool :=
  match id with
  | NotAnId s => String.eqb s EmptyString
  | Hex24 _ => false
  end.

Definition email_is (e : option string) (email : string) : bool :=
  match e with
  | Some s => String.eqb s email
  | None => false
  end.

(** The booking-side updates: [{ $set: { status, <stamp>: new Date() } }]. *)
Definition set_accepted (now : Z) (b : booking) : option booking :=
  Some (mkBooking (b_ticketId b) (b_vendorEmail b) (b_customerEmail b) (b_title b)
          (b_price b) (b_quantity b) accepted (b_createdAt b)
          (Some now) (b_rejectedAt b) (b_paidAt b)).

Definition set_rejected (now : Z) (b : booking) : option booking :=
  Some (mkBooking (b_ticketId b) (b_vendorEmail b) (b_customerEmail b) (b_title b)
          (b_price b) (b_quantity b) rejected (b_createdAt b)
          (b_acceptedAt b) (Some now) (b_paidAt b)).

Definition set_paid (now : Z) (b : booking) : option booking :=
  Some (mkBooking (b_ticketId b) (b_vendorEmail b) (b_customerEmail b) (b_title b)
          (b_price b) (b_quantity b) paid (b_createdAt b)
          (b_acceptedAt b) (b_rejectedAt b) (Some now)).

Definition set_cancelled (b : booking) : option booking :=
  Some (mkBooking (b_ticketId b) (b_vendorEmail b) (b_customerEmail b) (b_title b)
          (b_price b) (b_quantity b) cancelled (b_createdAt b)
          (b_acceptedAt b) (b_rejectedAt b) (b_paidAt b)).

Definition is_pending (b : booking) : bool := bool_decide (b_status b = pending).

(** [PATCH /tickets/:id/advertise], the same text in both revisions. *)
Definition patch_tickets_advertise (c : credential) (id : raw_id)
    (advertised : option value) : handler :=
  verifyJWT c (λ email, verifyAdmin email (λ st,
    match advertised with
    | Some (VBool adv) =>
        if adv && (6 <=? countDocuments advertised_query (ticketsCollection st)) then
          (Send 400 (Message "Cannot advertise more than 6 tickets"), st)
        else
          match toObjectId id with
          | None => (Send 400 (Message "invalid id"), st)
          | Some oid =>
              match updateOne oid any (set_fields {["advertised" := VBool adv]})
                      (ticketsCollection st) with
              | None => (Send 500 (Message "Server error"), st)
              | Some (result, tickets') =>
                  if matchedCount result =? 0 then
                    (Send 404 (Message "Ticket not found"), with_tickets tickets' st)
                  else
                    (Send 200 (SuccessModified (modifiedCount result)),
                     with_tickets tickets' st)
              end
          end
    | _ => (Send 400 (Message "advertised must be boolean"), st)
    end)).

(** [DELETE /tickets/:id], the same text in both revisions. *)
Definition delete_tickets (c : credential) (id : raw_id) : handler :=
  verifyJWT c (λ email st,
    match toObjectId id with
    | None => (Send 400 (Message "Invalid id"), st)
    | Some oid =>
        match ticketsCollection st !! oid with
        | None => (Send 404 (Message "Ticket not found"), st)
        | Some ticket =>
            if negb (is_string (ticket !! "vendorEmail") email) then
              (Send 403 (Message "Forbidden"), st)
            else if is_string (ticket !! "verificationStatus") "rejected" then
              (Send 403 (Message "Rejected tickets cannot be deleted"), st)
            else
              let (n, tickets') := deleteOne oid (ticketsCollection st) in
              (Send 200 (DeleteResult n), with_tickets tickets' st)
        end
    end).

(** ** The revision that reserves stock at booking time (part_002) *)

Module Part002.

Section Handlers.

(** The language's conversion of strings and objects to numbers. *)
Variable StringToNumber : value → value.

(** *** [POST /payments/verify] *)

(** [session] is [None] when [stripe.checkout.sessions.retrieve] rejects. *)
Definition post_payments_verify (session : option checkout_session) (now : Z)
  : handler :=
  λ st,
    match session with
    | None => (Send 500 (Message "Payment verification failed"), st)
    | Some session =>
        if negb (String.eqb (payment_status session) "paid") then
          (Send 400 (Message "Payment not completed"), st)
        else
          match toObjectId (metadata_bookingId session) with
          | None => (Send 500 (Message "Payment verification failed"), st)
          | Some bookingId =>
              match bookingsCollection st !! bookingId with
              | None => (Send 404 (Message "Booking not found"), st)
              | Some booking =>
                  match findPayment (payment_intent session) (paymentsCollection st) with
                  | Some _ => (Send 200 Success, st)
                  | None =>
                      let st1 :=
                        with_payments
                          (paymentsCollection st ++
                           [mkPayment bookingId (Some (b_ticketId booking))
                              (b_customerEmail booking) (b_title booking)
                              (QArith_base.Qmake (amount_total session) 100)
                              (b_quantity booking) (currency session)
                              (payment_intent session) now])
                          st in
                      match updateOne bookingId any (set_paid now)
                              (bookingsCollection st1) with
                      | None => (Send 500 (Message "Payment verification failed"), st1)
                      | Some (_, bookings') =>
                          (Send 200 Success, with_bookings bookings' st1)
                      end
                  end
              end
          end
    end.

(** *** [GET /stripe/payment-cancelled] *)

Definition get_stripe_payment_cancelled (bookingId : raw_id) : handler :=
  λ st,
    match toObjectId bookingId with
    | None => (Redirect "/payment-cancelled", st)
    | Some bookingOid =>
        match bookingsCollection st !! bookingOid with
        | Some booking =>
            if bool_decide (b_status booking = accepted) then
              match updateOne (b_ticketId booking) any
                      (inc_field "quantity" (b_quantity booking))
                      (ticketsCollection st) with
              | None => (Redirect "/payment-cancelled", st)
              | Some (_, tickets') =>
                  let st1 := with_tickets tickets' st in
                  match updateOne bookingOid any set_cancelled
                          (bookingsCollection st1) with
                  | None => (Redirect "/payment-cancelled", st1)
                  | Some (_, bookings') =>
                      (Redirect "/payment-cancelled", with_bookings bookings' st1)
                  end
              end
            else (Redirect "/payment-cancelled", st)
        | None => (Redirect "/payment-cancelled", st)
        end
    end.

(** *** [PATCH /tickets/:id] *)

(** [{ ...req.body }] minus the five protected keys. *)
Definition strip_protected (body : doc) : doc :=
  delete "_id"
    (delete "createdAt"
       (delete "vendorName"
          (delete "vendorEmail"
             (delete "verificationStatus" body)))).

(** [if ("perks" in u) { if (!Array.isArray(u.perks)) u.perks = [] } else { delete u.perks }] *)
Definition normalise_perks (u : doc) : doc :=
  match u !! "perks" with
  | Some p => if isArray (Some p) then u else <["perks" := VArr []]> u
  | None => delete "perks" u
  end.

(** [if (u.f) u.f = Number(u.f)] *)
Definition number_if_truthy (f : string) (u : doc) : doc :=
  if truthy (u !! f) then <[f := ToNumber StringToNumber (u !! f)]> u else u.

Definition patch_tickets (c : credential) (id : raw_id) (body : doc) : handler :=
  verifyJWT c (λ email st,
    match toObjectId id with
    | None => (Send 400 (Message "Invalid id"), st)
    | Some oid =>
        let updatedData := strip_protected body in
        match ticketsCollection st !! oid with
        | None => (Send 404 (Message "Ticket not found"), st)
        | Some ticket =>
            if negb (is_string (ticket !! "vendorEmail") email) then
              (Send 403 (Message "Forbidden"), st)
            else if is_string (ticket !! "verificationStatus") "rejected" then
              (Send 403 (Message "Rejected tickets cannot be updated"), st)
            else
              let updatedData :=
                number_if_truthy "quantity"
                  (number_if_truthy "price" (normalise_perks updatedData)) in
              match updateOne oid any (set_fields updatedData)
                      (ticketsCollection st) with
              | None => (Send 500 (Message "Server error"), st)
              | Some (result, tickets') =>
                  (Send 200 (SuccessModified (modifiedCount result)),
                   with_tickets tickets' st)
              end
        end
    end).

(** *** [POST /bookings] *)

(** From the conditional [updateOne] on: what runs once the request and the
    ticket read by [findOne] have passed the checks.  [ticket] is the
    document as [findOne] returned it; [st] is the store as it is when the
    write reaches it. *)
Definition post_bookings_reserve (customerEmail : string) (ticketOid : oid)
    (quantity : Z) (ticket : doc) (now : Z) : handler :=
  λ st,
    match updateOne ticketOid (field_gte "quantity" quantity)
            (inc_field "quantity" (- quantity)) (ticketsCollection st) with
    | None => (Send 500 (Message "Server error"), st)
    | Some (reserve, tickets') =>
        let st1 := with_tickets tickets' st in
        if modifiedCount reserve =? 0 then
          (Send 400 (Message "Not enough tickets available"), st1)
        else
          let newBooking :=
            mkBooking ticketOid (ticket !! "vendorEmail") customerEmail
              (ticket !! "title") (ticket !! "price") quantity pending now
              None None None in
          let (bookingId, bookings') := insertOne newBooking (bookingsCollection st1) in
          (Send 200 (SuccessBooking bookingId), with_bookings bookings' st1)
    end.

Definition post_bookings (c : credential) (req : booking_request) (now : Z)
  : handler :=
  verifyJWT c (λ email st,
    if negb (email_is (r_customerEmail req) email) then
      (Send 403 (Message "Forbidden"), st)
    else
      match r_ticketId req, r_quantity req with
      | Some ticketId, Some quantity =>
          if blank ticketId || (quantity <=? 0)%Z then
            (Send 400 (Message "ticketId and valid quantity required"), st)
          else
            match toObjectId ticketId with
            | None => (Send 400 (Message "Invalid ticketId"), st)
            | Some ticketOid =>
                match ticketsCollection st !! ticketOid with
                | None => (Send 404 (Message "Ticket not found"), st)
                | Some ticket =>
                    if negb (is_string (ticket !! "verificationStatus") "approved") then
                      (Send 400 (Message "Ticket not approved"), st)
                    else
                      post_bookings_reserve email ticketOid quantity ticket now st
                end
            end
      | _, _ => (Send 400 (Message "ticketId and valid quantity required"), st)
      end).

(** *** [PATCH /bookings/:id/accept] and [/reject] *)

Definition patch_bookings_accept (c : credential) (id : raw_id) (now : Z)
  : handler :=
  verifyJWT c (λ email st,
    match toObjectId id with
    | None => (Send 400 (Message "Invalid id"), st)
    | Some id =>
        match bookingsCollection st !! id with
        | None => (Send 404 (Message "Booking not found"), st)
        | Some booking =>
            if negb (is_string (b_vendorEmail booking) email) then
              (Send 403 (Message "Forbidden"), st)
            else if negb (is_pending booking) then
              (Send 400 (Message "Only pending bookings can be accepted"), st)
            else
              match updateOne id any (set_accepted now) (bookingsCollection st) with
              | None => (NoResponse, st)
              | Some (result, bookings') =>
                  (Send 200 (SuccessModified (modifiedCount result)),
                   with_bookings bookings' st)
              end
        end
    end).

Definition patch_bookings_reject (c : credential) (id : raw_id) (now : Z)
  : handler :=
  verifyJWT c (λ email st,
    match toObjectId id with
    | None => (Send 400 (Message "Invalid id"), st)
    | Some id =>
        match bookingsCollection st !! id with
        | None => (Send 404 (Message "Booking not found"), st)
        | Some booking =>
            if negb (is_string (b_vendorEmail booking) email) then
              (Send 403 (Message "Forbidden"), st)
            else if negb (is_pending booking) then
              (Send 400 (Message "Only pending bookings can be rejected"), st)
            else
              match updateOne (b_ticketId booking) any
                      (inc_field "quantity" (b_quantity booking))
                      (ticketsCollection st) with
              | None => (NoResponse, st)
              | Some (_, tickets') =>
                  let st1 := with_tickets tickets' st in
                  match updateOne id any (set_rejected now) (bookingsCollection st1) with
                  | None => (NoResponse, st1)
                  | Some (_, bookings') =>
                      (Send 200 Success, with_bookings bookings' st1)
                  end
              end
        end
    end).

End Handlers.

End Part002.

(** ** The revision that decrements stock at payment time (src/index.js) *)

Module IndexJs.

Section Handlers.

Variable StringToNumber : value → value.

(** *** [GET /stripe/payment-success] *)

Definition get_stripe_payment_success (session : option checkout_session)
    (now : Z) : handler :=
  λ st,
    match session with
    | None => (Send 500 ErrMessage, st)
    | Some session =>
        if negb (String.eqb (payment_status session) "paid") then
          (Redirect "/payment-failed", st)
        else
          let bookingId := toObjectId (metadata_bookingId session) in
          let ticketId := toObjectId (metadata_ticketId session) in
          let quantity := metadata_quantity session in
          let exists_ := findPayment (payment_intent session) (paymentsCollection st) in
          match bookingId ≫= λ id, (λ b, (id, b)) <$> bookingsCollection st !! id with
          | None => (Redirect "/payment-failed", st)
          | Some (bookingId, booking) =>
              match exists_ with
              | Some _ => (Redirect "/payment-success", st)
              | None =>
                  match updateOne bookingId any (set_paid now) (bookingsCollection st) with
                  | None => (Send 500 ErrMessage, st)
                  | Some (_, bookings') =>
                      let st1 := with_bookings bookings' st in
                      match
                        match ticketId with
                        | Some tid =>
                            updateOne tid (field_gte_any "quantity" quantity)
                              (inc_field "quantity" (- quantity)) (ticketsCollection st1)
                        | None => Some (no_match, ticketsCollection st1)
                        end
                      with
                      | None => (Send 500 ErrMessage, st1)
                      | Some (_, tickets') =>
                          let st2 := with_tickets tickets' st1 in
                          (Redirect "/payment-success",
                           with_payments
                             (paymentsCollection st2 ++
                              [mkPayment bookingId ticketId (b_customerEmail booking)
                                 None (QArith_base.Qmake (amount_total session) 100)
                                 (b_quantity booking) (currency session)
                                 (payment_intent session) now])
                             st2)
                      end
                  end
              end
          end
    end.

(** *** [PATCH /tickets/:id] and [PUT /tickets/:id] *)

(** The four [delete updatedData.<key>] statements. *)
Definition strip_protected (body : doc) : doc :=
  delete "createdAt"
    (delete "vendorName"
       (delete "vendorEmail"
          (delete "verificationStatus" body))).

Definition patch_tickets (c : credential) (id : raw_id) (body : doc) : handler :=
  verifyJWT c (λ email st,
    let updatedData := strip_protected body in
    match toObjectId id with
    | None => (Send 500 (Message "Server error"), st)
    | Some oid =>
        match ticketsCollection st !! oid with
        | None => (Send 404 (Message "Ticket not found"), st)
        | Some ticket =>
            if is_string (ticket !! "verificationStatus") "rejected" then
              (Send 403 (Message "Rejected tickets cannot be updated"), st)
            else
              match updateOne oid any (set_fields updatedData)
                      (ticketsCollection st) with
              | None => (Send 500 (Message "Server error"), st)
              | Some (result, tickets') =>
                  (Send 200 (SuccessModified (modifiedCount result)),
                   with_tickets tickets' st)
              end
        end
    end).

Definition put_tickets (c : credential) (id : raw_id) (update : doc) : handler :=
  verifyJWT c (λ email st,
    match toObjectId id with
    | None => (Send 400 (Message "Invalid id"), st)
    | Some oid =>
        match ticketsCollection st !! oid with
        | None => (Send 404 (Message "Ticket not found"), st)
        | Some ticket =>
            if negb (is_string (ticket !! "vendorEmail") email) then
              (Send 403 (Message "Forbidden"), st)
            else
              match updateOne oid any (set_fields update) (ticketsCollection st) with
              | None => (NoResponse, st)
              | Some (result, tickets') =>
                  (Send 200 (UpdateResult result), with_tickets tickets' st)
              end
        end
    end).

(** *** [POST /bookings] *)

(** From the stock check on: [ticket] is the document [findOne] returned,
    [st] the store the insert reaches. *)
Definition post_bookings_insert (customerEmail : string) (ticketOid : oid)
    (quantity : Z) (ticket : doc) (now : Z) : handler :=
  λ st,
    if js_lt StringToNumber (ticket !! "quantity") quantity then
      (Send 400 (Message "Not enough tickets available"), st)
    else
      let booking :=
        mkBooking ticketOid (ticket !! "vendorEmail") customerEmail
          (ticket !! "title") (ticket !! "price") quantity pending now
          None None None in
      let (bookingId, bookings') := insertOne booking (bookingsCollection st) in
      (Send 200 (SuccessBooking bookingId), with_bookings bookings' st).

Definition post_bookings (c : credential) (req : booking_request) (now : Z)
  : handler :=
  verifyJWT c (λ email st,
    if negb (email_is (r_customerEmail req) email) then
      (Send 403 (Message "Forbidden"), st)
    else
      match r_ticketId req, r_quantity req with
      | Some ticketId, Some quantity =>
          if blank ticketId || (quantity =? 0)%Z || String.eqb email EmptyString then
            (Send 400 (Message "ticketId, quantity and customerEmail required"), st)
          else
            match toObjectId ticketId with
            | None => (Send 400 (Message "invalid ticketId"), st)
            | Some ticketOid =>
                match ticketsCollection st !! ticketOid with
                | None => (Send 404 (Message "Ticket not found"), st)
                | Some ticket =>
                    if negb (is_string (ticket !! "verificationStatus") "approved") then
                      (Send 400 (Message "Ticket is not approved for booking"), st)
                    else
                      post_bookings_insert email ticketOid quantity ticket now st
                end
            end
      | _, _ =>
          (Send 400 (Message "ticketId, quantity and customerEmail required"), st)
      end).

(** *** [PATCH /bookings/:id/accept] and [/reject] *)

Definition patch_bookings_accept (c : credential) (id : raw_id) (now : Z)
  : handler :=
  verifyJWT c (λ email st,
    match toObjectId id with
    | None => (Send 400 (Message "Invalid id"), st)
    | Some id =>
        match bookingsCollection st !! id with
        | None => (Send 404 (Message "Booking not found"), st)
        | Some booking =>
            if negb (is_string (b_vendorEmail booking) email) then
              (Send 403 (Message "Forbidden"), st)
            else
              match updateOne id is_pending (set_accepted now) (bookingsCollection st) with
              | None => (NoResponse, st)
              | Some (result, bookings') =>
                  (Send 200 (SuccessModified (modifiedCount result)),
                   with_bookings bookings' st)
              end
        end
    end).

Definition patch_bookings_reject (c : credential) (id : raw_id) (now : Z)
  : handler :=
  verifyJWT c (λ email st,
    match toObjectId id with
    | None => (Send 400 (Message "Invalid id"), st)
    | Some id =>
        match bookingsCollection st !! id with
        | None => (Send 404 (Message "Booking not found"), st)
        | Some booking =>
            if negb (is_string (b_vendorEmail booking) email) then
              (Send 403 (Message "Forbidden"), st)
            else
              match updateOne id is_pending (set_rejected now) (bookingsCollection st) with
              | None => (NoResponse, st)
              | Some (result, bookings') =>
                  (Send 200 (SuccessModified (modifiedCount result)),
                   with_bookings bookings' st)
              end
        end
    end).

End Handlers.

End IndexJs.

(** ** The two revisions side by side *)

Inductive revision := part_002 | index_js.

(** The handler a completed checkout ends in. *)
Definition verify_payment (r : revision) : option checkout_session → Z → handler :=
  match r with
  | part_002 => Part002.post_payments_verify
  | index_js => IndexJs.get_stripe_payment_success
  end.

(** What that handler answers when the payment is accepted as verified. *)
Definition verified (r : revision) : response :=
  match r with
  | part_002 => Send 200 Success
  | index_js => Redirect "/payment-success"
  end.

Definition post_bookings (r : revision) (StringToNumber : value → value)
  : credential → booking_request → Z → handler :=
  match r with
  | part_002 => Part002.post_bookings
  | index_js => IndexJs.post_bookings StringToNumber
  end.

Definition patch_bookings_accept (r : revision) : credential → raw_id → Z → handler :=
  match r with
  | part_002 => Part002.patch_bookings_accept
  | index_js => IndexJs.patch_bookings_accept
  end.

Definition patch_bookings_reject (r : revision) : credential → raw_id → Z → handler :=
  match r with
  | part_002 => Part002.patch_bookings_reject
  | index_js => IndexJs.patch_bookings_reject
  end.

Definition patch_tickets (r : revision) (StringToNumber : value → value)
  : credential → raw_id → doc → handler :=
  match r with
  | part_002 => Part002.patch_tickets StringToNumber
  | index_js => IndexJs.patch_tickets
  end.

(** [GET /stripe/payment-cancelled] exists in part_002 only; index.js sends
    the customer back to the site and has no route for it. *)
Definition payment_cancelled (r : revision) (bookingId : raw_id) : handler :=
  match r with
  | part_002 => Part002.get_stripe_payment_cancelled bookingId
  | index_js => λ st, (Send 404 ErrMessage, st)
  end.

(** The requests that move a booking or its stock. *)
Inductive operation :=
| CreateBooking (c : credential) (req : booking_request) (now : Z)
| AcceptBooking (c : credential) (id : raw_id) (now : Z)
| RejectBooking (c : credential) (id : raw_id) (now : Z)
| CancelPayment (bookingId : raw_id)
| VerifyPayment (session : option checkout_session) (now : Z).

Definition step (r : revision) (StringToNumber : value → value) (o : operation)
  : handler :=
  match o with
  | CreateBooking c req now => post_bookings r StringToNumber c req now
  | AcceptBooking c id now => patch_bookings_accept r c id now
  | RejectBooking c id now => patch_bookings_reject r c id now
  | CancelPayment id => payment_cancelled r id
  | VerifyPayment session now => verify_payment r session now
  end.

(** The store after the requests of [ops], served one after the other. *)
Fixpoint run (r : revision) (StringToNumber : value → value)
    (ops : list operation) (st : store) : store :=
  match ops with
  | [] => st
  | o :: ops => run r StringToNumber ops (step r StringToNumber o st).2
  end.

(** ** Reading the specification's vocabulary off the responses *)

(** The error kinds of the specification.  The handlers answer with a
    status code and a message; [error_of] names the kind each stands for. *)
Inductive error_kind :=
| Unauthenticated
| Forbidden
| NotFound
| NotApproved
| InsufficientStock
| InvalidTransition
| SlotLimitExceeded
| PaymentNotCompleted
| ValidationError
| Unavailable.

Definition error_of_message (m : string) : error_kind :=
  if String.eqb m "Not enough tickets available" then InsufficientStock
  else if String.eqb m "Ticket not approved" then NotApproved
  else if String.eqb m "Ticket is not approved for booking" then NotApproved
  else if String.eqb m "Cannot advertise more than 6 tickets" then SlotLimitExceeded
  else if String.eqb m "Only pending bookings can be accepted" then InvalidTransition
  else if String.eqb m "Only pending bookings can be rejected" then InvalidTransition
  else if String.eqb m "Payment not completed" then PaymentNotCompleted
  else ValidationError.

Definition error_of (resp : response) : option error_kind :=
  match resp with
  | Send 200 _ => None
  | Send 401 _ => Some Unauthenticated
  | Send 403 _ => Some Forbidden
  | Send 404 _ => Some NotFound
  | Send 400 (Message m) => Some (error_of_message m)
  | Send 400 _ => Some ValidationError
  | Send _ _ => Some Unavailable
  | Redirect "/payment-failed" => Some PaymentNotCompleted
  | Redirect _ => None
  | NoResponse => Some Unavailable
  end.

(** The ticket's [quantity], when it is a number. *)
Definition quantity_of (d : doc) : option Z :=
  match d !! "quantity" with
  | Some (VNum n) => Some n
  | _ => None
  end.

(** A ticket's stock is not negative. *)
Definition quantity_nonneg (d : doc) : Prop :=
  ∀ n, quantity_of d = Some n → (0 ≤ n)%Z.

(** Every ticket of the store has non-negative stock. *)
Definition stock_ok (st : store) : Prop :=
  map_Forall (λ _ d, quantity_nonneg d) (ticketsCollection st).

(** Every booking holds a non-negative number of seats. *)
Definition bookings_ok (st : store) : Prop :=
  map_Forall (λ _ b, (0 ≤ b_quantity b)%Z) (bookingsCollection st).

(** The payments recorded for a transaction id. *)
Definition payments_for (tx : string) (st : store) : list payment :=
  List.filter (λ p, String.eqb (p_transactionId p) tx) (paymentsCollection st).

(** The caller holds the admin role. *)
Definition is_admin (email : string) (st : store) : Prop :=
  ∃ u, List.find (λ u, String.eqb (u_email u) email) (usersCollection st) = Some u
       ∧ u_role u = "admin".

(** The fields [PATCH /tickets/:id] deletes from the update in both revisions. *)
Definition protected_fields : list string :=
  ["verificationStatus"; "vendorEmail"; "vendorName"; "createdAt"].

(** The session is one the handler can finalize: the provider reports it
    paid and its metadata names a booking of the store. *)
Definition finalizable (s : checkout_session) (st : store) (id : oid) (b : booking)
  : Prop :=
  payment_status s = "paid"
  ∧ toObjectId (metadata_bookingId s) = Some id
  ∧ bookingsCollection st !! id = Some b.



(** The edge each kind of request can move a booking along: a verified
    payment moves it to [paid] from whatever status it has. *)
Definition op_edge (o : operation) (a b : booking_status) : bool :=
  match o, a, b with
  | AcceptBooking _ _ _, pending, accepted => true
  | RejectBooking _ _ _, pending, rejected => true
  | CancelPayment _, accepted, cancelled => true
  | VerifyPayment _ _, _, paid => true
  | _, _, _ => false
  end.

(** What one request may do to the tickets: nothing; take [q] out of a
    stock that holds at least [q]; or give back the seats of a booking. *)
Definition tickets_effect (r : revision) (st st' : store) : Prop :=
  ticketsCollection st' = ticketsCollection st
  ∨ (∃ tid d n q,
       ticketsCollection st !! tid = Some d ∧ quantity_of d = Some n ∧ (q ≤ n)%Z ∧
       ticketsCollection st' = <[tid := <["quantity" := VNum (n - q)]> d]> (ticketsCollection st))
  ∨ (r = part_002 ∧ ∃ id b d d',
       bookingsCollection st !! id = Some b ∧
       ticketsCollection st !! b_ticketId b = Some d ∧
       inc_field "quantity" (b_quantity b) d = Some d' ∧
       ticketsCollection st' = <[b_ticketId b := d']> (ticketsCollection st)).

(** What the request [o] may do to the bookings: nothing; insert a pending
    booking; or move one booking along its edge, its seats kept. *)
Definition bookings_effect (o : operation) (r : revision) (st st' : store) : Prop :=
  bookingsCollection st' = bookingsCollection st
  ∨ (∃ b, b_status b = pending ∧ (r = part_002 → (0 < b_quantity b)%Z) ∧
       bookingsCollection st' = <[fresh (dom (bookingsCollection st)) := b]> (bookingsCollection st))
  ∨ (∃ id b b',
       bookingsCollection st !! id = Some b ∧
       b_ticketId b' = b_ticketId b ∧ b_quantity b' = b_quantity b ∧
       op_edge o (b_status b) (b_status b') = true ∧
       bookingsCollection st' = <[id := b']> (bookingsCollection st)).

Definition effects (o : operation) (r : revision) (st st' : store) : Prop :=
  tickets_effect r st st' ∧ bookings_effect o r st st'.

(** The stock invariant together with what keeps it: in part_002 the
    seats handed back at rejection or cancellation are those of a booking. *)
Definition consistent (r : revision) (st : store) : Prop :=
  stock_ok st ∧ (r = part_002 → bookings_ok st).

(** The seats a booking holds out of the ticket's stock while it is
    pending: all of them where stock is reserved at creation, none where
    it is taken at payment. *)
Definition reserved (r : revision) (q : Z) : Z :=
  match r with
  | part_002 => q
  | index_js => 0
  end.

(** The stock check of [POST /bookings], on the ticket [d]: part_002 asks
    the server for a numeric quantity of at least [q]; index.js compares in
    JavaScript. *)
Definition enough (r : revision) (StringToNumber : value → value) (d : doc) (q : Z)
  : Prop :=
  match r with
  | part_002 => ∃ n, quantity_of d = Some n ∧ (q ≤ n)%Z
  | index_js => js_lt StringToNumber (d !! "quantity") q = false
  end.

(** The booking [POST /bookings] inserts for ticket [d]. *)
Definition new_booking (tid : oid) (d : doc) (customer : string) (q now : Z)
  : booking :=
  mkBooking tid (d !! "vendorEmail") customer (d !! "title") (d !! "price")
    q pending now None None None.

(** [d] with [q] taken out of its numeric quantity. *)
Definition take_stock (q : Z) (d : doc) : doc :=
  match quantity_of d with
  | Some n => <["quantity" := VNum (n - q)]> d
  | None => d
  end.

(** ** A small shop, for the examples *)

Module Sample.

Definition vendor : string := "vendor@tixgo.test".
Definition customer : string := "rahim@tixgo.test".
Definition administrator : string := "admin@tixgo.test".

Definition users : list user :=
  [mkUser administrator "admin" false; mkUser vendor "vendor" false;
   mkUser customer "user" false].

Definition ticket (status : string) (quantity : Z) (advertised : bool) : doc :=
  {[ "title" := VStr "Dhaka to Sylhet"; "vendorEmail" := VStr vendor;
     "price" := VNum 500; "quantity" := VNum quantity;
     "verificationStatus" := VStr status; "advertised" := VBool advertised ]}.

(** One approved ticket, five seats, nothing booked. *)
Definition shop : store :=
  mkStore users {[ 1%N := ticket "approved" 5 false ]} ∅ [].

(** The same ticket after its vendor was marked as fraud. *)
Definition hidden_shop : store :=
  mkStore users {[ 1%N := <["hidden" := VBool true]> (ticket "approved" 5 false) ]} ∅ [].

(** The same ticket after an admin rejected it. *)
Definition rejected_shop : store :=
  mkStore users {[ 1%N := ticket "rejected" 5 false ]} ∅ [].

(** Two seats requested by the customer. *)
Definition request : booking_request :=
  mkBookingRequest (Some (Hex24 1)) (Some 2%Z) (Some customer).

Definition booked (status : booking_status) : booking :=
  mkBooking 1 (Some (VStr vendor)) customer (Some (VStr "Dhaka to Sylhet"))
    (Some (VNum 500)) 2 status 10 None None None.

(** The shop with one booking of two seats in the given status. *)
Definition shop_with (status : booking_status) : store :=
  mkStore users {[ 1%N := ticket "approved" 5 false ]} {[ 0%N := booked status ]} [].

(** The completed checkout of that booking. *)
Definition session : checkout_session :=
  mkSession "paid" (Hex24 0) (Hex24 1) 2 "pi_3PaymentIntent" 100000 "usd".

(** Seven approved tickets, the first [n] of them advertised. *)
Definition gallery (n : nat) : store :=
  mkStore users
    (list_to_map
       (imap (λ i _, (N.of_nat (S i), ticket "approved" 5 (bool_decide (i < n))))
          (replicate 7 ())))
    ∅ [].

(** Strings and objects that are not numbers. *)
Definition not_a_number (v : value) : value := VNaN.

End Sample.

(** * The rest of the service *)

(** ** Users, roles and the fraud flag *)

Definition with_users (u : list user) (st : store) : store :=
  mkStore u (ticketsCollection st) (bookingsCollection st) (paymentsCollection st).

(** The users collection only grows, so a user's [_id] is modelled as its
    position in the collection: [usersCollection.findOne({ _id })]. *)
Definition findUserById (id : oid) (users : list user) : option user :=
  users !! N.to_nat id.

(** [usersCollection.findOne({ email })]. *)
Definition findUser (email : string) (users : list user) : option user :=
  List.find (λ u, String.eqb (u_email u) email) users.

(** [usersCollection.updateOne({ _id }, { $set: { role, isFraud } })]: a field
    that the update does not name keeps its value. *)
Definition set_user (role : option string) (isFraud : option bool) (u : user) : user :=
  mkUser (u_email u) (default (u_role u) role) (default (u_isFraud u) isFraud).

Definition updateUserById (id : oid) (f : user → user) (users : list user) : list user :=
  alter f (N.to_nat id) users.

(** [ticketsCollection.updateMany(filter, { $set: ... })]. *)
Definition updateMany (filter : doc → bool) (update : doc → doc)
    (coll : gmap oid doc) : gmap oid doc :=
  (λ d, if filter d then update d else d) <$> coll.

(** [PATCH /admin/users/:id/mark-fraud], the same text in both revisions. *)
Definition patch_admin_users_mark_fraud (c : credential) (id : raw_id) : handler :=
  verifyJWT c (λ email, verifyAdmin email (λ st,
    match toObjectId id with
    | None => (Send 400 (Message "Invalid id"), st)
    | Some id =>
        match findUserById id (usersCollection st) with
        | Some user =>
            if String.eqb (u_role user) "vendor" then
              let st1 :=
                with_users
                  (updateUserById id (set_user None (Some true)) (usersCollection st)) st in
              (Send 200 Success,
               with_tickets
                 (updateMany (λ d, field_is (VStr (u_email user)) (d !! "vendorEmail"))
                    (insert "hidden" (VBool true)) (ticketsCollection st1))
                 st1)
            else (Send 400 (Message "Not a vendor"), st)
        | None => (Send 400 (Message "Not a vendor"), st)
        end
    end)).

(** [PATCH /admin/users/:id/make-vendor], the same text in both revisions. *)
Definition patch_admin_users_make_vendor (c : credential) (id : raw_id) : handler :=
  verifyJWT c (λ email, verifyAdmin email (λ st,
    match toObjectId id with
    | None => (Send 400 (Message "Invalid id"), st)
    | Some id =>
        (Send 200 Success,
         with_users
           (updateUserById id (set_user (Some "vendor") (Some false)) (usersCollection st))
           st)
    end)).

(** [PATCH /admin/users/:id/make-admin], the same text in both revisions:
    the id is not tested, and a [null] id matches no user. *)
Definition patch_admin_users_make_admin (c : credential) (id : raw_id) : handler :=
  verifyJWT c (λ email, verifyAdmin email (λ st,
    match toObjectId id with
    | None => (Send 200 Success, st)
    | Some id =>
        (Send 200 Success,
         with_users
           (updateUserById id (set_user (Some "admin") None) (usersCollection st)) st)
    end)).

(** ** Ticket moderation *)

(** [PATCH /tickets/:id/approve] and [/reject], the same text in both
    revisions, up to the status they write. *)
Definition moderate (status : string) (c : credential) (id : raw_id) : handler :=
  verifyJWT c (λ email, verifyAdmin email (λ st,
    match toObjectId id with
    | None => (Send 400 (Message "invalid id"), st)
    | Some oid =>
        match updateOne oid any (set_fields {["verificationStatus" := VStr status]})
                (ticketsCollection st) with
        | None => (Send 500 (Message "Server error"), st)
        | Some (result, tickets') =>
            if matchedCount result =? 0 then
              (Send 404 (Message "Ticket not found"), with_tickets tickets' st)
            else
              (Send 200 (SuccessModified (modifiedCount result)),
               with_tickets tickets' st)
        end
    end)).

Definition patch_tickets_approve : credential → raw_id → handler := moderate "approved".


(** ** Routes that answer with a document *)

(** What such a route sends with status 200. *)
Inductive payload :=
| TicketCreated (ticketId : oid)
| CheckoutUrl (url : string)
| Ticket (d : doc)
| Revenue (totalRevenue : QArith_base.Q) (ticketsSold : Z) (ticketsAdded : nat)
| UserSaved (message : string)
| UserUpserted (matchedCount : nat) (upserted : bool)
| Tickets (found : list (oid * doc)).

Definition route := store → (response + payload) * store.

(** [verifyJWT] and [verifyAdmin] in front of such a route. *)
Definition verifyJWT_route (c : credential) (next : string → route) : route :=
  λ st,
    match c with
    | NoBearer => (inl (Send 401 (Message "Unauthorized")), st)
    | BadToken => (inl (Send 401 (Message "Invalid token")), st)
    | Verified email => next email st
    end.


(** [verifyVendor] of part_002: the caller's user document must have the
    vendor role and no fraud flag. *)
Definition verifyVendor (email : string) (next : user → route) : route :=
  λ st,
    match findUser email (usersCollection st) with
    | Some u =>
        if negb (String.eqb (u_role u) "vendor") then
          (inl (Send 403 (Message "Forbidden")), st)
        else if u_isFraud u then
          (inl (Send 403
                  (Message "Your vendor account has been suspended due to fraud activity")),
           st)
        else next u st
    | None => (inl (Send 403 (Message "Forbidden")), st)
    end.

(** [GET /tickets/:id], the same text in both revisions:
    [findOne({ _id: oid, hidden: { $ne: true } })]. *)
Definition get_ticket (id : raw_id) : route :=
  λ st,
    match toObjectId id with
    | None => (inl (Send 400 (Message "invalid id")), st)
    | Some oid =>
        match ticketsCollection st !! oid with
        | Some ticket =>
            if field_is (VBool true) (ticket !! "hidden") then
              (inl (Send 404 (Message "Ticket not found")), st)
            else (inr (Ticket ticket), st)
        | None => (inl (Send 404 (Message "Ticket not found")), st)
        end
    end.

(** [GET /admin/revenue-overview], the same text in both revisions: the
    [$group] stage sums [amount] and [quantity] over all payments. *)
Definition totalRevenue (ps : list payment) : QArith_base.Q :=
  foldr (λ p acc, QArith_base.Qplus (p_amount p) acc) (QArith_base.Qmake 0 1) ps.

Definition ticketsSold (ps : list payment) : Z :=
  foldr (λ p acc, (p_quantity p + acc)%Z) 0%Z ps.


(** ** Ticket creation, checkout and registration in part_002 *)

(** What [stripe.checkout.sessions.create] is given. *)
Record checkout_request := mkCheckout {
  unit_amount : value;
  product_name : option value;
  line_quantity : Z;
  meta_bookingId : oid;
  meta_ticketId : oid;
  meta_quantity : Z
}.

(** A field of an object literal; the driver stores [undefined] as null. *)
Definition field (k : string) (body : doc) : value := default VNull (body !! k).

Module Part002Rest.

Section Handlers.

Variable StringToNumber : value → value.

(** [new Date(v)], as the driver stores it. *)
Variable NewDate : option value → value.

(** [stripe.checkout.sessions.create]: the session's url, or [None] when
    the call rejects. *)
Variable stripe_create : checkout_request → option string.

(** *** [POST /tickets] *)

Definition post_tickets (c : credential) (body : doc) (now : Z) : route :=
  verifyJWT_route c (λ email, verifyVendor email (λ vendor st,
    if negb (truthy (body !! "title") && truthy (body !! "from")
             && truthy (body !! "to") && truthy (body !! "transport")
             && truthy (body !! "price") && truthy (body !! "quantity")
             && truthy (body !! "departure") && truthy (body !! "image")) then
      (inl (Send 400 (Message "All required fields missing")), st)
    else
      let safePerks :=
        if isArray (body !! "perks") then field "perks" body else VArr [] in
      let ticket : doc :=
        {[ "title" := field "title" body; "from" := field "from" body;
           "to" := field "to" body; "transport" := field "transport" body;
           "price" := ToNumber StringToNumber (body !! "price");
           "quantity" := ToNumber StringToNumber (body !! "quantity");
           "departure" := NewDate (body !! "departure");
           "image" := field "image" body; "perks" := safePerks;
           "vendorEmail" := VStr email;
           "verificationStatus" := VStr "pending";
           "advertised" := VBool false; "createdAt" := VDate now ]} in
      let (ticketId, tickets') := insertOne ticket (ticketsCollection st) in
      (inr (TicketCreated ticketId), with_tickets tickets' st))).

(** *** [POST /create-ticket-checkout] *)

(** [v <= new Date()] for a stored value [v]. *)
Definition not_after (v : option value) (now : Z) : bool :=
  match v with
  | Some (VDate t) => (t <=? now)%Z
  | _ =>
      match ToNumber StringToNumber v with
      | VNum n => (n <=? now)%Z
      | _ => false
      end
  end.

Definition post_create_ticket_checkout (bookingId : raw_id) (now : Z) : route :=
  λ st,
    match toObjectId bookingId with
    | None => (inl (Send 400 (Message "Invalid booking id")), st)
    | Some bookingOid =>
        match bookingsCollection st !! bookingOid with
        | None => (inl (Send 404 (Message "Booking not found")), st)
        | Some booking =>
            if bool_decide (b_status booking = paid) then
              (inl (Send 400 (Message "Already paid")), st)
            else if negb (bool_decide (b_status booking = accepted)) then
              (inl (Send 400 (Message "Booking must be accepted before payment")), st)
            else
              match ticketsCollection st !! b_ticketId booking with
              | None => (inl (Send 404 (Message "Ticket not found")), st)
              | Some ticket =>
                  if not_after (ticket !! "departure") now then
                    (inl (Send 400 (Message "Departure time passed")), st)
                  else
                    let quantity := b_quantity booking in
                    match ToNumber StringToNumber (b_price booking) with
                    | VNum unitPrice =>
                        if (unitPrice <=? 0)%Z || (quantity <=? 0)%Z then
                          (inl (Send 400 (Message "Invalid price or quantity")), st)
                        else
                          match stripe_create
                                  (mkCheckout (VNum (unitPrice * 100)) (b_title booking)
                                     quantity bookingOid (b_ticketId booking) quantity)
                          with
                          | Some url => (inr (CheckoutUrl url), st)
                          | None => (inl (Send 500 ErrMessage), st)
                          end
                    | _ => (inl (Send 400 (Message "Invalid price or quantity")), st)
                    end
              end
        end
    end.

(** *** [POST /users] *)

(** The user document keeps the fields the handlers branch on; [name],
    [photo] and [lastLogin], which this route writes to an existing user,
    are not among them. *)
Definition post_users (email name photo : option string) (now : Z) : route :=
  λ st,
    match email with
    | Some email =>
        if String.eqb email EmptyString then
          (inl (Send 400 (Message "email required")), st)
        else
          match findUser email (usersCollection st) with
          | Some existingUser => (inr (UserSaved "User updated"), st)
          | None =>
              (inr (UserSaved "User created"),
               with_users (usersCollection st ++ [mkUser email "user" false]) st)
          end
    | None => (inl (Send 400 (Message "email required")), st)
    end.

End Handlers.

End Part002Rest.

(** ** Checkout and registration in src/index.js *)

(** The body of [POST /users] in index.js, as far as the user document
    keeps it. *)
Record user_body := mkUserBody {
  ub_email : option string;
  ub_role : option string;
  ub_isFraud : option bool
}.

(** [updateOne({ email }, { $set })]: the first user with that e-mail. *)
Fixpoint updateUserByEmail (email : string) (f : user → user) (users : list user)
  : list user :=
  match users with
  | [] => []
  | u :: users =>
      if String.eqb (u_email u) email then f u :: users
      else u :: updateUserByEmail email f users
  end.

Module IndexJsRest.

Section Handlers.

Variable StringToNumber : value → value.

(** [new Date(s).getTime()] for a string or an object [s]; [None] is an
    invalid date. *)
Variable DateParse : value → option Z.

Variable stripe_create : checkout_request → option string.

(** [new Date(v)] as a time. *)
Definition time_of (v : option value) : option Z :=
  match v with
  | None | Some VNaN => None
  | Some VNull => Some 0%Z
  | Some (VBool b) => Some (if b then 1 else 0)%Z
  | Some (VNum n) => Some n
  | Some (VDate t) => Some t
  | Some w => DateParse w
  end.

(** [a * q * 100] for a stored value [a] and a number [q]. *)
Definition times_100 (a : option value) (q : Z) : value :=
  match ToNumber StringToNumber a with
  | VNum p => VNum (p * q * 100)
  | _ => VNaN
  end.

(** *** [POST /create-ticket-checkout] *)

Definition post_create_ticket_checkout (c : credential) (bookingId : raw_id)
    (now : Z) : route :=
  verifyJWT_route c (λ email st,
    match toObjectId bookingId with
    | None => (inl (Send 400 (Message "Invalid booking id")), st)
    | Some bookingOid =>
        match bookingsCollection st !! bookingOid with
        | None => (inl (Send 404 (Message "Booking not found")), st)
        | Some booking =>
            if bool_decide (b_status booking = paid) then
              (inl (Send 400 (Message "Already paid")), st)
            else
              match ticketsCollection st !! b_ticketId booking with
              | None => (inl (Send 404 (Message "Ticket not found")), st)
              | Some ticket =>
                  if match time_of (ticket !! "departure") with
                     | Some t => (t <=? now)%Z
                     | None => false
                     end then
                    (inl (Send 400
                            (Message "Departure time passed. Payment not allowed.")),
                     st)
                  else
                    let totalAmount := times_100 (b_price booking) (b_quantity booking) in
                    match stripe_create
                            (mkCheckout totalAmount (b_title booking) 1 bookingOid
                               (b_ticketId booking) (b_quantity booking))
                    with
                    | Some url => (inr (CheckoutUrl url), st)
                    | None => (inl (Send 500 ErrMessage), st)
                    end
              end
        end
    end).

(** *** [POST /users] *)

Definition post_users (body : user_body) : route :=
  λ st,
    match ub_email body with
    | Some email =>
        if String.eqb email EmptyString then
          (inl (Send 400 (Message "email required")), st)
        else
          let role :=
            match ub_role body with
            | Some r => if String.eqb r EmptyString then "user" else r
            | None => "user"
            end in
          match findUser email (usersCollection st) with
          | Some _ =>
              (inr (UserUpserted 1 false),
               with_users
                 (updateUserByEmail email (set_user (Some role) (ub_isFraud body))
                    (usersCollection st))
                 st)
          | None =>
              (inr (UserUpserted 0 true),
               with_users
                 (usersCollection st ++ [mkUser email role (default false (ub_isFraud body))])
                 st)
          end
    | None => (inl (Send 400 (Message "email required")), st)
    end.

End Handlers.

End IndexJsRest.

(** ** Ticket lists *)

(** The query string of [GET /tickets]; [q_limit] is what [parseInt] makes
    of a limit that names an integer, [None] for a request without one. *)
Record tickets_query := mkQuery {
  q_verificationStatus : option string;
  q_advertised : option string;
  q_limit : option Z;
  q_sort : option string;
  q_vendorEmail : option string
}.

(** A parameter that is present and not the empty string. *)
Definition given (s : option string) : option string :=
  match s with
  | Some s => if String.eqb s EmptyString then None else Some s
  | None => None
  end.

(** [cursor.limit(n)]: zero is no limit, and a negative [n] is the limit
    [-n]. *)
Definition limit {A} (n : Z) (l : list A) : list A :=
  if (n =? 0)%Z then l else take (Z.abs_nat n) l.

Section Lists.

(** The order in which the server returns the documents of a collection,
    and its sort by [createdAt], newest first. *)
Variable natural_order : gmap oid doc → list (oid * doc).

Variable sort_newest : list (oid * doc) → list (oid * doc).

(** [coll.find(filter).toArray()], each document with its [_id]. *)
Definition find (filter : doc → bool) (coll : gmap oid doc) : list (oid * doc) :=
  List.filter (λ kd, filter kd.2) (natural_order coll).

(** The filter [GET /tickets] builds from its query. *)
Definition tickets_filter (q : tickets_query) (d : doc) : bool :=
  negb (field_is (VBool true) (d !! "hidden"))
  && match given (q_verificationStatus q) with
     | Some s => field_is (VStr s) (d !! "verificationStatus")
     | None => true
     end
  && match q_advertised q with
     | Some a => field_is (VBool (String.eqb a "true")) (d !! "advertised")
     | None => true
     end
  && match given (q_vendorEmail q) with
     | Some e => field_is (VStr e) (d !! "vendorEmail")
     | None => true
     end.

(** [GET /tickets], the same text in both revisions. *)
Definition get_tickets (q : tickets_query) : route :=
  λ st,
    let found := find (tickets_filter q) (ticketsCollection st) in
    let sorted :=
      match q_sort q with
      | Some s => if String.eqb s "newest" then sort_newest found else found
      | None => found
      end in
    let limited :=
      match q_limit q with
      | Some n => limit n sorted
      | None => sorted
      end in
    (inr (Tickets limited), st).

(** [GET /tickets/advertised], the same text in both revisions;
    [parsed] is [parseInt(req.query.limit)], [None] when that is not a
    number. *)
Definition get_tickets_advertised (parsed : option Z) : route :=
  λ st,
    let n :=
      match parsed with
      | Some n => if (n =? 0)%Z then 6%Z else n
      | None => 6%Z
      end in
    (inr (Tickets
            (limit n
               (find (λ d, field_is (VBool true) (d !! "advertised")
                           && field_is (VStr "approved") (d !! "verificationStatus")
                           && negb (field_is (VBool true) (d !! "hidden")))
                  (ticketsCollection st)))),
     st).

(** [GET /tickets/vendor/:email], the same text in both revisions. *)
Definition get_tickets_vendor (c : credential) (email : string) : route :=
  verifyJWT_route c (λ caller st,
    if negb (String.eqb email caller) then (inl (Send 403 (Message "Forbidden")), st)
    else
      (inr (Tickets
              (sort_newest
                 (find (λ d, field_is (VStr email) (d !! "vendorEmail")
                             && negb (field_is (VBool true) (d !! "hidden")))
                    (ticketsCollection st)))),
       st)).

End Lists.

(** A ticket with its id is in the list a route answers with. *)
Definition listed (kd : oid * doc) (r : (response + payload) * store) : Prop :=
  ∃ found, r.1 = inr (Tickets found) ∧ kd ∈ found.

(** ** More of the shop, for the examples *)

Module SampleRest.

(** The body of a vendor's [POST /tickets]. *)
Definition draft : doc :=
  {[ "title" := VStr "Dhaka to Khulna"; "from" := VStr "Dhaka"; "to" := VStr "Khulna";
     "transport" := VStr "bus"; "price" := VNum 700; "quantity" := VNum 40;
     "departure" := VStr "2026-01-05T08:00"; "image" := VStr "khulna.jpg" ]}.

(** Stand-ins for the date constructor, the date parser and the payment
    provider. *)
Definition new_date (v : option value) : value := VDate 1000.

Definition date_parse (v : value) : option Z := None.

Definition stripe (rq : checkout_request) : option string :=
  Some "https://checkout.tixgo.test/session".

(** The ticket of the shop with its departure time. *)
Definition timed_ticket : doc :=
  <["departure" := VDate 1000]> (Sample.ticket "approved" 5 false).

(** The shop whose ticket departs at 1000, nothing booked. *)
Definition timed_shop : store :=
  mkStore Sample.users {[ 1%N := timed_ticket ]} ∅ [].

(** The same shop with one booking of two seats in the given status. *)
Definition timed_shop_with (status : booking_status) : store :=
  mkStore Sample.users {[ 1%N := timed_ticket ]} {[ 0%N := Sample.booked status ]} [].

(** A ticket that waits for approval and already carries the advertised
    flag. *)
Definition flagged_shop : store :=
  mkStore Sample.users {[ 1%N := Sample.ticket "pending" 5 true ]} ∅ [].






Definition newcomer : string := "mallory@tixgo.test".

(** A server that returns documents by id and leaves a list as it is
    where it should sort it. *)
Definition by_id (coll : gmap oid doc) : list (oid * doc) := map_to_list coll.

Definition unsorted (l : list (oid * doc)) : list (oid * doc) := l.

(** [GET /tickets] without a query string. *)
Definition everything : tickets_query := mkQuery None None None None None.

(** The shop with a ticket of a second vendor. *)
Definition rival : string := "karim@tixgo.test".

Definition rival_ticket : doc :=
  <["vendorEmail" := VStr rival]> (Sample.ticket "approved" 5 false).

Definition two_vendor_shop : store :=
  mkStore Sample.users
    {[ 1%N := Sample.ticket "approved" 5 false; 2%N := rival_ticket ]} ∅ [].

End SampleRest.

(** * Properties *)

(** ** Driver calls *)

Section UpdateOne.
Context {A : Type} `{EqDecision A}.
Implicit Types (coll : gmap oid A) (filter : A → bool) (update : A → option A).

(** Either nothing matched and the collection is as it was, or the one
    matching document was replaced by its update. *)
Lemma updateOne_cases id filter update coll r coll' :
  updateOne id filter update coll = Some (r, coll') →
  (r = no_match ∧ coll' = coll ∧
     (coll !! id = None ∨ ∃ a, coll !! id = Some a ∧ filter a = false))
  ∨ (∃ a a', coll !! id = Some a ∧ filter a = true ∧ update a = Some a' ∧
       r = mkResult 1 (if decide (a' = a) then 0 else 1) ∧
       coll' = <[id := a']> coll).
Proof.
  unfold updateOne. destruct (coll !! id) as [a|] eqn:Hl.
  - destruct (filter a) eqn:Hf.
    + destruct (update a) as [a'|] eqn:Hu; [|done].
      intros [= <- <-]. right. by exists a, a'.
    + intros [= <- <-]. left. repeat split; eauto.
  - intros [= <- <-]. left. repeat split; eauto.
Qed.

Lemma updateOne_hit id filter update coll a a' :
  coll !! id = Some a → filter a = true → update a = Some a' →
  updateOne id filter update coll
  = Some (mkResult 1 (if decide (a' = a) then 0 else 1), <[id := a']> coll).
Proof. intros Hl Hf Hu. unfold updateOne. by rewrite Hl, Hf, Hu. Qed.

Lemma updateOne_other id filter update coll r coll' id' :
  updateOne id filter update coll = Some (r, coll') →
  id' ≠ id → coll' !! id' = coll !! id'.
Proof.
  intros [(_ & -> & _)|(a & a' & _ & _ & _ & _ & ->)]%updateOne_cases Hne; [done|].
  by rewrite lookup_insert_ne.
Qed.

(** The driver throws only where the update is refused on the matching
    document. *)
Lemma updateOne_is_Some id filter update coll :
  (∀ a, coll !! id = Some a → filter a = true → is_Some (update a)) →
  is_Some (updateOne id filter update coll).
Proof.
  intros Hok. unfold updateOne. destruct (coll !! id) as [a|] eqn:Hl; [|by eexists].
  destruct (filter a) eqn:Hf; [|by eexists].
  destruct (Hok a eq_refl Hf) as [a' ->]. by eexists.
Qed.
End UpdateOne.

Lemma inc_field_gte f q k (d : doc) :
  field_gte f q d = true → ∃ n, d !! f = Some (VNum n) ∧ (q ≤ n)%Z
    ∧ inc_field f k d = Some (<[f := VNum (n + k)]> d).
Proof.
  unfold field_gte, inc_field. destruct (d !! f) as [[]|]; try done.
  intros Hq%Z.leb_le. eauto.
Qed.

(** The conditional decrement of part_002 is never refused: what
    [field_gte] matches is a number. *)
Lemma reserve_is_Some id q (coll : gmap oid doc) :
  is_Some (updateOne id (field_gte "quantity" q) (inc_field "quantity" (- q)) coll).
Proof.
  apply updateOne_is_Some. intros d _ (n & _ & _ & ->)%(inc_field_gte _ _ (- q)).
  by eexists.
Qed.

Lemma verifyAdmin_admin email next st :
  is_admin email st → verifyAdmin email next st = next st.
Proof.
  intros (u & Hu & Hr). unfold verifyAdmin. rewrite Hu, Hr. done.
Qed.

(** ** [$set] *)

Lemma foldl_set_field_None l : foldl set_field None l = None.
Proof. by induction l. Qed.

Lemma segments_not_nil s : segments s ≠ [].
Proof.
  destruct s as [|c rest]; simpl; [done|].
  destruct (Ascii.eqb _ _); [done|]. by destruct (segments rest).
Qed.

Lemma segments_single s k : segments s = [k] → s = k.
Proof.
  revert k. induction s as [|c rest IH]; intros k; simpl.
  - by intros [= <-].
  - destruct (Ascii.eqb _ _).
    + intros [= _ Hrest]. by apply segments_not_nil in Hrest.
    + destruct (segments rest) as [|segment more] eqn:Hs.
      * by apply segments_not_nil in Hs.
      * intros [= <- ->]. by rewrite (IH segment eq_refl).
Qed.

Lemma plain_segments k : plain k = true → segments k = [k].
Proof.
  unfold plain. intros H. apply andb_prop in H as [H _]. apply andb_prop in H as [H _].
  by apply bool_decide_eq_true in H.
Qed.

Lemma set_field_plain (d : doc) k v :
  plain k = true → k ≠ "_id" → set_field (Some d) (k, v) = Some (<[k := v]> d).
Proof.
  intros Hk Hid. unfold set_field. simpl. rewrite (plain_segments k Hk).
  unfold plain in Hk. apply andb_prop in Hk as [Hk Hd]. apply andb_prop in Hk as [_ He].
  apply negb_true_iff in He, Hd. rewrite He, Hd. simpl.
  by apply String.eqb_neq in Hid as ->.
Qed.

Lemma insert_by_name_perm kv l : insert_by_name kv l ≡ₚ kv :: l.
Proof.
  induction l as [|x rest IH]; simpl; [done|].
  destruct (String.leb _ _); [done|]. rewrite IH. apply Permutation_swap.
Qed.

Lemma in_order_perm l : in_order l ≡ₚ l.
Proof.
  induction l as [|x rest IH]; simpl; [done|].
  by rewrite insert_by_name_perm, IH.
Qed.

Lemma conflicting_plain names :
  (∀ k, k ∈ names → plain k = true) → conflicting names = false.
Proof.
  intros Hp. unfold conflicting. apply not_true_is_false.
  intros (k1 & H1 & (k2 & H2 & H)%existsb_exists)%existsb_exists.
  apply andb_prop in H as [Hne Hpre].
  apply list_elem_of_In in H1, H2.
  rewrite (plain_segments k1), (plain_segments k2) in Hpre by auto.
  simpl in Hpre. rewrite andb_true_r in Hpre. by rewrite Hpre in Hne.
Qed.

Lemma foldl_set_field_plain (l : list (string * value)) (d : doc) :
  (∀ kv, kv ∈ l → plain kv.1 = true ∧ kv.1 ≠ "_id") → NoDup l.*1 →
  foldl set_field (Some d) l = Some (list_to_map l ∪ d).
Proof.
  revert d. induction l as [|[k v] l IH]; intros d Hp Hnd.
  - simpl. by rewrite (left_id_L ∅ (∪)).
  - cbn [foldl list_to_map foldr uncurry]. apply NoDup_cons in Hnd as [Hk Hnd].
    destruct (Hp (k, v)) as [Hpk Hid]; [apply list_elem_of_here|].
    rewrite (set_field_plain d k v Hpk Hid).
    rewrite IH; [|intros kv Hkv; apply Hp; by apply list_elem_of_further|done].
    f_equal. rewrite <-insert_union_r, insert_union_l; [done|].
    by apply not_elem_of_list_to_map_1.
Qed.

(** Plain names: every field of the operand overwrites the document's. *)
Lemma set_fields_plain (upd d : doc) :
  (∀ k, is_Some (upd !! k) → plain k = true) → upd !! "_id" = None →
  set_fields upd d = Some (upd ∪ d).
Proof.
  intros Hp Hid. unfold set_fields.
  rewrite conflicting_plain.
  2:{ intros k ([k' v] & -> & Hkv)%list_elem_of_fmap.
      apply elem_of_map_to_list in Hkv. apply Hp. by eexists. }
  rewrite foldl_set_field_plain.
  - f_equal. f_equal.
    rewrite (list_to_map_proper _ (map_to_list upd)).
    + apply list_to_map_to_list.
    + rewrite in_order_perm. apply NoDup_fst_map_to_list.
    + apply in_order_perm.
  - intros [k v] Hkv. rewrite in_order_perm in Hkv.
    apply elem_of_map_to_list in Hkv. simpl. split.
    + apply Hp. by eexists.
    + intros ->. congruence.
  - rewrite in_order_perm. apply NoDup_fst_map_to_list.
Qed.

Lemma set_fields_singleton f v (d : doc) :
  plain f = true → f ≠ "_id" → set_fields {[f := v]} d = Some (<[f := v]> d).
Proof.
  intros Hp Hf. rewrite set_fields_plain.
  - by rewrite insert_union_singleton_l.
  - intros k [w Hk]. by apply lookup_singleton_Some in Hk as [<- _].
  - by rewrite lookup_singleton_ne.
Qed.

Lemma set_path_scalar path v w :
  path ≠ [] → scalar (Some w) = true → set_path path v (Some w) = None.
Proof.
  destruct path as [|segment rest]; [done|]. intros _ Hw. simpl.
  destruct (_ || _); [done|].
  destruct (String.eqb segment "$[]"); [by destruct w|].
  destruct (String.prefix _ _); [done|]. by destruct w.
Qed.

Lemma foldl_set_field_scalar (l : list (string * value)) (d d' : doc) k :
  (∀ kv, kv ∈ l → kv.1 ≠ k) → scalar (d !! k) = true →
  foldl set_field (Some d) l = Some d' → d' !! k = d !! k.
Proof.
  revert d. induction l as [|[key v] l IH]; intros d Hk Hs; simpl.
  - by intros [= ->].
  - assert (Hkey : key ≠ k) by (apply (Hk (key, v)), list_elem_of_here).
    destruct (segments key) as [|name rest] eqn:Hseg.
    { by rewrite foldl_set_field_None. }
    destruct (_ || _); [by rewrite foldl_set_field_None|].
    destruct (set_path rest v (d !! name)) as [w|] eqn:Hw; simpl;
      [|by rewrite foldl_set_field_None].
    intros Hfold. destruct (decide (name = k)) as [->|Hne].
    + destruct rest as [|s rest].
      { by apply segments_single in Hseg. }
      destruct (d !! k) as [x|] eqn:Hx; [|done].
      by rewrite set_path_scalar in Hw.
    + rewrite <-(lookup_insert_ne d name k w) by done.
      apply IH; [|by rewrite lookup_insert_ne|done].
      intros kv Hkv. apply Hk. by apply list_elem_of_further.
Qed.

(** A field that holds a string, a number, a boolean, a date, an id or
    null is written only by an operand that names it. *)
Lemma set_fields_scalar upd (d d' : doc) k :
  set_fields upd d = Some d' → upd !! k = None → scalar (d !! k) = true →
  d' !! k = d !! k.
Proof.
  unfold set_fields. destruct (conflicting _); [done|]. intros Hfold Hk Hs.
  eapply foldl_set_field_scalar; [|done|exact Hfold].
  intros [key v] Hkv. rewrite in_order_perm in Hkv.
  apply elem_of_map_to_list in Hkv. simpl. intros ->. congruence.
Qed.

(** ** Advertisement slots *)

Lemma length_le_size {A} (ids : list oid) (m : gmap oid A) :
  NoDup ids → (∀ i, i ∈ ids → is_Some (m !! i)) → length ids ≤ size m.
Proof.
  revert m. induction ids as [|i ids IH]; intros m Hnd Hin; simpl; [lia|].
  apply NoDup_cons in Hnd as [Hi Hnd].
  destruct (Hin i) as [a Ha]; [apply list_elem_of_here|].
  rewrite <-(insert_delete_id m i a Ha), map_size_insert_None by apply lookup_delete_eq.
  apply le_n_S, IH; [done|]. intros j Hj.
  rewrite lookup_delete_ne by (intros ->; done).
  apply Hin. by apply list_elem_of_further.
Qed.

(** Documents that match are counted. *)
Lemma countDocuments_ge {A} (query : A → bool) (ids : list oid) (m : gmap oid A) :
  NoDup ids → (∀ i, i ∈ ids → ∃ a, m !! i = Some a ∧ query a = true) →
  length ids ≤ countDocuments query m.
Proof.
  intros Hnd Hin. unfold countDocuments. apply length_le_size; [done|].
  intros i (a & Ha & Hq)%Hin. exists a. by apply map_lookup_filter_Some.
Qed.

Lemma approved_advertised_query (d : doc) :
  approved_advertised d = true → advertised_query d = true.
Proof.
  unfold approved_advertised, advertised_query, is_string.
  intros [Hs Ha]%andb_prop. apply bool_decide_eq_true in Ha. rewrite Ha.
  destruct (d !! "verificationStatus") as [[]|]; try done.
  apply String.eqb_eq in Hs as ->. reflexivity.
Qed.

(** The handler's query counts at least the tickets whose status is the
    string [approved] and whose flag is the boolean [true]. *)
Lemma countAdvertised_le (m : gmap oid doc) :
  countAdvertised m ≤ countDocuments advertised_query m.
Proof.
  unfold countAdvertised, countDocuments. apply map_subseteq_size.
  apply map_filter_subseteq_ext. intros i d _. simpl. apply approved_advertised_query.
Qed.

Lemma advertise_full (st : store) (email : string) (id : raw_id) :
  is_admin email st →
  6 ≤ countDocuments advertised_query (ticketsCollection st) →
  error_of (patch_tickets_advertise (Verified email) id (Some (VBool true)) st).1
    = Some SlotLimitExceeded
  ∧ (patch_tickets_advertise (Verified email) id (Some (VBool true)) st).2 = st.
Proof.
  intros Hadmin Hcount. unfold patch_tickets_advertise, verifyJWT.
  rewrite verifyAdmin_admin by done.
  apply Nat.leb_le in Hcount. rewrite Hcount. simpl. done.
Qed.

(** C8. An admin's advertise toggle.  The handler counts the tickets that
    match [{ verificationStatus: "approved", advertised: true }].  Turning
    [advertised] on is refused with SlotLimitExceeded, the store untouched,
    whenever six or more tickets match, and so whenever six tickets have
    the status [approved] and the flag [true]; with fewer than six matches
    it is carried out; turning it off is carried out whatever the count
    is. *)
Theorem advertise_slot_limit (st : store) (email : string) (id : raw_id) (adv : bool) :
  is_admin email st →
  let res := patch_tickets_advertise (Verified email) id (Some (VBool adv)) st in
  let matching := countDocuments advertised_query (ticketsCollection st) in
  (adv = true → 6 ≤ matching →
     error_of res.1 = Some SlotLimitExceeded ∧ res.2 = st)
  ∧ (adv = true →
     ∀ ids : list oid, NoDup ids → length ids = 6 →
       (∀ i, i ∈ ids → ∃ d, ticketsCollection st !! i = Some d
          ∧ d !! "verificationStatus" = Some (VStr "approved")
          ∧ d !! "advertised" = Some (VBool true)) →
       error_of res.1 = Some SlotLimitExceeded ∧ res.2 = st)
  ∧ (∀ oid d, id = Hex24 oid → ticketsCollection st !! oid = Some d →
       adv = false ∨ matching < 6 →
       (∃ n, res.1 = Send 200 (SuccessModified n))
       ∧ ticketsCollection res.2 !! oid = Some (<["advertised" := VBool adv]> d)
       ∧ ∀ oid', oid' ≠ oid →
           ticketsCollection res.2 !! oid' = ticketsCollection st !! oid').
Proof.
  intros Hadmin. cbv zeta. split; [|split].
  - intros ->. by apply advertise_full.
  - intros -> ids Hnd Hlen Hids. apply advertise_full; [done|].
    rewrite <-Hlen. apply countDocuments_ge; [done|].
    intros i (d & Hd & Hs & Ha)%Hids. exists d. split; [done|].
    unfold advertised_query. by rewrite Hs, Ha.
  - intros oid d -> Hd Hok.
    unfold patch_tickets_advertise, verifyJWT. rewrite verifyAdmin_admin by done.
    assert (adv && (6 <=? countDocuments advertised_query (ticketsCollection st)) = false)
      as ->.
    { destruct Hok as [->|Hlt]; [done|].
      apply andb_false_intro2. by apply Nat.leb_gt. }
    simpl toObjectId. cbv iota.
    erewrite updateOne_hit; [| done | done | by apply set_fields_singleton].
    simpl. split; [by eexists|]. split.
    + by rewrite lookup_insert_eq.
    + intros oid' Hne. by rewrite lookup_insert_ne.
Qed.

Lemma advertise_slot_limit_witness :
  (∃ n, (patch_tickets_advertise (Verified Sample.administrator) (Hex24 6)
           (Some (VBool true)) (Sample.gallery 5)).1 = Send 200 (SuccessModified n))
  ∧ ticketsCollection
      (patch_tickets_advertise (Verified Sample.administrator) (Hex24 6)
         (Some (VBool true)) (Sample.gallery 5)).2 !! 6%N
    = Some (Sample.ticket "approved" 5 true)
  ∧ error_of (patch_tickets_advertise (Verified Sample.administrator) (Hex24 7)
                (Some (VBool true)) (Sample.gallery 6)).1 = Some SlotLimitExceeded
  ∧ (patch_tickets_advertise (Verified Sample.administrator) (Hex24 7)
       (Some (VBool true)) (Sample.gallery 6)).2 = Sample.gallery 6
  ∧ (∃ n, (patch_tickets_advertise (Verified Sample.administrator) (Hex24 1)
             (Some (VBool false)) (Sample.gallery 7)).1 = Send 200 (SuccessModified n)).
Proof.
  assert (Hadmin : ∀ n, is_admin Sample.administrator (Sample.gallery n)).
  { intros n. eexists. split; reflexivity. }
  split; [|split; [|split; [|split]]].
  - destruct (advertise_slot_limit (Sample.gallery 5) Sample.administrator (Hex24 6) true
                (Hadmin 5)) as (_ & _ & H).
    destruct (H 6%N (Sample.ticket "approved" 5 false)) as [Hok _];
      [reflexivity | vm_compute; reflexivity | right; vm_compute; lia | exact Hok].
  - destruct (advertise_slot_limit (Sample.gallery 5) Sample.administrator (Hex24 6) true
                (Hadmin 5)) as (_ & _ & H).
    destruct (H 6%N (Sample.ticket "approved" 5 false)) as (_ & Hd & _);
      [reflexivity | vm_compute; reflexivity | right; vm_compute; lia |].
    etrans; [exact Hd | vm_compute; reflexivity].
  - destruct (advertise_slot_limit (Sample.gallery 6) Sample.administrator (Hex24 7) true
                (Hadmin 6)) as (_ & H & _).
    destruct (H eq_refl [1; 2; 3; 4; 5; 6]%N) as [Herr _];
      [apply (bool_decide_unpack _); vm_compute; reflexivity | reflexivity | | exact Herr].
    assert (Hall : Forall (λ i, ticketsCollection (Sample.gallery 6) !! i
                               = Some (Sample.ticket "approved" 5 true))
                     [1; 2; 3; 4; 5; 6]%N)
      by (apply (bool_decide_unpack _); vm_compute; reflexivity).
    intros i Hi. exists (Sample.ticket "approved" 5 true).
    split; [exact (proj1 (Forall_forall _ _) Hall i Hi) | split; vm_compute; reflexivity].
  - destruct (advertise_slot_limit (Sample.gallery 6) Sample.administrator (Hex24 7) true
                (Hadmin 6)) as (H & _ & _).
    destruct H as [_ Hst]; [reflexivity | vm_compute; lia | exact Hst].
  - destruct (advertise_slot_limit (Sample.gallery 7) Sample.administrator (Hex24 1) false
                (Hadmin 7)) as (_ & _ & H).
    destruct (H 1%N (Sample.ticket "approved" 5 true)) as [Hok _];
      [reflexivity | vm_compute; reflexivity | by left | exact Hok].
Defined.

(** ** Vendor updates of a ticket *)

Lemma protected_fields_cases k :
  k ∈ protected_fields →
  k = "verificationStatus" ∨ k = "vendorEmail" ∨ k = "vendorName" ∨ k = "createdAt".
Proof.
  unfold protected_fields. intros H.
  repeat (apply elem_of_cons in H as [-> | H]; [tauto|]).
  by apply elem_of_nil in H.
Qed.

Lemma indexjs_strip_protected k body :
  k ∈ protected_fields → IndexJs.strip_protected body !! k = None.
Proof.
  intros Hk%protected_fields_cases. unfold IndexJs.strip_protected.
  destruct Hk as [-> | [-> | [-> | ->]]]; by simplify_map_eq.
Qed.

Lemma part002_strip_protected k body :
  k ∈ protected_fields → Part002.strip_protected body !! k = None.
Proof.
  intros Hk%protected_fields_cases. unfold Part002.strip_protected.
  destruct Hk as [-> | [-> | [-> | ->]]]; by simplify_map_eq.
Qed.

Lemma normalise_perks_other k u :
  k ≠ "perks" → Part002.normalise_perks u !! k = u !! k.
Proof.
  intros Hk. unfold Part002.normalise_perks.
  destruct (u !! "perks") as [p|].
  - destruct (isArray (Some p)); [done|]. by rewrite lookup_insert_ne.
  - by rewrite lookup_delete_ne.
Qed.

Lemma number_if_truthy_other ston f k u :
  k ≠ f → Part002.number_if_truthy ston f u !! k = u !! k.
Proof.
  intros Hk. unfold Part002.number_if_truthy.
  destruct (truthy (u !! f)); [|done]. by rewrite lookup_insert_ne.
Qed.

(** The update either leaves the tickets as they were or applies one
    [$set] whose operand has none of the protected fields. *)
Lemma patch_tickets_effect r ston c id body st :
  let st' := (patch_tickets r ston c id body st).2 in
  ticketsCollection st' = ticketsCollection st
  ∨ ∃ oid d d' upd,
      ticketsCollection st !! oid = Some d ∧
      set_fields upd d = Some d' ∧
      (∀ k, k ∈ protected_fields → upd !! k = None) ∧
      ticketsCollection st' = <[oid := d']> (ticketsCollection st).
Proof.
  cbv zeta. destruct r, c as [| |email]; simpl; try (by left).
  - destruct (toObjectId id) as [oid|]; [|by left].
    destruct (ticketsCollection st !! oid) as [d|] eqn:Hd; [|by left].
    destruct (negb _); [by left|].
    destruct (is_string (d !! "verificationStatus") "rejected"); [by left|].
    destruct (updateOne _ _ _ _) as [[res tickets']|] eqn:Hu; [|by left].
    apply updateOne_cases in Hu as [(_ & -> & _)|(a & a' & Ha & _ & Hset & _ & ->)];
      [by left|].
    right. eexists oid, a, a', _. split; [done|]. split; [exact Hset|].
    split; [|done]. intros k Hk.
    pose proof (protected_fields_cases k Hk) as Hc.
    rewrite !number_if_truthy_other, normalise_perks_other
      by (destruct Hc as [-> | [-> | [-> | ->]]]; done).
    by apply part002_strip_protected.
  - destruct (toObjectId id) as [oid|]; [|by left].
    destruct (ticketsCollection st !! oid) as [d|] eqn:Hd; [|by left].
    destruct (is_string (d !! "verificationStatus") "rejected"); [by left|].
    destruct (updateOne _ _ _ _) as [[res tickets']|] eqn:Hu; [|by left].
    apply updateOne_cases in Hu as [(_ & -> & _)|(a & a' & Ha & _ & Hset & _ & ->)];
      [by left|].
    right. eexists oid, a, a', _. split; [done|]. split; [exact Hset|].
    split; [|done]. intros k Hk. by apply indexjs_strip_protected.
Qed.

(** The path [vendorName.first] on a ticket that has no [vendorName]. *)
Lemma set_fields_vendorName_first v (d : doc) :
  d !! "vendorName" = None →
  set_fields {[ "vendorName.first" := v ]} d
  = Some (<["vendorName" := VObj [("first", v)]]> d).
Proof.
  intros Hd. unfold set_fields. rewrite map_to_list_singleton.
  cbn [fmap list_fmap fst in_order foldr insert_by_name foldl].
  change (conflicting ["vendorName.first"]) with false. cbv iota.
  unfold set_field. cbn [mbind option_bind fst snd].
  change (segments "vendorName.first") with ["vendorName"; "first"].
  change (String.eqb "vendorName" EmptyString || String.prefix "$" "vendorName"
          || String.eqb "vendorName" "_id") with false.
  cbv iota. rewrite Hd. reflexivity.
Qed.

(** C10, where the code departs from it.  [PATCH /tickets/:id] removes the
    keys [verificationStatus], [vendorEmail], [vendorName] and [createdAt]
    from the update.  That keeps each of these fields as it is as long as
    the ticket holds a string, a number, a boolean, a date, an id or null
    there, whatever the body and whoever sends it.  But the server reads a
    key of the update as a dotted path, and [vendorName.first] is none of
    the four keys: on a ticket that has no [vendorName], as every ticket
    that [POST /tickets] of part_002 makes, the request is answered 200 and
    the ticket has a [vendorName] afterwards.  Both revisions; part_002
    asks for the ticket's owner, index.js for any signed-in caller. *)
Theorem patch_tickets_protects_by_key_only (r : revision)
    (StringToNumber : value → value) (st : store) (tid : oid) (d : doc) :
  ticketsCollection st !! tid = Some d →
  (∀ c id body k, k ∈ protected_fields → scalar (d !! k) = true →
     (λ d' : doc, d' !! k)
       <$> ticketsCollection (patch_tickets r StringToNumber c id body st).2 !! tid
     = Some (d !! k))
  ∧ (∀ caller v,
       d !! "vendorName" = None →
       is_string (d !! "verificationStatus") "rejected" = false →
       (r = part_002 → is_string (d !! "vendorEmail") caller = true) →
       let res := patch_tickets r StringToNumber (Verified caller) (Hex24 tid)
                    {[ "vendorName.first" := v ]} st in
       res.1 = Send 200 (SuccessModified 1)
       ∧ ticketsCollection res.2 !! tid
         = Some (<["vendorName" := VObj [("first", v)]]> d)).
Proof.
  intros Hd. split.
  - intros c id body k Hk Hs.
    destruct (patch_tickets_effect r StringToNumber c id body st)
      as [->|(oid & d0 & d' & upd & Hd0 & Hset & Hupd & ->)]; [by rewrite Hd|].
    destruct (decide (tid = oid)) as [->|Hne].
    + rewrite lookup_insert_eq. simpl. f_equal.
      assert (d0 = d) as -> by congruence.
      eapply set_fields_scalar; eauto.
    + by rewrite lookup_insert_ne, Hd.
  - intros caller v Hvn Hrej Howner. cbv zeta.
    assert (Hne : <["vendorName" := VObj [("first", v)]]> d ≠ d).
    { intros Heq. apply (f_equal (λ m : doc, m !! "vendorName")) in Heq.
      rewrite lookup_insert_eq, Hvn in Heq. done. }
    destruct r; simpl; rewrite Hd, Hrej.
    + rewrite Howner by done. simpl.
      assert (Part002.number_if_truthy StringToNumber "quantity"
                (Part002.number_if_truthy StringToNumber "price"
                   (Part002.normalise_perks
                      (Part002.strip_protected {[ "vendorName.first" := v ]})))
              = {[ "vendorName.first" := v ]}) as -> by (vm_compute; reflexivity).
      erewrite updateOne_hit; [| done | done | by apply set_fields_vendorName_first].
      simpl. rewrite decide_False by done. by rewrite lookup_insert_eq.
    + assert (IndexJs.strip_protected {[ "vendorName.first" := v ]}
              = {[ "vendorName.first" := v ]}) as -> by (vm_compute; reflexivity).
      erewrite updateOne_hit; [| done | done | by apply set_fields_vendorName_first].
      simpl. rewrite decide_False by done. by rewrite lookup_insert_eq.
Qed.

Lemma patch_tickets_protects_by_key_only_witness :
  let res := patch_tickets part_002 Sample.not_a_number (Verified Sample.vendor) (Hex24 1)
               {[ "vendorName.first" := VStr "Green Line" ]} Sample.shop in
  (ticketsCollection Sample.shop !! 1%N) ≫= (λ d, d !! "vendorName") = None
  ∧ res.1 = Send 200 (SuccessModified 1)
  ∧ (ticketsCollection res.2 !! 1%N) ≫= (λ d, d !! "vendorName")
    = Some (VObj [("first", VStr "Green Line")])
  ∧ (λ d : doc, d !! "verificationStatus")
      <$> ticketsCollection
            (patch_tickets index_js Sample.not_a_number (Verified Sample.customer)
               (Hex24 1)
               {[ "verificationStatus.by" := VStr "approved"; "price" := VNum 450 ]}
               Sample.shop).2 !! 1%N
    = Some (Some (VStr "approved")).
Proof.
  cbv zeta. split; [vm_compute; reflexivity|].
  destruct (patch_tickets_protects_by_key_only part_002 Sample.not_a_number Sample.shop
              1%N (Sample.ticket "approved" 5 false)) as [_ Hwrite];
    [vm_compute; reflexivity|].
  destruct (Hwrite Sample.vendor (VStr "Green Line")) as [Hres Hticket];
    [vm_compute; reflexivity | vm_compute; reflexivity
    | intros _; vm_compute; reflexivity |].
  split; [exact Hres|]. split.
  - etrans; [exact (f_equal (λ o : option doc, o ≫= (λ d, d !! "vendorName")) Hticket)|].
    vm_compute. reflexivity.
  - destruct (patch_tickets_protects_by_key_only index_js Sample.not_a_number Sample.shop
                1%N (Sample.ticket "approved" 5 false)) as [Hkeep _];
      [vm_compute; reflexivity|].
    etrans; [apply (Hkeep (Verified Sample.customer) (Hex24 1)
                      {[ "verificationStatus.by" := VStr "approved"; "price" := VNum 450 ]}
                      "verificationStatus")|].
    + apply list_elem_of_here.
    + vm_compute. reflexivity.
    + vm_compute. reflexivity.
Defined.


(** C9, where the code departs from it.  In index.js the vendor who owns a
    rejected ticket sends [PUT /tickets/:id]: the request is answered 200,
    the ticket takes the new title, and its [verificationStatus] goes back
    to approved.  [PATCH] and [DELETE] refuse the same ticket with 403. *)
Theorem put_tickets_updates_rejected_ticket :
  let update : doc :=
    {[ "title" := VStr "Sylhet to Dhaka"; "verificationStatus" := VStr "approved" ]} in
  let res := IndexJs.put_tickets (Verified Sample.vendor) (Hex24 1) update
               Sample.rejected_shop in
  (ticketsCollection Sample.rejected_shop !! 1%N) ≫= (λ d, d !! "verificationStatus")
    = Some (VStr "rejected")
  ∧ res.1 = Send 200 (UpdateResult (mkResult 1 1))
  ∧ error_of res.1 = None
  ∧ (ticketsCollection res.2 !! 1%N) ≫= (λ d, d !! "title")
    = Some (VStr "Sylhet to Dhaka")
  ∧ (ticketsCollection res.2 !! 1%N) ≫= (λ d, d !! "verificationStatus")
    = Some (VStr "approved").
Proof. vm_compute. done. Qed.

(** ** Payment verification *)

Lemma findPayment_None tx st :
  findPayment tx (paymentsCollection st) = None ↔ payments_for tx st = [].
Proof.
  unfold findPayment, payments_for.
  induction (paymentsCollection st) as [|p ps IH]; simpl; [done|].
  destruct (String.eqb (p_transactionId p) tx); [split; done|]. done.
Qed.

Lemma findPayment_Some tx st p :
  findPayment tx (paymentsCollection st) = Some p → 1 ≤ length (payments_for tx st).
Proof.
  intros Hf. destruct (payments_for tx st) eqn:Hp; simpl; [|lia].
  apply findPayment_None in Hp. congruence.
Qed.

Lemma findPayment_insert tx ps p :
  p_transactionId p = tx → is_Some (findPayment tx (ps ++ [p])).
Proof.
  intros Hp. unfold findPayment. induction ps as [|q ps IH]; simpl.
  - rewrite Hp, String.eqb_refl. by eexists.
  - destruct (String.eqb (p_transactionId q) tx); [by eexists|done].
Qed.

Lemma verify_payment_verified r s now st :
  (verify_payment r (Some s) now st).1 = verified r →
  ∃ id b, finalizable s st id b.
Proof.
  unfold finalizable. destruct r; simpl.
  - unfold Part002.post_payments_verify.
    destruct (String.eqb_spec (payment_status s) "paid") as [Hp|]; [|done]. simpl.
    destruct (toObjectId (metadata_bookingId s)) as [bid|]; [|done].
    destruct (bookingsCollection st !! bid) as [b|] eqn:Hb; [|done].
    intros _. by exists bid, b.
  - unfold IndexJs.get_stripe_payment_success.
    destruct (String.eqb_spec (payment_status s) "paid") as [Hp|]; [|done]. simpl.
    destruct (toObjectId (metadata_bookingId s)) as [bid|]; [|done]. simpl.
    destruct (bookingsCollection st !! bid) as [b|] eqn:Hb; [|done].
    intros _. by exists bid, b.
Qed.

Lemma verify_payment_known r s now st p :
  findPayment (payment_intent s) (paymentsCollection st) = Some p →
  (verify_payment r (Some s) now st).2 = st
  ∧ ∀ id b, finalizable s st id b → (verify_payment r (Some s) now st).1 = verified r.
Proof.
  intros Hfind. unfold finalizable. destruct r; simpl.
  - unfold Part002.post_payments_verify.
    destruct (negb _) eqn:Hp; [split; [done|]|].
    { intros id b (Hpaid & _). rewrite Hpaid in Hp. done. }
    destruct (toObjectId (metadata_bookingId s)) as [bid|]; [|split; [done|]].
    2:{ intros id b (_ & [=] & _). }
    destruct (bookingsCollection st !! bid) as [b|] eqn:Hb; [|split; [done|]].
    2:{ intros id b (_ & [= <-] & Hl). congruence. }
    by rewrite Hfind.
  - unfold IndexJs.get_stripe_payment_success.
    destruct (negb _) eqn:Hp; [split; [done|]|].
    { intros id b (Hpaid & _). rewrite Hpaid in Hp. done. }
    destruct (toObjectId (metadata_bookingId s)) as [bid|]; simpl; [|split; [done|]].
    2:{ intros id b (_ & [=] & _). }
    destruct (bookingsCollection st !! bid) as [b|] eqn:Hb; simpl; [|split; [done|]].
    2:{ intros id b (_ & [= <-] & Hl). congruence. }
    by rewrite Hfind.
Qed.

Lemma inc_field_gte_any f q k (d d' : doc) :
  field_gte_any f q d = true → inc_field f k d = Some d' →
  ∃ n, d !! f = Some (VNum n) ∧ (q ≤ n)%Z ∧ d' = <[f := VNum (n + k)]> d.
Proof.
  unfold field_gte_any, field_gte, inc_field.
  destruct (d !! f) as [[]|]; try done.
  intros Hq%Z.leb_le [= <-]. eauto.
Qed.

(** A first delivery for an existing booking: the booking is set to paid;
    then either the payment is recorded and the delivery answered as
    verified, or, in index.js, the decrement of the stock is refused, the
    delivery answered 500 and no payment recorded. *)
Lemma verify_payment_fresh r s now st id b :
  finalizable s st id b →
  findPayment (payment_intent s) (paymentsCollection st) = None →
  (∃ p tickets',
     p_transactionId p = payment_intent s ∧
     verify_payment r (Some s) now st
     = (verified r,
        mkStore (usersCollection st) tickets'
          (<[id := mkBooking (b_ticketId b) (b_vendorEmail b) (b_customerEmail b)
                     (b_title b) (b_price b) (b_quantity b) paid (b_createdAt b)
                     (b_acceptedAt b) (b_rejectedAt b) (Some now)]> (bookingsCollection st))
          (paymentsCollection st ++ [p])))
  ∨ (r = index_js ∧
     verify_payment r (Some s) now st
     = (Send 500 ErrMessage,
        mkStore (usersCollection st) (ticketsCollection st)
          (<[id := mkBooking (b_ticketId b) (b_vendorEmail b) (b_customerEmail b)
                     (b_title b) (b_price b) (b_quantity b) paid (b_createdAt b)
                     (b_acceptedAt b) (b_rejectedAt b) (Some now)]> (bookingsCollection st))
          (paymentsCollection st))).
Proof.
  intros (Hpaid & Hid & Hb) Hfind. destruct r; simpl.
  - left. unfold Part002.post_payments_verify.
    rewrite Hpaid, Hid, Hb, Hfind. simpl.
    erewrite updateOne_hit by done. simpl.
    eexists _, _. split; [|reflexivity]. done.
  - unfold IndexJs.get_stripe_payment_success.
    rewrite Hpaid, Hid. simpl. rewrite Hb, Hfind. simpl.
    erewrite updateOne_hit by done. simpl.
    destruct (toObjectId (metadata_ticketId s)) as [tid|].
    + destruct (updateOne tid _ _ _) as [[res tickets']|] eqn:Hu.
      * left. eexists _, _. split; [|reflexivity]. done.
      * by right.
    + left. eexists _, _. split; [|reflexivity]. done.
Qed.

(** C1. Two deliveries of the same completed checkout, hence of the same
    transaction id, the first of them accepted: afterwards exactly one
    payment carries that transaction id; the second delivery is answered
    as verified and leaves the whole store as the first left it, as does
    any other request with that transaction id; and where the first
    delivery was the first to carry the id, it is the one that moved the
    booking to [paid]: afterwards the booking has the status [paid] and the
    time of that delivery as its [paidAt], its other fields as before.
    Both revisions. *)
Theorem verify_payment_idempotent (r : revision) (s : checkout_session)
    (now1 now2 : Z) (st : store) :
  length (payments_for (payment_intent s) st) ≤ 1 →
  (verify_payment r (Some s) now1 st).1 = verified r →
  let st1 := (verify_payment r (Some s) now1 st).2 in
  length (payments_for (payment_intent s) st1) = 1
  ∧ verify_payment r (Some s) now2 st1 = (verified r, st1)
  ∧ (∀ s2 now, payment_intent s2 = payment_intent s →
       (verify_payment r (Some s2) now st1).2 = st1)
  ∧ (payments_for (payment_intent s) st = [] →
       ∃ id b, toObjectId (metadata_bookingId s) = Some id
         ∧ bookingsCollection st !! id = Some b
         ∧ bookingsCollection st1 !! id
           = Some (mkBooking (b_ticketId b) (b_vendorEmail b) (b_customerEmail b)
                     (b_title b) (b_price b) (b_quantity b) paid (b_createdAt b)
                     (b_acceptedAt b) (b_rejectedAt b) (Some now1))).
Proof.
  intros Hone Hok. cbv zeta.
  destruct (verify_payment_verified _ _ _ _ Hok) as (id & b & Hfin).
  destruct (findPayment (payment_intent s) (paymentsCollection st)) as [p|] eqn:Hfind.
  - destruct (verify_payment_known r s now1 st p Hfind) as [Hst _].
    rewrite Hst. split; [apply findPayment_Some in Hfind; lia|]. split; [|split].
    + destruct (verify_payment_known r s now2 st p Hfind) as [Hst2 Hresp].
      rewrite (surjective_pairing (verify_payment _ _ _ _)).
      by rewrite Hst2, (Hresp id b Hfin).
    + intros s2 now Htx. eapply verify_payment_known. rewrite Htx. done.
    + intros Hnil%findPayment_None. congruence.
  - destruct (verify_payment_fresh r s now1 st id b Hfin Hfind)
      as [(p & tickets' & Htx & Heq)|[-> Heq]].
    2:{ rewrite Heq in Hok. done. }
    clear Hok. rewrite Heq. simpl.
    assert (Hfind1 : is_Some (findPayment (payment_intent s) (paymentsCollection st ++ [p])))
      by by apply findPayment_insert.
    destruct Hfind1 as [p1 Hfind1].
    split; [|split; [|split]].
    + unfold payments_for. simpl. rewrite List.filter_app. simpl.
      rewrite Htx, String.eqb_refl.
      apply findPayment_None in Hfind. unfold payments_for in Hfind.
      by rewrite Hfind.
    + match goal with |- verify_payment r _ _ ?st1 = _ =>
        destruct (verify_payment_known r s now2 st1 p1 Hfind1) as [Hst2 Hresp];
        rewrite (surjective_pairing (verify_payment r (Some s) now2 st1));
        rewrite Hst2, (Hresp id (mkBooking (b_ticketId b) (b_vendorEmail b) (b_customerEmail b)
                    (b_title b) (b_price b) (b_quantity b) paid (b_createdAt b)
                    (b_acceptedAt b) (b_rejectedAt b) (Some now1))); [done|]
      end.
      destruct Hfin as (? & ? & ?). split; [done|]. split; [done|]. simpl.
      by rewrite lookup_insert_eq.
    + intros s2 now Htx2.
      match goal with |- (verify_payment r _ _ ?st1).2 = _ =>
        eapply (verify_payment_known r s2 now st1 p1) end.
      by rewrite Htx2.
    + intros _. destruct Hfin as (? & ? & ?). exists id, b. split; [done|]. split; [done|].
      simpl. by rewrite lookup_insert_eq.
Qed.

Lemma verify_payment_idempotent_witness :
  let st := Sample.shop_with accepted in
  let st1 := (verify_payment part_002 (Some Sample.session) 100 st).2 in
  b_status <$> bookingsCollection st !! 0%N = Some accepted
  ∧ length (payments_for (payment_intent Sample.session) st1) = 1
  ∧ verify_payment part_002 (Some Sample.session) 200 st1 = (verified part_002, st1)
  ∧ b_status <$> bookingsCollection st1 !! 0%N = Some paid
  ∧ b_paidAt <$> bookingsCollection st1 !! 0%N = Some (Some 100%Z).
Proof.
  cbv zeta. split; [vm_compute; reflexivity|].
  destruct (verify_payment_idempotent part_002 Sample.session 100 200
              (Sample.shop_with accepted)) as (Hone & Hagain & _ & Hpaid).
  - vm_compute. lia.
  - vm_compute. reflexivity.
  - split; [exact Hone|]. split; [exact Hagain|].
    destruct Hpaid as (id & b & Hid & Hb & Hb1); [vm_compute; reflexivity|].
    assert (id = 0%N) as -> by (vm_compute in Hid; congruence).
    assert (Some b = Some (Sample.booked accepted)) as [= ->]
      by (rewrite <-Hb; reflexivity).
    split.
    + exact (f_equal (fmap b_status) Hb1).
    + exact (f_equal (fmap b_paidAt) Hb1).
Defined.

(** [POST /payments/verify] has no write to the tickets. *)
Lemma part002_verify_keeps_tickets session now st :
  ticketsCollection (Part002.post_payments_verify session now st).2
  = ticketsCollection st.
Proof.
  unfold Part002.post_payments_verify.
  destruct session as [s|]; [|done].
  destruct (negb _); [done|].
  destruct (toObjectId _) as [bid|]; [|done].
  destruct (bookingsCollection st !! bid) as [b|]; [|done].
  destruct (findPayment _ _); [done|].
  by destruct (updateOne _ _ _ _) as [[??]|].
Qed.

(** C7 as amended.  A first delivery of a paid checkout for an existing
    booking sets the booking to [paid] and stamps [paidAt] with the time of
    the delivery, its other fields as before.  In part_002 it is answered
    as verified, records one payment and writes no ticket.  In index.js,
    where the quantity of the ticket named in the session is not an array,
    it is answered as verified, records one payment, and takes the
    session's quantity out of that ticket when the ticket's quantity is a
    number at least that large, leaving the ticket as it was otherwise; it
    writes no other ticket. *)
Theorem finalize_paid_and_stock (r : revision) (s : checkout_session) (now : Z)
    (st : store) (id : oid) (b : booking) :
  finalizable s st id b →
  payments_for (payment_intent s) st = [] →
  let res := verify_payment r (Some s) now st in
  let q := metadata_quantity s in
  bookingsCollection res.2 !! id
  = Some (mkBooking (b_ticketId b) (b_vendorEmail b) (b_customerEmail b)
            (b_title b) (b_price b) (b_quantity b) paid (b_createdAt b)
            (b_acceptedAt b) (b_rejectedAt b) (Some now))
  ∧ match r with
    | part_002 =>
        res.1 = verified part_002
        ∧ length (paymentsCollection res.2) = S (length (paymentsCollection st))
        ∧ ticketsCollection res.2 = ticketsCollection st
    | index_js =>
        (∀ tid, toObjectId (metadata_ticketId s) ≠ Some tid →
           ticketsCollection res.2 !! tid = ticketsCollection st !! tid)
        ∧ (res.1 = verified index_js →
           length (paymentsCollection res.2) = S (length (paymentsCollection st)))
        ∧ (toObjectId (metadata_ticketId s) = None → res.1 = verified index_js)
        ∧ ∀ tid, toObjectId (metadata_ticketId s) = Some tid →
            match ticketsCollection st !! tid with
            | None =>
                res.1 = verified index_js ∧ ticketsCollection res.2 !! tid = None
            | Some d =>
                (∀ items, d !! "quantity" ≠ Some (VArr items)) →
                res.1 = verified index_js
                ∧ ticketsCollection res.2 !! tid
                  = Some match d !! "quantity" with
                         | Some (VNum n) =>
                             if (q <=? n)%Z then <["quantity" := VNum (n - q)]> d else d
                         | _ => d
                         end
            end
    end.
Proof.
  intros Hfin Hfresh%findPayment_None. cbv zeta.
  split.
  { destruct (verify_payment_fresh r s now st id b Hfin Hfresh)
      as [(p & tickets' & Htx & Heq)|[-> Heq]];
      rewrite Heq; simpl; by rewrite lookup_insert_eq. }
  destruct r.
  - destruct (verify_payment_fresh part_002 s now st id b Hfin Hfresh)
      as [(p & tickets' & Htx & Heq)|[[=] _]].
    split; [by rewrite Heq|]. split.
    + rewrite Heq. simpl. rewrite length_app. simpl. lia.
    + apply part002_verify_keeps_tickets.
  - split; [|split].
    { destruct Hfin as (Hpaid & Hid & Hb). simpl.
      unfold IndexJs.get_stripe_payment_success.
      rewrite Hpaid, Hid. simpl. rewrite Hb, Hfresh. simpl.
      erewrite updateOne_hit by done. simpl. intros tid Hne.
      destruct (toObjectId (metadata_ticketId s)) as [tid'|]; simpl; [|done].
      destruct (updateOne tid' _ _ _) as [[res tickets']|] eqn:Hu; simpl; [|done].
      apply (updateOne_other _ _ _ _ _ _ tid) in Hu; [done|congruence]. }
    { destruct (verify_payment_fresh index_js s now st id b Hfin Hfresh)
        as [(p & tickets' & Htx & Heq)|[_ Heq]]; rewrite Heq; simpl; [|done].
      intros _. rewrite length_app. simpl. lia. }
    destruct Hfin as (Hpaid & Hid & Hb). simpl.
    unfold IndexJs.get_stripe_payment_success.
    rewrite Hpaid, Hid. simpl. rewrite Hb, Hfresh. simpl.
    erewrite updateOne_hit by done. simpl.
    destruct (toObjectId (metadata_ticketId s)) as [tid'|]; simpl; [|done].
    split; [done|]. intros tid [= <-].
    unfold updateOne.
    destruct (ticketsCollection st !! tid') as [d|] eqn:Hd; simpl; [|by rewrite Hd].
    intros Harr. unfold field_gte_any, field_gte, inc_field.
    destruct (d !! "quantity") as [[| |n| | | | |items|]|] eqn:Hq; simpl;
      try (by rewrite Hd); try (by destruct (Harr items)).
    destruct (metadata_quantity s <=? n)%Z eqn:Hle; simpl; [|by rewrite Hd].
    by rewrite lookup_insert_eq, Z.add_opp_r.
Qed.

(** In index.js a ticket whose quantity is an array that holds a number is
    matched by the filter of the decrement and the decrement is refused:
    the booking is paid, the delivery is answered 500 and no payment is
    recorded. *)
Lemma indexjs_array_quantity_refused :
  let st := mkStore Sample.users
              {[ 1%N := <["quantity" := VArr [VNum 5]]> (Sample.ticket "approved" 5 false) ]}
              {[ 0%N := Sample.booked accepted ]} [] in
  let res := verify_payment index_js (Some Sample.session) 100 st in
  res.1 = Send 500 ErrMessage
  ∧ b_status <$> bookingsCollection res.2 !! 0%N = Some paid
  ∧ (ticketsCollection res.2 !! 1%N) ≫= (λ d, d !! "quantity") = Some (VArr [VNum 5])
  ∧ paymentsCollection res.2 = [].
Proof. cbv zeta. repeat split; vm_compute; reflexivity. Qed.

(** In index.js a verified payment takes the paid seats out of the stock. *)
Lemma finalize_paid_decrements_stock :
  let st := Sample.shop_with accepted in
  let res := verify_payment index_js (Some Sample.session) 100 st in
  res.1 = verified index_js
  ∧ b_status <$> bookingsCollection res.2 !! 0%N = Some paid
  ∧ quantity_of <$> ticketsCollection st !! 1%N = Some (Some 5%Z)
  ∧ quantity_of <$> ticketsCollection res.2 !! 1%N = Some (Some 3%Z).
Proof. vm_compute. done. Qed.

Lemma finalize_paid_and_stock_witness :
  let st := Sample.shop_with accepted in
  let res := verify_payment index_js (Some Sample.session) 100 st in
  b_status <$> bookingsCollection st !! 0%N = Some accepted
  ∧ b_status <$> bookingsCollection res.2 !! 0%N = Some paid
  ∧ b_paidAt <$> bookingsCollection res.2 !! 0%N = Some (Some 100%Z)
  ∧ res.1 = verified index_js
  ∧ (ticketsCollection st !! 1%N) ≫= (λ d, d !! "quantity") = Some (VNum 5)
  ∧ (ticketsCollection res.2 !! 1%N) ≫= (λ d, d !! "quantity") = Some (VNum 3).
Proof.
  cbv zeta. split; [vm_compute; reflexivity|].
  destruct (finalize_paid_and_stock index_js Sample.session 100
              (Sample.shop_with accepted) 0%N (Sample.booked accepted))
    as (Hb & _ & _ & _ & Hticket).
  - vm_compute. done.
  - vm_compute. done.
  - split; [exact (f_equal (fmap b_status) Hb)|].
    split; [exact (f_equal (fmap b_paidAt) Hb)|].
    assert (Hgoal :
      (verify_payment index_js (Some Sample.session) 100 (Sample.shop_with accepted)).1
      = verified index_js
      ∧ ticketsCollection
          (verify_payment index_js (Some Sample.session) 100
             (Sample.shop_with accepted)).2 !! 1%N
        = Some (<["quantity" := VNum (5 - 2)]> (Sample.ticket "approved" 5 false))).
    { assert (Hnum :
        (∀ items, Sample.ticket "approved" 5 false !! "quantity" ≠ Some (VArr items)) →
        (verify_payment index_js (Some Sample.session) 100 (Sample.shop_with accepted)).1
        = verified index_js
        ∧ ticketsCollection
            (verify_payment index_js (Some Sample.session) 100
               (Sample.shop_with accepted)).2 !! 1%N
          = Some (<["quantity" := VNum (5 - 2)]> (Sample.ticket "approved" 5 false)))
        by exact (Hticket 1%N eq_refl).
      apply Hnum. intros items Hitems.
      assert (Some (VNum 5) = Some (VArr items)) as [=] by (rewrite <-Hitems; reflexivity). }
    destruct Hgoal as [Hres Ht].
    split; [exact Hres|]. split; [vm_compute; reflexivity|].
    etrans; [exact (f_equal (λ o : option doc, o ≫= (λ d, d !! "quantity")) Ht)|].
    vm_compute. reflexivity.
Defined.

(** ** What a request does to the stock and to the bookings *)

Lemma quantity_of_Some (d : doc) n : d !! "quantity" = Some (VNum n) → quantity_of d = Some n.
Proof. unfold quantity_of. by intros ->. Qed.

Lemma take_effect st tid q res tickets' :
  updateOne tid (field_gte "quantity" q) (inc_field "quantity" (- q)) (ticketsCollection st)
    = Some (res, tickets') →
  tickets' = ticketsCollection st
  ∨ (∃ tid d n q,
       ticketsCollection st !! tid = Some d ∧ quantity_of d = Some n ∧ (q ≤ n)%Z ∧
       tickets' = <[tid := <["quantity" := VNum (n - q)]> d]> (ticketsCollection st)).
Proof.
  intros [(_ & -> & _)|(d & d' & Hd & Hf & Hinc & _ & ->)]%updateOne_cases; [by left|].
  right. apply (inc_field_gte _ _ (- q)) in Hf as (n & Hn & Hq & Hinc').
  rewrite Hinc' in Hinc. injection Hinc as <-.
  exists tid, d, n, q. split; [done|]. split; [by apply quantity_of_Some|]. split; [done|].
  by rewrite Z.add_opp_r.
Qed.

Lemma take_any_effect st tid q res tickets' :
  updateOne tid (field_gte_any "quantity" q) (inc_field "quantity" (- q))
    (ticketsCollection st) = Some (res, tickets') →
  tickets' = ticketsCollection st
  ∨ (∃ tid d n q,
       ticketsCollection st !! tid = Some d ∧ quantity_of d = Some n ∧ (q ≤ n)%Z ∧
       tickets' = <[tid := <["quantity" := VNum (n - q)]> d]> (ticketsCollection st)).
Proof.
  intros [(_ & -> & _)|(d & d' & Hd & Hf & Hinc & _ & ->)]%updateOne_cases; [by left|].
  right. destruct (inc_field_gte_any _ _ _ _ _ Hf Hinc) as (n & Hn & Hq & ->).
  exists tid, d, n, q. split; [done|]. split; [by apply quantity_of_Some|]. split; [done|].
  by rewrite Z.add_opp_r.
Qed.

Lemma give_effect st id b res tickets' :
  bookingsCollection st !! id = Some b →
  updateOne (b_ticketId b) any (inc_field "quantity" (b_quantity b)) (ticketsCollection st)
    = Some (res, tickets') →
  tickets' = ticketsCollection st
  ∨ ∃ id b d d',
       bookingsCollection st !! id = Some b ∧
       ticketsCollection st !! b_ticketId b = Some d ∧
       inc_field "quantity" (b_quantity b) d = Some d' ∧
       tickets' = <[b_ticketId b := d']> (ticketsCollection st).
Proof.
  intros Hb [(_ & -> & _)|(d & d' & Hd & Hf & Hinc & _ & ->)]%updateOne_cases; [by left|].
  right. by exists id, b, d, d'.
Qed.

Lemma restatus_effect (st : store) id b (f : booking → option booking) b' res bookings' :
  bookingsCollection st !! id = Some b →
  f b = Some b' →
  updateOne id any f (bookingsCollection st) = Some (res, bookings') →
  bookings' = <[id := b']> (bookingsCollection st).
Proof.
  intros Hb Hf [(_ & _ & [Hn|(a & Ha & Hfa)])|(a & a' & Ha & _ & Hfa & _ & ->)]%updateOne_cases;
    [congruence|done|]. congruence.
Qed.


Lemma effects_stay o r st : effects o r st st.
Proof. split; by left. Qed.

Local Hint Resolve effects_stay : core.

Lemma part002_post_bookings_effects c req now st :
  effects (CreateBooking c req now) part_002 st (Part002.post_bookings c req now st).2.
Proof.
  destruct c as [| |email]; simpl; try done.
  destruct (negb (email_is _ _)); [done|].
  destruct (r_ticketId req) as [rid|]; [|done].
  destruct (r_quantity req) as [q|]; [|done].
  destruct (blank rid); [done|]. cbn [orb].
  destruct (Z.leb_spec q 0) as [|Hq]; [done|].
  destruct (toObjectId rid) as [tid|]; [|done].
  destruct (ticketsCollection st !! tid) as [d|] eqn:Hd; [|done].
  destruct (negb _); [done|].
  unfold Part002.post_bookings_reserve.
  destruct (updateOne tid _ _ _) as [[res tickets']|] eqn:Hu; [|done].
  pose proof (take_effect _ _ _ _ _ Hu) as Ht.
  assert (tickets_effect part_002 st (with_tickets tickets' st)) as Ht'.
  { destruct Ht as [Ht|Ht]; [by left|right; by left]. }
  destruct (modifiedCount res =? 0); simpl.
  - split; [done|by left].
  - split; [done|]. right; left. eexists. split; [|split; [|reflexivity]]; done.
Qed.

Lemma indexjs_post_bookings_effects ston c req now st :
  effects (CreateBooking c req now) index_js st
    (IndexJs.post_bookings ston c req now st).2.
Proof.
  destruct c as [| |email]; simpl; try done.
  destruct (negb (email_is _ _)); [done|].
  destruct (r_ticketId req) as [rid|]; [|done].
  destruct (r_quantity req) as [q|]; [|done].
  destruct (_ || _); [done|].
  destruct (toObjectId rid) as [tid|]; [|done].
  destruct (ticketsCollection st !! tid) as [d|] eqn:Hd; [|done].
  destruct (negb _); [done|].
  unfold IndexJs.post_bookings_insert.
  destruct (js_lt _ _ _); [done|]. simpl.
  split; [by left|]. right; left. eexists. split; [|split; [|reflexivity]]; done.
Qed.

Lemma restatus_effects o r (st : store) id b b' :
  bookingsCollection st !! id = Some b →
  b_ticketId b' = b_ticketId b → b_quantity b' = b_quantity b →
  op_edge o (b_status b) (b_status b') = true →
  bookings_effect o r st (with_bookings (<[id := b']> (bookingsCollection st)) st).
Proof. intros. right; right. by exists id, b, b'. Qed.

Lemma part002_accept_effects c id now st :
  effects (AcceptBooking c id now) part_002 st
    (Part002.patch_bookings_accept c id now st).2.
Proof.
  destruct c as [| |email]; simpl; try done.
  destruct (toObjectId id) as [bid|]; [|done].
  destruct (bookingsCollection st !! bid) as [b|] eqn:Hb; [|done].
  destruct (negb (is_string _ _)); [done|].
  unfold is_pending. case_bool_decide as Hp; simpl; [|done].
  erewrite updateOne_hit by done. simpl.
  split; [by left|]. apply (restatus_effects _ _ _ _ b); try done. by rewrite Hp.
Qed.

Lemma indexjs_accept_effects c id now st :
  effects (AcceptBooking c id now) index_js st
    (IndexJs.patch_bookings_accept c id now st).2.
Proof.
  destruct c as [| |email]; simpl; try done.
  destruct (toObjectId id) as [bid|]; [|done].
  destruct (bookingsCollection st !! bid) as [b|] eqn:Hb; [|done].
  destruct (negb (is_string _ _)); [done|].
  unfold updateOne. rewrite Hb.
  unfold is_pending. case_bool_decide as Hp; simpl; [|done].
  split; [by left|]. apply (restatus_effects _ _ _ _ b); try done. by rewrite Hp.
Qed.

Lemma indexjs_reject_effects c id now st :
  effects (RejectBooking c id now) index_js st
    (IndexJs.patch_bookings_reject c id now st).2.
Proof.
  destruct c as [| |email]; simpl; try done.
  destruct (toObjectId id) as [bid|]; [|done].
  destruct (bookingsCollection st !! bid) as [b|] eqn:Hb; [|done].
  destruct (negb (is_string _ _)); [done|].
  unfold updateOne. rewrite Hb.
  unfold is_pending. case_bool_decide as Hp; simpl; [|done].
  split; [by left|]. apply (restatus_effects _ _ _ _ b); try done. by rewrite Hp.
Qed.

Lemma part002_reject_effects c id now st :
  effects (RejectBooking c id now) part_002 st
    (Part002.patch_bookings_reject c id now st).2.
Proof.
  destruct c as [| |email]; simpl; try done.
  destruct (toObjectId id) as [bid|]; [|done].
  destruct (bookingsCollection st !! bid) as [b|] eqn:Hb; [|done].
  destruct (negb (is_string _ _)); [done|].
  unfold is_pending. case_bool_decide as Hp; simpl; [|done].
  destruct (updateOne (b_ticketId b) _ _ _) as [[res tickets']|] eqn:Hu; [|done].
  simpl. erewrite updateOne_hit by done. simpl.
  split.
  - destruct (give_effect _ _ _ _ _ Hb Hu) as [->|Hg]; [by left|]. right; right. done.
  - apply (restatus_effects _ _ (with_tickets tickets' st) _ b); try done. by rewrite Hp.
Qed.

Lemma part002_cancel_effects id st :
  effects (CancelPayment id) part_002 st
    (Part002.get_stripe_payment_cancelled id st).2.
Proof.
  unfold Part002.get_stripe_payment_cancelled.
  destruct (toObjectId id) as [bid|]; [|done].
  destruct (bookingsCollection st !! bid) as [b|] eqn:Hb; [|done].
  case_bool_decide as Hp; simpl; [|done].
  destruct (updateOne (b_ticketId b) _ _ _) as [[res tickets']|] eqn:Hu; [|done].
  simpl. erewrite updateOne_hit by done. simpl.
  split.
  - destruct (give_effect _ _ _ _ _ Hb Hu) as [->|Hg]; [by left|]. right; right. done.
  - apply (restatus_effects _ _ (with_tickets tickets' st) _ b); try done. by rewrite Hp.
Qed.

Lemma verify_payment_effects r session now st :
  effects (VerifyPayment session now) r st (verify_payment r session now st).2.
Proof.
  destruct session as [s|]; [|by destruct r].
  destruct (findPayment (payment_intent s) (paymentsCollection st)) as [p|] eqn:Hfind.
  { destruct (verify_payment_known r s now st p Hfind) as [-> _]. done. }
  destruct r; simpl.
  - unfold Part002.post_payments_verify.
    destruct (negb _); [done|].
    destruct (toObjectId (metadata_bookingId s)) as [bid|]; [|done].
    destruct (bookingsCollection st !! bid) as [b|] eqn:Hb; [|done].
    rewrite Hfind. erewrite updateOne_hit by done. simpl.
    split; [by left|]. right; right. exists bid, b. eexists.
    split; [done|]. split; [|split; [|split; [|reflexivity]]]; simpl; try done;
      by destruct (b_status b).
  - unfold IndexJs.get_stripe_payment_success.
    destruct (negb _); [done|].
    destruct (toObjectId (metadata_bookingId s)) as [bid|]; [|done]. simpl.
    destruct (bookingsCollection st !! bid) as [b|] eqn:Hb; [|done]. simpl.
    rewrite Hfind. erewrite updateOne_hit by done. simpl.
    assert (bookings_effect (VerifyPayment (Some s) now) index_js st
              (with_bookings (<[bid := mkBooking (b_ticketId b) (b_vendorEmail b)
                 (b_customerEmail b) (b_title b) (b_price b) (b_quantity b) paid
                 (b_createdAt b) (b_acceptedAt b) (b_rejectedAt b) (Some now)]>
                 (bookingsCollection st)) st)) as Hbk.
    { apply (restatus_effects _ _ _ _ b); try done; by destruct (b_status b). }
    destruct (toObjectId (metadata_ticketId s)) as [tid|]; simpl.
    + destruct (updateOne tid _ _ _) as [[res tickets']|] eqn:Hu; simpl.
      2:{ split; [by left|done]. }
      split; [|done].
      destruct (take_any_effect (with_bookings _ st) _ _ _ _ Hu) as [->|Ht]; [by left|].
      right; by left.
    + split; [by left|done].
Qed.

Lemma step_effects r ston o st : effects o r st (step r ston o st).2.
Proof.
  destruct o as [c req now|c id now|c id now|id|session now]; simpl.
  - destruct r; [apply part002_post_bookings_effects|apply indexjs_post_bookings_effects].
  - destruct r; [apply part002_accept_effects|apply indexjs_accept_effects].
  - destruct r; [apply part002_reject_effects|apply indexjs_reject_effects].
  - destruct r; [apply part002_cancel_effects|done].
  - apply verify_payment_effects.
Qed.

(** ** The stock invariant *)

Lemma quantity_nonneg_insert (d : doc) n :
  (0 ≤ n)%Z → quantity_nonneg (<["quantity" := VNum n]> d).
Proof.
  intros Hn m. unfold quantity_of. rewrite lookup_insert_eq. by intros [= <-].
Qed.

Lemma quantity_nonneg_inc (d d' : doc) k :
  quantity_nonneg d → (0 ≤ k)%Z → inc_field "quantity" k d = Some d' →
  quantity_nonneg d'.
Proof.
  intros Hd Hk. unfold inc_field.
  destruct (d !! "quantity") as [[]|] eqn:Hq; try done; intros [= <-]; try done.
  - apply quantity_nonneg_insert. specialize (Hd n). unfold quantity_of in Hd.
    rewrite Hq in Hd. specialize (Hd eq_refl). lia.
  - by apply quantity_nonneg_insert.
Qed.

Lemma effects_consistent o r st st' :
  effects o r st st' → consistent r st → consistent r st'.
Proof.
  intros [Ht Hb] [Hstock Hbook]. split.
  - unfold stock_ok in *.
    destruct Ht as [->|[(tid & d & n & q & Hd & Hn & Hq & ->)
                        |(-> & id & b & d & d' & Hb' & Hd & Hinc & ->)]]; [done| |].
    + apply map_Forall_insert_2; [|done]. apply quantity_nonneg_insert. lia.
    + apply map_Forall_insert_2; [|done].
      eapply quantity_nonneg_inc; [by eapply Hstock| |done].
      by eapply (Hbook eq_refl).
  - intros Hr. specialize (Hbook Hr). unfold bookings_ok in *.
    destruct Hb as [->|[(b & _ & Hq & ->)
                        |(id & b & b' & Hb & _ & Hq & _ & ->)]]; [done| |].
    + apply map_Forall_insert_2; [|done]. specialize (Hq Hr). simpl. lia.
    + apply map_Forall_insert_2; [|done]. simpl. rewrite Hq. by eapply Hbook.
Qed.

Lemma run_consistent r ston ops st :
  consistent r st → consistent r (run r ston ops st).
Proof.
  revert st. induction ops as [|o ops IH]; intros st Hst; simpl; [done|].
  apply IH. eapply effects_consistent; [apply step_effects|done].
Qed.

(** C2. Whatever sequence of booking creations, acceptances, rejections,
    payment cancellations and payment verifications is served, after every
    prefix of it every ticket whose [quantity] is a number has a
    non-negative one, provided that held at the start (and, for part_002,
    that the bookings at the start hold non-negative numbers of seats).
    Both revisions. *)
Theorem stock_never_negative (r : revision) (StringToNumber : value → value)
    (ops : list operation) (k : nat) (st : store) (tid : oid) (d : doc) (n : Z) :
  stock_ok st → (r = part_002 → bookings_ok st) →
  ticketsCollection (run r StringToNumber (take k ops) st) !! tid = Some d →
  quantity_of d = Some n →
  (0 ≤ n)%Z.
Proof.
  intros Hs Hb Hd Hn.
  destruct (run_consistent r StringToNumber (take k ops) st) as [Hstock _]; [by split|].
  by eapply Hstock.
Qed.

Lemma stock_never_negative_witness :
  ticketsCollection
    (run part_002 Sample.not_a_number
       (take 1 [CreateBooking (Verified Sample.customer) Sample.request 10;
                RejectBooking (Verified Sample.vendor) (Hex24 0) 20])
       Sample.shop) !! 1%N
  = Some (Sample.ticket "approved" 3 false)
  ∧ (0 ≤ 3)%Z.
Proof.
  assert (Hlook :
    ticketsCollection
      (run part_002 Sample.not_a_number
         (take 1 [CreateBooking (Verified Sample.customer) Sample.request 10;
                  RejectBooking (Verified Sample.vendor) (Hex24 0) 20])
         Sample.shop) !! 1%N
    = Some (Sample.ticket "approved" 3 false)) by (vm_compute; reflexivity).
  split; [exact Hlook|].
  apply (stock_never_negative part_002 Sample.not_a_number
           [CreateBooking (Verified Sample.customer) Sample.request 10;
            RejectBooking (Verified Sample.vendor) (Hex24 0) 20]
           1 Sample.shop 1%N (Sample.ticket "approved" 3 false) 3%Z).
  - apply map_Forall_singleton. intros n. vm_compute. intros [= <-]. discriminate.
  - intros _. apply map_Forall_empty.
  - exact Hlook.
  - vm_compute. reflexivity.
Defined.

(** ** The booking state machine *)





(** ** Booking creation *)

Lemma email_is_Some e email : email_is e email = true → e = Some email.
Proof.
  destruct e as [s|]; simpl; [|done]. by intros ->%String.eqb_eq.
Qed.

Lemma take_stock_zero d : take_stock 0 d = d.
Proof.
  unfold take_stock, quantity_of.
  destruct (d !! "quantity") as [[]|] eqn:Hq; try done.
  rewrite Z.sub_0_r. by apply insert_id.
Qed.

(** An accepted [POST /bookings]: what was checked and what was written. *)
Lemma post_bookings_success r ston customer req now st bid :
  (post_bookings r ston (Verified customer) req now st).1 = Send 200 (SuccessBooking bid) →
  ∃ rid tid d q,
    r_customerEmail req = Some customer ∧ r_ticketId req = Some rid
    ∧ toObjectId rid = Some tid ∧ r_quantity req = Some q
    ∧ ticketsCollection st !! tid = Some d
    ∧ is_string (d !! "verificationStatus") "approved" = true
    ∧ enough r ston d q ∧ q ≠ 0%Z ∧ (r = part_002 → (0 < q)%Z)
    ∧ bid = fresh (dom (bookingsCollection st))
    ∧ (post_bookings r ston (Verified customer) req now st).2
      = mkStore (usersCollection st)
          (<[tid := take_stock (reserved r q) d]> (ticketsCollection st))
          (<[bid := new_booking tid d customer q now]> (bookingsCollection st))
          (paymentsCollection st).
Proof.
  destruct r; simpl.
  - destruct (email_is _ _) eqn:Hc; simpl; [|done]. apply email_is_Some in Hc.
    destruct (r_ticketId req) as [rid|]; [|done].
    destruct (r_quantity req) as [q|]; [|done].
    destruct (blank rid); [done|]. cbn [orb].
    destruct (Z.leb_spec q 0) as [|Hq]; [done|].
    destruct (toObjectId rid) as [tid|] eqn:Hrid; [|done].
    destruct (ticketsCollection st !! tid) as [d|] eqn:Hd; [|done].
    destruct (is_string _ _) eqn:Happ; simpl; [|done].
    unfold Part002.post_bookings_reserve.
    destruct (updateOne tid _ _ _) as [[res tickets']|] eqn:Hu; [|done].
    apply updateOne_cases in Hu
      as [(-> & -> & _)|(a & a' & Ha & Hf & Hinc & -> & ->)]; [done|].
    assert (a = d) as -> by congruence.
    apply (inc_field_gte _ _ (- q)) in Hf as (n & Hn & Hle & Hinc').
    rewrite Hinc' in Hinc. injection Hinc as <-.
    simpl. destruct (decide _); simpl; [done|].
    intros [= <-]. exists rid, tid, d, q.
    repeat (split; [done || lia|]). split.
    { exists n. unfold quantity_of. by rewrite Hn. }
    repeat (split; [done || lia|]).
    unfold take_stock, quantity_of. rewrite Hn. by rewrite Z.add_opp_r.
  - destruct (email_is _ _) eqn:Hc; simpl; [|done]. apply email_is_Some in Hc.
    destruct (r_ticketId req) as [rid|]; [|done].
    destruct (r_quantity req) as [q|]; [|done].
    destruct (blank rid); [done|]. cbn [orb].
    destruct (Z.eqb_spec q 0) as [|Hq]; [done|]. simpl.
    destruct (String.eqb customer EmptyString); [done|].
    destruct (toObjectId rid) as [tid|] eqn:Hrid; [|done].
    destruct (ticketsCollection st !! tid) as [d|] eqn:Hd; [|done].
    destruct (is_string _ _) eqn:Happ; simpl; [|done].
    unfold IndexJs.post_bookings_insert.
    destruct (js_lt _ _ _) eqn:Hlt; [done|]. simpl.
    intros [= <-]. exists rid, tid, d, q.
    repeat (split; [done|]).
    rewrite take_stock_zero. by rewrite (insert_id (ticketsCollection st) tid d).
Qed.






Lemma is_string_lookup (d : doc) f s :
  is_string (d !! f) s = true → d !! f = Some (VStr s).
Proof.
  unfold is_string. destruct (d !! f) as [[]|]; try done. by intros ->%String.eqb_eq.
Qed.

(** C4 as amended.  [POST /bookings] for a verified caller.  It succeeds
    only if the caller is the request's [customerEmail], the ticket exists
    and is approved, and the stock check passes (in part_002 also only for
    a positive quantity); whether the ticket is hidden is not looked at.
    A caller other than [customerEmail] gets Forbidden before anything
    else; then, for a well-formed request: NotFound for a missing ticket,
    NotApproved for one that is not approved, InsufficientStock where the
    stock check fails, and success otherwise. *)
Theorem post_bookings_checks (r : revision) (StringToNumber : value → value)
    (caller : string) (req : booking_request) (now : Z) (st : store) :
  let res := (post_bookings r StringToNumber (Verified caller) req now st).1 in
  (∀ bid, res = Send 200 (SuccessBooking bid) →
     r_customerEmail req = Some caller
     ∧ ∃ tid d q,
         r_ticketId req ≫= toObjectId = Some tid ∧ r_quantity req = Some q
         ∧ ticketsCollection st !! tid = Some d
         ∧ d !! "verificationStatus" = Some (VStr "approved")
         ∧ enough r StringToNumber d q
         ∧ (r = part_002 → (0 < q)%Z))
  ∧ (r_customerEmail req ≠ Some caller → error_of res = Some Forbidden)
  ∧ (∀ tid q,
       r_customerEmail req = Some caller → caller ≠ EmptyString →
       r_ticketId req = Some (Hex24 tid) → r_quantity req = Some q → (0 < q)%Z →
       match ticketsCollection st !! tid with
       | None => error_of res = Some NotFound
       | Some d =>
           if is_string (d !! "verificationStatus") "approved" then
             (enough r StringToNumber d q → ∃ bid, res = Send 200 (SuccessBooking bid))
             ∧ (¬ enough r StringToNumber d q → error_of res = Some InsufficientStock)
           else error_of res = Some NotApproved
       end).
Proof.
  cbv zeta. split; [|split].
  - intros bid Hok.
    destruct (post_bookings_success _ _ _ _ _ _ _ Hok)
      as (rid & tid & d & q & Hc & Hrid & Htid & Hq & Hd & Happ & Hen & _ & Hpos & _).
    split; [done|]. exists tid, d, q. rewrite Hrid. simpl.
    repeat (split; [done|]). split; [by apply is_string_lookup|]. done.
  - intros Hne.
    assert (email_is (r_customerEmail req) caller = false) as Hf.
    { destruct (email_is _ _) eqn:He; [|done]. by apply email_is_Some in He. }
    destruct r; simpl; by rewrite Hf.
  - intros tid q Hc Hcaller Hrid Hq Hpos.
    assert (email_is (r_customerEmail req) caller = true) as He.
    { rewrite Hc. simpl. apply String.eqb_refl. }
    destruct (ticketsCollection st !! tid) as [d|] eqn:Hd.
    + destruct (is_string (d !! "verificationStatus") "approved") eqn:Happ.
      * destruct r; simpl; rewrite He, Hrid, Hq; simpl.
        -- destruct (Z.leb_spec q 0); [lia|]. rewrite Hd, Happ. simpl.
           unfold Part002.post_bookings_reserve.
           destruct (updateOne tid _ _ _) as [[res tickets']|] eqn:Hu.
           2:{ by destruct (reserve_is_Some tid q (ticketsCollection st)) as [? ?];
                 simplify_eq. }
           apply updateOne_cases in Hu
             as [(-> & -> & [Hno|(a & Ha & Hf)])|(a & a' & Ha & Hf & Hinc & -> & ->)].
           ++ congruence.
           ++ assert (a = d) as -> by congruence. simpl. split; [|done].
              intros (n & Hn & Hle). unfold field_gte, quantity_of in *.
              destruct (d !! "quantity") as [[]|]; simplify_eq.
              apply Z.leb_gt in Hf. lia.
           ++ assert (a = d) as -> by congruence.
              apply (inc_field_gte _ _ (- q)) in Hf as (n & Hn & Hle & Hinc').
              rewrite Hinc' in Hinc. injection Hinc as <-. simpl.
              rewrite decide_False.
              2:{ intros Heq. apply (f_equal (λ m : doc, m !! "quantity")) in Heq.
                  rewrite lookup_insert_eq, Hn in Heq. injection Heq. lia. }
              simpl. split; [by eexists|]. intros Hnot. destruct Hnot.
              exists n. unfold quantity_of. by rewrite Hn.
        -- destruct (Z.eqb_spec q 0); [lia|]. simpl.
           destruct (String.eqb_spec caller EmptyString); [done|].
           rewrite Hd, Happ. simpl. unfold IndexJs.post_bookings_insert.
           destruct (js_lt _ _ _); simpl; split; try done; by eexists.
      * destruct r; simpl; rewrite He, Hrid, Hq; simpl.
        -- destruct (Z.leb_spec q 0); [lia|]. by rewrite Hd, Happ.
        -- destruct (Z.eqb_spec q 0); [lia|]. simpl.
           destruct (String.eqb_spec caller EmptyString); [done|]. by rewrite Hd, Happ.
    + destruct r; simpl; rewrite He, Hrid, Hq; simpl.
      * destruct (Z.leb_spec q 0); [lia|]. by rewrite Hd.
      * destruct (Z.eqb_spec q 0); [lia|]. simpl.
        destruct (String.eqb_spec caller EmptyString); [done|]. by rewrite Hd.
Qed.

(** A ticket hidden by the fraud cascade is booked like any other. *)
Lemma hidden_ticket_is_bookable :
  (ticketsCollection Sample.hidden_shop !! 1%N) ≫= (λ d, d !! "hidden")
    = Some (VBool true)
  ∧ (Part002.post_bookings (Verified Sample.customer) Sample.request 10
       Sample.hidden_shop).1 = Send 200 (SuccessBooking 0)
  ∧ (IndexJs.post_bookings Sample.not_a_number (Verified Sample.customer)
       Sample.request 10 Sample.hidden_shop).1 = Send 200 (SuccessBooking 0).
Proof. vm_compute. done. Qed.

Lemma post_bookings_checks_witness :
  error_of (post_bookings part_002 Sample.not_a_number (Verified Sample.vendor)
              Sample.request 10 Sample.shop).1 = Some Forbidden.
Proof.
  apply (post_bookings_checks part_002 Sample.not_a_number Sample.vendor
           Sample.request 10 Sample.shop).
  vm_compute. done.
Defined.

(** ** Rejection *)




(** * Properties of the rest of the service *)

(** The administrator of the sample shop is an admin. *)
Ltac sample_admin := eexists; split; [vm_compute; reflexivity | reflexivity].

(** ** The fraud flag *)

(** An update of a user's fields that keeps e-mail and role keeps every
    role lookup by e-mail. *)
Lemma findUser_alter_role (f : user → user) i users email :
  (∀ u, u_email (f u) = u_email u ∧ u_role (f u) = u_role u) →
  u_role <$> findUser email (alter f i users) = u_role <$> findUser email users.
Proof.
  intros Hf. unfold findUser. revert i. induction users as [|u users IH]; intros i; [done|].
  destruct i as [|i]; simpl.
  - destruct (Hf u) as [-> Hr]. destruct (String.eqb _ _); simpl; [by rewrite Hr|done].
  - destruct (String.eqb _ _); simpl; [done|]. apply IH.
Qed.

Lemma is_admin_role email st :
  is_admin email st ↔ u_role <$> findUser email (usersCollection st) = Some "admin".
Proof.
  unfold is_admin, findUser. split.
  - intros (u & -> & Hr). simpl. by rewrite Hr.
  - destruct (List.find _ _) as [u|]; simpl; [|done]. intros [= Hr]. by exists u.
Qed.

Lemma verifyAdmin_not_admin email next st :
  ¬ is_admin email st → verifyAdmin email next st = (Send 403 (Message "Forbidden"), st).
Proof.
  intros Hn. unfold verifyAdmin.
  destruct (List.find _ _) as [u|] eqn:Hu; [|done].
  destruct (String.eqb_spec (u_role u) "admin") as [Hr|]; [|done].
  destruct Hn. by exists u.
Qed.

(** What a successful mark-fraud writes. *)
Lemma mark_fraud_applied admin uid vendor st :
  is_admin admin st →
  findUserById uid (usersCollection st) = Some vendor →
  u_role vendor = "vendor" →
  patch_admin_users_mark_fraud (Verified admin) (Hex24 uid) st
  = (Send 200 Success,
     mkStore
       (updateUserById uid (set_user None (Some true)) (usersCollection st))
       (updateMany (λ d, field_is (VStr (u_email vendor)) (d !! "vendorEmail"))
          (insert "hidden" (VBool true)) (ticketsCollection st))
       (bookingsCollection st) (paymentsCollection st)).
Proof.
  intros Hadmin Hu Hrole. unfold patch_admin_users_mark_fraud, verifyJWT.
  rewrite verifyAdmin_admin by done. simpl toObjectId. cbv iota beta.
  rewrite Hu, Hrole. done.
Qed.

(** X1.  When an admin marks a vendor as fraud ([PATCH
    /admin/users/:id/mark-fraud], both revisions) the answer is 200; that
    user keeps e-mail and role and gets [isFraud = true]; every other user
    is unchanged; every ticket whose [vendorEmail] is, or as an array holds,
    the vendor's e-mail gets [hidden = true], after which [GET
    /tickets/:id] answers 404 for it; every other ticket, every booking and
    every payment is unchanged. *)
Theorem mark_fraud_cascade (admin : string) (uid : oid) (vendor : user) (st : store) :
  is_admin admin st →
  findUserById uid (usersCollection st) = Some vendor →
  u_role vendor = "vendor" →
  let res := patch_admin_users_mark_fraud (Verified admin) (Hex24 uid) st in
  res.1 = Send 200 Success
  ∧ findUserById uid (usersCollection res.2)
    = Some (mkUser (u_email vendor) "vendor" true)
  ∧ (∀ j, j ≠ uid →
       findUserById j (usersCollection res.2) = findUserById j (usersCollection st))
  ∧ (∀ tid d, ticketsCollection st !! tid = Some d →
       if field_is (VStr (u_email vendor)) (d !! "vendorEmail") then
         ticketsCollection res.2 !! tid = Some (<["hidden" := VBool true]> d)
         ∧ (get_ticket (Hex24 tid) res.2).1 = inl (Send 404 (Message "Ticket not found"))
       else ticketsCollection res.2 !! tid = Some d)
  ∧ (∀ tid, ticketsCollection st !! tid = None → ticketsCollection res.2 !! tid = None)
  ∧ bookingsCollection res.2 = bookingsCollection st
  ∧ paymentsCollection res.2 = paymentsCollection st.
Proof.
  intros Hadmin Hu Hrole. cbv zeta.
  rewrite (mark_fraud_applied admin uid vendor st) by done. simpl.
  split; [done|]. split; [|split; [|split; [|split]]].
  - unfold findUserById, updateUserById in *. rewrite list_lookup_alter_eq, Hu. simpl.
    unfold set_user. simpl. by rewrite Hrole.
  - intros j Hj. unfold findUserById, updateUserById.
    apply list_lookup_alter_ne. intros Heq. apply Hj. by apply (inj N.to_nat).
  - intros tid d Hd. unfold updateMany.
    destruct (field_is (VStr (u_email vendor)) (d !! "vendorEmail")) eqn:Hv.
    + assert (Hl : (((λ d0 : doc, if field_is (VStr (u_email vendor)) (d0 !! "vendorEmail")
                      then <["hidden":=VBool true]> d0 else d0) <$> ticketsCollection st)
                     : gmap oid doc) !! tid = Some (<["hidden" := VBool true]> d)).
      { rewrite lookup_fmap, Hd. simpl. by rewrite Hv. }
      split; [exact Hl|].
      unfold get_ticket. simpl. rewrite Hl. by rewrite lookup_insert_eq.
    + rewrite lookup_fmap, Hd. simpl. by rewrite Hv.
  - intros tid Hd. unfold updateMany. by rewrite lookup_fmap, Hd.
  - done.
Qed.

Lemma mark_fraud_cascade_witness :
  let res := patch_admin_users_mark_fraud (Verified Sample.administrator) (Hex24 1)
               Sample.shop in
  res.1 = Send 200 Success
  ∧ findUserById 1 (usersCollection res.2) = Some (mkUser Sample.vendor "vendor" true)
  ∧ (get_ticket (Hex24 1) res.2).1 = inl (Send 404 (Message "Ticket not found")).
Proof.
  destruct (mark_fraud_cascade Sample.administrator 1%N (mkUser Sample.vendor "vendor" false)
              Sample.shop) as (H1 & H2 & _ & H4 & _);
    [sample_admin | reflexivity | reflexivity |].
  split; [exact H1|]. split; [exact H2|].
  exact (proj2 (H4 1%N (Sample.ticket "approved" 5 false) eq_refl)).
Defined.

Lemma is_admin_alter (f : user → user) i email st :
  (∀ u, u_email (f u) = u_email u ∧ u_role (f u) = u_role u) →
  is_admin email st → is_admin email (with_users (alter f i (usersCollection st)) st).
Proof.
  intros Hf Ha. apply is_admin_role. simpl. rewrite findUser_alter_role by done.
  by apply is_admin_role.
Qed.

Lemma set_user_keeps_role f u :
  u_email (set_user None f u) = u_email u ∧ u_role (set_user None f u) = u_role u.
Proof. done. Qed.

(** X2.  Unless mark-fraud answers 200 it leaves the store as it
    was; a verified caller who is not an admin gets Forbidden; an admin who
    names a user that does not exist or is not a vendor gets 400 "Not a
    vendor". *)
Theorem mark_fraud_refusals (c : credential) (id : raw_id) (st : store) :
  let res := patch_admin_users_mark_fraud c id st in
  (res.1 ≠ Send 200 Success → res.2 = st)
  ∧ (∀ caller, c = Verified caller → ¬ is_admin caller st → error_of res.1 = Some Forbidden)
  ∧ (∀ caller uid, c = Verified caller → is_admin caller st → id = Hex24 uid →
       (∀ u, findUserById uid (usersCollection st) = Some u → u_role u ≠ "vendor") →
       res = (Send 400 (Message "Not a vendor"), st)).
Proof.
  cbv zeta. split; [|split].
  - unfold patch_admin_users_mark_fraud. destruct c as [| |caller]; simpl; try done.
    unfold verifyAdmin. destruct (List.find _ _) as [a|]; [|done].
    destruct (String.eqb (u_role a) "admin"); [|done].
    destruct (toObjectId id) as [uid|]; [|done].
    destruct (findUserById uid _) as [u|]; [|done].
    by destruct (String.eqb (u_role u) "vendor").
  - intros caller -> Hn. unfold patch_admin_users_mark_fraud, verifyJWT.
    by rewrite verifyAdmin_not_admin.
  - intros caller uid -> Ha -> Hnv. unfold patch_admin_users_mark_fraud, verifyJWT.
    rewrite verifyAdmin_admin by done. simpl.
    destruct (findUserById uid _) as [u|]; [|done].
    destruct (String.eqb_spec (u_role u) "vendor") as [Hr|]; [|done].
    by destruct (Hnv u eq_refl).
Qed.

Lemma mark_fraud_refusals_witness :
  error_of (patch_admin_users_mark_fraud (Verified Sample.customer) (Hex24 1) Sample.shop).1
  = Some Forbidden
  ∧ patch_admin_users_mark_fraud (Verified Sample.administrator) (Hex24 2) Sample.shop
    = (Send 400 (Message "Not a vendor"), Sample.shop).
Proof.
  split.
  - destruct (mark_fraud_refusals (Verified Sample.customer) (Hex24 1) Sample.shop)
      as (_ & H & _).
    apply (H Sample.customer eq_refl). intros (u & Hu & Hr).
    vm_compute in Hu. injection Hu as <-. discriminate Hr.
  - destruct (mark_fraud_refusals (Verified Sample.administrator) (Hex24 2) Sample.shop)
      as (_ & _ & H).
    apply (H Sample.administrator 2%N eq_refl); [sample_admin | reflexivity |].
    intros u Hu. vm_compute in Hu. injection Hu as <-. discriminate.
Defined.

(** X3.  [PATCH /admin/users/:id/make-vendor] after a mark-fraud
    clears the user's fraud flag but writes no ticket: the tickets hidden by
    the mark-fraud stay hidden, and [GET /tickets/:id] still answers 404
    for them. *)
Theorem make_vendor_keeps_tickets_hidden (admin : string) (uid : oid) (vendor : user)
    (st : store) :
  is_admin admin st →
  findUserById uid (usersCollection st) = Some vendor →
  u_role vendor = "vendor" →
  let st1 := (patch_admin_users_mark_fraud (Verified admin) (Hex24 uid) st).2 in
  let res := patch_admin_users_make_vendor (Verified admin) (Hex24 uid) st1 in
  res.1 = Send 200 Success
  ∧ findUserById uid (usersCollection res.2) = Some (mkUser (u_email vendor) "vendor" false)
  ∧ ticketsCollection res.2 = ticketsCollection st1
  ∧ (∀ tid d, ticketsCollection st !! tid = Some d →
       field_is (VStr (u_email vendor)) (d !! "vendorEmail") = true →
       (get_ticket (Hex24 tid) res.2).1 = inl (Send 404 (Message "Ticket not found"))).
Proof.
  intros Hadmin Hu Hrole. cbv zeta.
  rewrite (mark_fraud_applied admin uid vendor st) by done. cbn [snd].
  set (st1 := mkStore _ _ _ _).
  assert (Hfraud : findUserById uid (usersCollection st1)
                   = Some (mkUser (u_email vendor) "vendor" true)).
  { unfold findUserById, updateUserById in *. simpl.
    rewrite list_lookup_alter_eq, Hu. simpl. unfold set_user. simpl. by rewrite Hrole. }
  assert (Htickets : ∀ tid d, ticketsCollection st !! tid = Some d →
            field_is (VStr (u_email vendor)) (d !! "vendorEmail") = true →
            ticketsCollection st1 !! tid = Some (<["hidden" := VBool true]> d)).
  { intros tid d Hd Hv. simpl. unfold updateMany. rewrite lookup_fmap, Hd. simpl.
    by rewrite Hv. }
  assert (Hadmin1 : is_admin admin st1).
  { apply is_admin_role. simpl. unfold updateUserById.
    rewrite findUser_alter_role by apply set_user_keeps_role. by apply is_admin_role. }
  clearbody st1.
  unfold patch_admin_users_make_vendor, verifyJWT.
  rewrite !verifyAdmin_admin by done. simpl.
  split; [done|]. split; [|split; [done|]].
  - unfold findUserById, updateUserById in *. rewrite list_lookup_alter_eq, Hfraud. done.
  - intros tid d Hd Hv. unfold get_ticket. simpl. rewrite (Htickets tid d Hd Hv).
    by rewrite lookup_insert_eq.
Qed.

Lemma make_vendor_keeps_tickets_hidden_witness :
  let st1 := (patch_admin_users_mark_fraud (Verified Sample.administrator) (Hex24 1)
                Sample.shop).2 in
  let res := patch_admin_users_make_vendor (Verified Sample.administrator) (Hex24 1) st1 in
  findUserById 1 (usersCollection res.2) = Some (mkUser Sample.vendor "vendor" false)
  ∧ (get_ticket (Hex24 1) res.2).1 = inl (Send 404 (Message "Ticket not found")).
Proof.
  destruct (make_vendor_keeps_tickets_hidden Sample.administrator 1%N
              (mkUser Sample.vendor "vendor" false) Sample.shop) as (_ & H2 & _ & H4);
    [sample_admin | reflexivity | reflexivity |].
  split; [exact H2|].
  exact (H4 1%N (Sample.ticket "approved" 5 false) eq_refl eq_refl).
Defined.

(** ** Ticket creation in part_002 *)

Lemma findUser_unique (users : list user) (i : nat) u :
  NoDup (u_email <$> users) → users !! i = Some u →
  findUser (u_email u) users = Some u.
Proof.
  unfold findUser. revert i. induction users as [|v users IH]; intros i Hnd Hi; [done|].
  simpl in Hnd. apply NoDup_cons in Hnd as [Hv Hnd]. simpl.
  destruct i as [|i]; simpl in Hi.
  - injection Hi as ->. by rewrite String.eqb_refl.
  - destruct (String.eqb_spec (u_email v) (u_email u)) as [Heq|]; [|by eapply IH].
    destruct Hv. rewrite Heq. apply list_elem_of_fmap. exists u. split; [done|].
    by eapply list_elem_of_lookup_2.
Qed.

Lemma alter_keeps_emails (f : user → user) (i : nat) (users : list user) :
  (∀ u, u_email (f u) = u_email u) →
  u_email <$> alter f i users = u_email <$> users.
Proof.
  intros Hf. revert i. induction users as [|v users IH]; intros i; [done|].
  destruct i; simpl; [by rewrite Hf|]. f_equal. apply IH.
Qed.

(** The ticket [POST /tickets] stores. *)
Lemma post_tickets_created ston nd c body now st id :
  (Part002Rest.post_tickets ston nd c body now st).1 = inr (TicketCreated id) →
  ∃ email u d,
    c = Verified email ∧ findUser email (usersCollection st) = Some u
    ∧ u_role u = "vendor" ∧ u_isFraud u = false
    ∧ id = fresh (dom (ticketsCollection st))
    ∧ ticketsCollection st !! id = None
    ∧ (Part002Rest.post_tickets ston nd c body now st).2
      = with_tickets (<[id := d]> (ticketsCollection st)) st
    ∧ d !! "verificationStatus" = Some (VStr "pending")
    ∧ d !! "advertised" = Some (VBool false)
    ∧ d !! "vendorEmail" = Some (VStr email)
    ∧ d !! "quantity" = Some (ToNumber ston (body !! "quantity"))
    ∧ d !! "price" = Some (ToNumber ston (body !! "price"))
    ∧ d !! "hidden" = None.
Proof.
  unfold Part002Rest.post_tickets. destruct c as [| |email]; simpl; try done.
  unfold verifyVendor. destruct (findUser email _) as [u|] eqn:Hu; [|done].
  destruct (String.eqb_spec (u_role u) "vendor") as [Hr|]; simpl; [|done].
  destruct (u_isFraud u) eqn:Hf; [done|].
  destruct (negb _); [done|]. simpl. intros [= <-].
  eexists email, u, _. repeat (split; [done|]).
  split. { apply not_elem_of_dom_1, is_fresh. }
  split; [reflexivity|]. repeat split; by simplify_map_eq.
Qed.

(** X4.  A ticket created by [POST /tickets] (part_002) takes an id
    that was free, and is stored with [verificationStatus = "pending"],
    [advertised = false], the caller as [vendorEmail] and no [hidden]
    field; every other ticket and the count of advertised tickets are
    unchanged; and a booking request for the new ticket is refused, the
    store left as it is. *)
Theorem post_tickets_pending (StringToNumber : value → value)
    (NewDate : option value → value) (c : credential) (body : doc) (now : Z)
    (st : store) (id : oid) :
  (Part002Rest.post_tickets StringToNumber NewDate c body now st).1
    = inr (TicketCreated id) →
  let st' := (Part002Rest.post_tickets StringToNumber NewDate c body now st).2 in
  ticketsCollection st !! id = None
  ∧ (∃ email d,
       c = Verified email
       ∧ ticketsCollection st' !! id = Some d
       ∧ d !! "verificationStatus" = Some (VStr "pending")
       ∧ d !! "advertised" = Some (VBool false)
       ∧ d !! "vendorEmail" = Some (VStr email)
       ∧ d !! "hidden" = None)
  ∧ (∀ tid, tid ≠ id → ticketsCollection st' !! tid = ticketsCollection st !! tid)
  ∧ countAdvertised (ticketsCollection st') = countAdvertised (ticketsCollection st)
  ∧ (∀ customer req t, r_ticketId req = Some (Hex24 id) →
       error_of (Part002.post_bookings (Verified customer) req t st').1 ≠ None
       ∧ (Part002.post_bookings (Verified customer) req t st').2 = st').
Proof.
  intros Hok. cbv zeta.
  destruct (post_tickets_created _ _ _ _ _ _ _ Hok)
    as (email & u & d & -> & Hu & Hr & Hf & Hid & Hnone & -> & Hst & Hadv & Hv & _ & _ & Hh).
  split; [done|]. split; [|split; [|split]].
  - exists email, d. simpl. rewrite lookup_insert_eq. done.
  - intros tid Hne. simpl. by rewrite lookup_insert_ne.
  - simpl. unfold countAdvertised.
    rewrite map_filter_insert_False.
    2:{ simpl. unfold approved_advertised. rewrite Hst. simpl. done. }
    rewrite map_filter_delete. rewrite delete_id; [done|].
    apply map_lookup_filter_None. by left.
  - intros customer req t Hreq. simpl. rewrite Hreq.
    destruct (negb (email_is _ _)); [done|].
    destruct (r_quantity req) as [q|]; [|done].
    destruct (q <=? 0)%Z; [done|]. simpl.
    rewrite lookup_insert_eq. unfold is_string. rewrite Hst. simpl. done.
Qed.

Lemma post_tickets_pending_witness :
  let st' := (Part002Rest.post_tickets Sample.not_a_number SampleRest.new_date
                (Verified Sample.vendor) SampleRest.draft 10 Sample.shop).2 in
  (∃ d, ticketsCollection st' !! 2%N = Some d
        ∧ d !! "verificationStatus" = Some (VStr "pending")
        ∧ d !! "vendorEmail" = Some (VStr Sample.vendor))
  ∧ ticketsCollection st' !! 1%N = ticketsCollection Sample.shop !! 1%N.
Proof.
  destruct (post_tickets_pending Sample.not_a_number SampleRest.new_date
              (Verified Sample.vendor) SampleRest.draft 10%Z Sample.shop 2%N)
    as (_ & (email & d & Hc & Hd & Hs & _ & Hv & _) & Hother & _);
    [vm_compute; reflexivity |].
  injection Hc as <-. split; [by exists d|]. by apply Hother.
Defined.

(** ** Moderation and the advertisement slots *)

Lemma moderate_hit status admin oid d st :
  is_admin admin st → ticketsCollection st !! oid = Some d →
  moderate status (Verified admin) (Hex24 oid) st
  = (Send 200 (SuccessModified
                 (if decide (<["verificationStatus" := VStr status]> d = d) then 0 else 1)),
     with_tickets (<[oid := <["verificationStatus" := VStr status]> d]>
                     (ticketsCollection st)) st).
Proof.
  intros Ha Hd. unfold moderate, verifyJWT. rewrite verifyAdmin_admin by done. simpl.
  erewrite updateOne_hit; [| done | done | by apply set_fields_singleton]. done.
Qed.

(** X5.  [PATCH /tickets/:id/approve] and [/reject] (both
    revisions) write nothing but the [verificationStatus] of the ticket
    they name: users, bookings and payments are unchanged, no ticket
    appears or disappears, every field other than [verificationStatus] of
    every ticket is unchanged; for an admin, an existing ticket gets the
    new status and the answer is 200, a missing one gives 404 and an
    unchanged store. *)
Theorem moderation_frame (status : string) (c : credential) (id : raw_id) (st : store) :
  let res := moderate status c id st in
  usersCollection res.2 = usersCollection st
  ∧ bookingsCollection res.2 = bookingsCollection st
  ∧ paymentsCollection res.2 = paymentsCollection st
  ∧ (∀ tid, ticketsCollection res.2 !! tid = None ↔ ticketsCollection st !! tid = None)
  ∧ (∀ tid d, ticketsCollection st !! tid = Some d →
       ∃ d', ticketsCollection res.2 !! tid = Some d'
             ∧ (∀ k, k ≠ "verificationStatus" → d' !! k = d !! k)
             ∧ (d' = d ∨ (id = Hex24 tid ∧ d' !! "verificationStatus" = Some (VStr status))))
  ∧ (∀ admin oid, c = Verified admin → is_admin admin st → id = Hex24 oid →
       match ticketsCollection st !! oid with
       | Some d =>
           (∃ n, res.1 = Send 200 (SuccessModified n))
           ∧ (ticketsCollection res.2 !! oid) ≫= (λ d, d !! "verificationStatus")
             = Some (VStr status)
       | None => res = (Send 404 (Message "Ticket not found"), st)
       end).
Proof.
  cbv zeta.
  assert (Hcases : (moderate status c id st).2 = st
          ∨ ∃ oid d, id = Hex24 oid ∧ ticketsCollection st !! oid = Some d
              ∧ (moderate status c id st).2
                = with_tickets (<[oid := <["verificationStatus" := VStr status]> d]>
                                  (ticketsCollection st)) st).
  { unfold moderate. destruct c as [| |email]; simpl; try (by left).
    unfold verifyAdmin. destruct (List.find _ _) as [a|]; [|by left].
    destruct (String.eqb (u_role a) "admin"); [|by left].
    destruct id as [oid|s]; simpl; [|by left].
    destruct (ticketsCollection st !! oid) as [d|] eqn:Hd.
    - erewrite updateOne_hit; [| done | done | by apply set_fields_singleton].
      simpl. right. by exists oid, d.
    - unfold updateOne. rewrite Hd. simpl. by left. }
  split; [|split; [|split; [|split; [|split]]]].
  - by destruct Hcases as [->|(oid & d & _ & _ & ->)].
  - by destruct Hcases as [->|(oid & d & _ & _ & ->)].
  - by destruct Hcases as [->|(oid & d & _ & _ & ->)].
  - intros tid. destruct Hcases as [->|(oid & d & _ & Hd & ->)]; [done|]. simpl.
    destruct (decide (tid = oid)) as [->|Hne].
    + rewrite lookup_insert_eq, Hd. done.
    + by rewrite lookup_insert_ne.
  - intros tid d Hd. destruct Hcases as [->|(oid & d0 & -> & Hd0 & ->)].
    { exists d. split; [done|]. split; [done|by left]. }
    simpl. destruct (decide (tid = oid)) as [->|Hne].
    + rewrite lookup_insert_eq. assert (d0 = d) as -> by congruence.
      eexists. split; [done|]. split.
      * intros k Hk. by rewrite lookup_insert_ne.
      * right. split; [done|]. by rewrite lookup_insert_eq.
    + rewrite lookup_insert_ne by done. exists d. split; [done|]. split; [done|by left].
  - intros admin oid -> Ha ->.
    destruct (ticketsCollection st !! oid) as [d|] eqn:Hd.
    + rewrite (moderate_hit status admin oid d st) by done. simpl.
      split; [by eexists|]. rewrite lookup_insert_eq. simpl. by rewrite lookup_insert_eq.
    + unfold moderate, verifyJWT. rewrite verifyAdmin_admin by done. simpl.
      unfold updateOne. rewrite Hd. done.
Qed.

Lemma moderation_frame_witness :
  let res := patch_tickets_approve (Verified Sample.administrator) (Hex24 1)
               Sample.rejected_shop in
  (∃ n, res.1 = Send 200 (SuccessModified n))
  ∧ (ticketsCollection res.2 !! 1%N) ≫= (λ d, d !! "verificationStatus")
    = Some (VStr "approved")
  ∧ usersCollection res.2 = usersCollection Sample.rejected_shop.
Proof.
  destruct (moderation_frame "approved" (Verified Sample.administrator) (Hex24 1)
              Sample.rejected_shop) as (Hu & _ & _ & _ & _ & H).
  destruct (H Sample.administrator 1%N eq_refl) as [H1 H2]; [sample_admin | reflexivity |].
  split; [exact H1|]. split; [exact H2 | exact Hu].
Defined.

Lemma countAdvertised_insert (m : gmap oid doc) i d d' :
  m !! i = Some d →
  countAdvertised (<[i := d']> m) + (if approved_advertised d then 1 else 0)
  = countAdvertised m + (if approved_advertised d' then 1 else 0).
Proof.
  intros Hd. unfold countAdvertised.
  set (P := λ kv : oid * doc, approved_advertised kv.2 = true).
  assert (Hold : filter P m !! i = if approved_advertised d then Some d else None).
  { destruct (approved_advertised d) eqn:Hp.
    - apply map_lookup_filter_Some. by split.
    - apply map_lookup_filter_None. right. intros x Hx. unfold P. simpl.
      rewrite Hd in Hx. injection Hx as <-. by rewrite Hp. }
  destruct (approved_advertised d') eqn:Hp'.
  - rewrite map_filter_insert_True by done. rewrite map_size_insert, Hold.
    destruct (approved_advertised d); simpl; lia.
  - rewrite map_filter_insert_False by (unfold P; simpl; by rewrite Hp').
    rewrite map_filter_delete, map_size_delete, Hold.
    destruct (approved_advertised d) eqn:Hp; simpl; [|lia].
    assert (size (filter P m) ≠ 0); [|lia].
    intros Hz%map_size_empty_inv. rewrite Hz in Hold. by rewrite lookup_empty in Hold.
Qed.

(** X6.  [PATCH /tickets/:id/advertise] keeps the limit as an
    invariant: from a store with at most 6 approved advertised tickets,
    whatever the request, the store has at most 6 of them afterwards. *)
Theorem advertise_keeps_slot_limit (c : credential) (id : raw_id)
    (advertised : option value) (st : store) :
  countAdvertised (ticketsCollection st) ≤ 6 →
  countAdvertised (ticketsCollection (patch_tickets_advertise c id advertised st).2) ≤ 6.
Proof.
  intros Hc. unfold patch_tickets_advertise.
  destruct c as [| |email]; simpl; try done.
  unfold verifyAdmin. destruct (List.find _ _) as [a|]; [|done].
  destruct (String.eqb (u_role a) "admin"); [|done].
  destruct advertised as [[|adv| | | | | | |]|]; try done.
  destruct (adv && _) eqn:Hfull; [done|].
  destruct (toObjectId id) as [oid|]; [|done].
  destruct (ticketsCollection st !! oid) as [d|] eqn:Hd.
  2:{ unfold updateOne. rewrite Hd. done. }
  erewrite updateOne_hit; [| done | done | by apply set_fields_singleton]. simpl.
  pose proof (countAdvertised_insert (ticketsCollection st) oid d
                (<["advertised" := VBool adv]> d) Hd) as Hcount.
  assert (Hfull' : adv && (6 <=? countDocuments advertised_query (ticketsCollection st))
                   = false)
    by exact Hfull.
  clear Hfull. destruct adv.
  - rewrite andb_true_l in Hfull'. apply Nat.leb_gt in Hfull'.
    pose proof (countAdvertised_le (ticketsCollection st)) as Hle.
    destruct (approved_advertised d), (approved_advertised _); lia.
  - assert (approved_advertised (<["advertised" := VBool false]> d) = false) as Hoff.
    { unfold approved_advertised. rewrite lookup_insert_eq.
      rewrite bool_decide_eq_false_2 by done. by rewrite andb_false_r. }
    rewrite Hoff in Hcount. destruct (approved_advertised d); lia.
Qed.

Lemma advertise_keeps_slot_limit_witness :
  countAdvertised
    (ticketsCollection
       (patch_tickets_advertise (Verified Sample.administrator) (Hex24 7)
          (Some (VBool true)) (Sample.gallery 6)).2) ≤ 6.
Proof.
  apply (advertise_keeps_slot_limit (Verified Sample.administrator) (Hex24 7)
           (Some (VBool true)) (Sample.gallery 6)).
  vm_compute. lia.
Defined.

(** X7.  The approve route does not look at the limit: approving
    a ticket that is not approved and already carries [advertised = true]
    raises the number of approved advertised tickets by one, whatever that
    number was. *)
Theorem approve_ignores_slot_limit (admin : string) (oid : oid) (d : doc) (st : store) :
  is_admin admin st →
  ticketsCollection st !! oid = Some d →
  d !! "advertised" = Some (VBool true) →
  is_string (d !! "verificationStatus") "approved" = false →
  let res := patch_tickets_approve (Verified admin) (Hex24 oid) st in
  error_of res.1 = None
  ∧ countAdvertised (ticketsCollection res.2) = S (countAdvertised (ticketsCollection st)).
Proof.
  intros Ha Hd Hadv Hst. cbv zeta. unfold patch_tickets_approve.
  rewrite (moderate_hit "approved" admin oid d st) by done. simpl. split; [done|].
  pose proof (countAdvertised_insert (ticketsCollection st) oid d
                (<["verificationStatus" := VStr "approved"]> d) Hd) as Hcount.
  assert (approved_advertised d = false) as Hold.
  { unfold approved_advertised. by rewrite Hst. }
  assert (approved_advertised (<["verificationStatus" := VStr "approved"]> d) = true) as Hnew.
  { unfold approved_advertised. rewrite lookup_insert_eq, lookup_insert_ne by done.
    rewrite Hadv, bool_decide_eq_true_2 by done. done. }
  rewrite Hold, Hnew in Hcount. lia.
Qed.

Lemma approve_ignores_slot_limit_witness :
  let res := patch_tickets_approve (Verified Sample.administrator) (Hex24 1)
               SampleRest.flagged_shop in
  countAdvertised (ticketsCollection SampleRest.flagged_shop) = 0
  ∧ countAdvertised (ticketsCollection res.2) = 1.
Proof.
  destruct (approve_ignores_slot_limit Sample.administrator 1%N
              (Sample.ticket "pending" 5 true) SampleRest.flagged_shop) as [_ H];
    [sample_admin | reflexivity | reflexivity | reflexivity |].
  split; [reflexivity | exact H].
Defined.

(** ** Who may update a ticket, and what is stored *)

Lemma number_if_truthy_is_Some ston f (u : doc) k :
  is_Some (Part002.number_if_truthy ston f u !! k) → is_Some (u !! k).
Proof.
  unfold Part002.number_if_truthy. destruct (truthy (u !! f)) eqn:Ht; [|done].
  destruct (decide (k = f)) as [->|Hne].
  - intros _. destruct (u !! f); [by eexists|done].
  - by rewrite lookup_insert_ne.
Qed.

Lemma normalise_perks_is_Some (u : doc) k :
  is_Some (Part002.normalise_perks u !! k) → is_Some (u !! k).
Proof.
  unfold Part002.normalise_perks. destruct (u !! "perks") as [p|] eqn:Hp.
  - destruct (isArray (Some p)); [done|].
    destruct (decide (k = "perks")) as [->|Hne]; [by rewrite Hp; eexists|].
    by rewrite lookup_insert_ne.
  - by intros [_ H]%lookup_delete_is_Some.
Qed.

(** The operand of part_002's [$set] names fields of the body only, and
    never [_id]. *)
Lemma part002_operand_keys ston (body : doc) k :
  is_Some (Part002.number_if_truthy ston "quantity"
             (Part002.number_if_truthy ston "price"
                (Part002.normalise_perks (Part002.strip_protected body))) !! k) →
  is_Some (body !! k) ∧ k ≠ "_id".
Proof.
  intros H%number_if_truthy_is_Some%number_if_truthy_is_Some%normalise_perks_is_Some.
  unfold Part002.strip_protected in H.
  apply lookup_delete_is_Some in H as [Hid H].
  do 4 apply lookup_delete_is_Some in H as [_ H]. done.
Qed.

Lemma indexjs_operand_keys (body : doc) k :
  is_Some (IndexJs.strip_protected body !! k) → is_Some (body !! k).
Proof.
  unfold IndexJs.strip_protected. intros H.
  do 4 apply lookup_delete_is_Some in H as [_ H]. done.
Qed.

(** The operand of the [$set] of part_002's [PATCH /tickets/:id], for a
    body whose keys are plain names. *)
Lemma part002_patch_applied ston email oid body d st :
  ticketsCollection st !! oid = Some d →
  is_string (d !! "vendorEmail") email = true →
  is_string (d !! "verificationStatus") "rejected" = false →
  map_Forall (λ k _, plain k = true) body →
  ∃ n,
    Part002.patch_tickets ston (Verified email) (Hex24 oid) body st
    = (Send 200 (SuccessModified n),
       with_tickets
         (<[oid := Part002.number_if_truthy ston "quantity"
                     (Part002.number_if_truthy ston "price"
                        (Part002.normalise_perks (Part002.strip_protected body))) ∪ d]>
            (ticketsCollection st)) st).
Proof.
  intros Hd Hv Hr Hplain. unfold Part002.patch_tickets. simpl. rewrite Hd, Hv, Hr. simpl.
  erewrite updateOne_hit; [by eexists | done | done |].
  apply set_fields_plain.
  - intros k [[v Hk] _]%part002_operand_keys. exact (Hplain k v Hk).
  - rewrite !number_if_truthy_other, normalise_perks_other by done.
    unfold Part002.strip_protected. by simplify_map_eq.
Qed.










(** ** Moderation and the vendor *)


(** The [$set] of index.js's [PATCH /tickets/:id], for a body whose keys
    are plain names. *)
Lemma indexjs_patch_applied caller oid body d st :
  ticketsCollection st !! oid = Some d →
  is_string (d !! "verificationStatus") "rejected" = false →
  body !! "_id" = None →
  map_Forall (λ k _, plain k = true) body →
  ∃ n,
    IndexJs.patch_tickets (Verified caller) (Hex24 oid) body st
    = (Send 200 (SuccessModified n),
       with_tickets (<[oid := IndexJs.strip_protected body ∪ d]> (ticketsCollection st)) st).
Proof.
  intros Hd Hr Hid Hplain. unfold IndexJs.patch_tickets. simpl. rewrite Hd, Hr.
  erewrite updateOne_hit; [by eexists | done | done |].
  apply set_fields_plain.
  - intros k [v Hk]%indexjs_operand_keys. exact (Hplain k v Hk).
  - unfold IndexJs.strip_protected. by rewrite !lookup_delete_ne.
Qed.



(** X11.  A ticket created by [POST /tickets] (part_002) cannot
    be booked (NotApproved, store unchanged) until an admin approves it;
    after approval a booking of [q] seats, [q] positive and at most the
    ticket's quantity [n], succeeds and leaves [n - q] seats. *)
Theorem new_ticket_bookable_once_approved (StringToNumber : value → value)
    (NewDate : option value → value) (vendor admin customer : string) (body : doc)
    (now t : Z) (st : store) (id : oid) (q n : Z) :
  (Part002Rest.post_tickets StringToNumber NewDate (Verified vendor) body now st).1
    = inr (TicketCreated id) →
  ToNumber StringToNumber (body !! "quantity") = VNum n →
  (0 < q ≤ n)%Z →
  is_admin admin st →
  let st1 := (Part002Rest.post_tickets StringToNumber NewDate (Verified vendor) body now st).2 in
  let st2 := (patch_tickets_approve (Verified admin) (Hex24 id) st1).2 in
  let req := mkBookingRequest (Some (Hex24 id)) (Some q) (Some customer) in
  (error_of (Part002.post_bookings (Verified customer) req t st1).1 = Some NotApproved
   ∧ (Part002.post_bookings (Verified customer) req t st1).2 = st1)
  ∧ (∃ bid, (Part002.post_bookings (Verified customer) req t st2).1
            = Send 200 (SuccessBooking bid))
  ∧ quantity_of
      <$> ticketsCollection (Part002.post_bookings (Verified customer) req t st2).2 !! id
    = Some (Some (n - q)%Z).
Proof.
  intros Hok Hn Hq Ha. cbv zeta.
  destruct (post_tickets_created _ _ _ _ _ _ _ Hok)
    as (email & u & d & _ & _ & _ & _ & _ & _ & -> & Hst & _ & _ & Hqty & _ & _).
  rewrite Hn in Hqty.
  pose (st1 := with_tickets (<[id := d]> (ticketsCollection st)) st).
  fold st1.
  assert (Hd1 : ticketsCollection st1 !! id = Some d) by (simpl; by rewrite lookup_insert_eq).
  split.
  { unfold Part002.post_bookings, verifyJWT. cbn [r_customerEmail r_ticketId r_quantity email_is].
    rewrite String.eqb_refl. cbn [negb]. destruct (Z.leb_spec q 0); [lia|].
    simpl toObjectId. cbv iota beta. rewrite Hd1. unfold is_string. by rewrite Hst. }
  pose (d2 := <["verificationStatus" := VStr "approved"]> d).
  pose (st2 := with_tickets (<[id := d2]> (ticketsCollection st1)) st1).
  assert (Hst2 : (patch_tickets_approve (Verified admin) (Hex24 id) st1).2 = st2)
    by (unfold patch_tickets_approve; by rewrite (moderate_hit "approved" admin id d st1)).
  rewrite Hst2.
  assert (Hd2 : ticketsCollection st2 !! id = Some d2) by (simpl; by rewrite lookup_insert_eq).
  assert (Hq2 : d2 !! "quantity" = Some (VNum n)) by (unfold d2; by rewrite lookup_insert_ne).
  assert (Heq : Part002.post_bookings (Verified customer)
                  (mkBookingRequest (Some (Hex24 id)) (Some q) (Some customer)) t st2
                = Part002.post_bookings_reserve customer id q d2 t st2).
  { unfold Part002.post_bookings, verifyJWT. cbn [r_customerEmail r_ticketId r_quantity email_is].
    rewrite String.eqb_refl. cbn [negb]. destruct (Z.leb_spec q 0); [lia|].
    simpl toObjectId. cbv iota beta. rewrite Hd2. unfold d2 at 1.
    by rewrite lookup_insert_eq. }
  rewrite Heq. clearbody st2. unfold Part002.post_bookings_reserve.
  erewrite updateOne_hit;
    [| done | unfold field_gte; rewrite Hq2; apply Z.leb_le; lia
     | unfold inc_field; by rewrite Hq2 ].
  rewrite decide_False.
  2:{ intros Hc. apply (f_equal (λ m : doc, m !! "quantity")) in Hc.
      rewrite lookup_insert_eq, Hq2 in Hc. injection Hc. lia. }
  simpl. split; [by eexists|]. rewrite lookup_insert_eq. simpl.
  unfold quantity_of. by rewrite lookup_insert_eq.
Qed.

Lemma new_ticket_bookable_once_approved_witness :
  let st1 := (Part002Rest.post_tickets Sample.not_a_number SampleRest.new_date
                (Verified Sample.vendor) SampleRest.draft 10 Sample.shop).2 in
  let st2 := (patch_tickets_approve (Verified Sample.administrator) (Hex24 2) st1).2 in
  let req := mkBookingRequest (Some (Hex24 2)) (Some 2%Z) (Some Sample.customer) in
  error_of (Part002.post_bookings (Verified Sample.customer) req 20 st1).1 = Some NotApproved
  ∧ quantity_of
      <$> ticketsCollection (Part002.post_bookings (Verified Sample.customer) req 20 st2).2
            !! 2%N
    = Some (Some 38%Z).
Proof.
  destruct (new_ticket_bookable_once_approved Sample.not_a_number SampleRest.new_date
              Sample.vendor Sample.administrator Sample.customer SampleRest.draft
              10%Z 20%Z Sample.shop 2%N 2%Z 40%Z)
    as ((H1 & _) & _ & H3);
    [vm_compute; reflexivity | reflexivity | lia | sample_admin |].
  split; [exact H1 | exact H3].
Defined.

Lemma findUser_alter_unique (f : user → user) (users : list user) (i : nat) u :
  NoDup (u_email <$> users) → users !! i = Some u →
  (∀ u, u_email (f u) = u_email u) →
  findUser (u_email u) (alter f i users) = Some (f u).
Proof.
  intros Hnd Hi Hf. rewrite <-(Hf u). apply (findUser_unique _ i).
  - by rewrite alter_keeps_emails.
  - by rewrite list_lookup_alter_eq, Hi.
Qed.

(** X12.  Where e-mails identify users: after mark-fraud the
    vendor's [POST /tickets] (part_002) is answered 403 "suspended" and
    changes nothing; after a later make-vendor the same request, with its
    eight required fields, creates the ticket. *)
Theorem fraud_suspends_ticket_creation (StringToNumber : value → value)
    (NewDate : option value → value) (admin : string) (uid : oid) (vendor : user)
    (body : doc) (now : Z) (st : store) :
  NoDup (u_email <$> usersCollection st) →
  is_admin admin st →
  findUserById uid (usersCollection st) = Some vendor →
  u_role vendor = "vendor" →
  (∀ k, k ∈ ["title"; "from"; "to"; "transport"; "price"; "quantity"; "departure"; "image"] →
        truthy (body !! k) = true) →
  let st1 := (patch_admin_users_mark_fraud (Verified admin) (Hex24 uid) st).2 in
  let st2 := (patch_admin_users_make_vendor (Verified admin) (Hex24 uid) st1).2 in
  Part002Rest.post_tickets StringToNumber NewDate (Verified (u_email vendor)) body now st1
  = (inl (Send 403
            (Message "Your vendor account has been suspended due to fraud activity")),
     st1)
  ∧ ∃ id,
      (Part002Rest.post_tickets StringToNumber NewDate (Verified (u_email vendor))
         body now st2).1 = inr (TicketCreated id).
Proof.
  intros Hnd Ha Hu Hr Hbody. cbv zeta.
  pose (users1 := alter (set_user None (Some true)) (N.to_nat uid) (usersCollection st)).
  assert (Hst1 : usersCollection
            (patch_admin_users_mark_fraud (Verified admin) (Hex24 uid) st).2 = users1).
  { unfold patch_admin_users_mark_fraud, verifyJWT. rewrite verifyAdmin_admin by done.
    simpl. by rewrite Hu, Hr. }
  assert (Ha1 : is_admin admin (patch_admin_users_mark_fraud (Verified admin) (Hex24 uid) st).2).
  { apply is_admin_role. rewrite Hst1. unfold users1.
    rewrite findUser_alter_role by apply set_user_keeps_role. by apply is_admin_role. }
  remember (patch_admin_users_mark_fraud (Verified admin) (Hex24 uid) st).2 as st1.
  clear Heqst1.
  assert (Hf1 : findUser (u_email vendor) (usersCollection st1)
                = Some (mkUser (u_email vendor) "vendor" true)).
  { rewrite Hst1. unfold users1.
    rewrite (findUser_alter_unique _ _ _ vendor) by done.
    unfold set_user. simpl. by rewrite Hr. }
  split.
  - unfold Part002Rest.post_tickets, verifyJWT_route, verifyVendor. by rewrite Hf1.
  - assert (Hf2 : findUser (u_email vendor)
                    (usersCollection
                       (patch_admin_users_make_vendor (Verified admin) (Hex24 uid) st1).2)
                  = Some (mkUser (u_email vendor) "vendor" false)).
    { unfold patch_admin_users_make_vendor, verifyJWT. rewrite verifyAdmin_admin by done.
      simpl. rewrite Hst1. unfold updateUserById, users1. rewrite list_alter_alter_eq.
      by rewrite (findUser_alter_unique _ _ _ vendor). }
    remember (patch_admin_users_make_vendor (Verified admin) (Hex24 uid) st1).2 as st2.
    clear Heqst2.
    unfold Part002Rest.post_tickets, verifyJWT_route, verifyVendor. rewrite Hf2. simpl.
    rewrite !Hbody by (repeat constructor). simpl. by eexists.
Qed.

Lemma fraud_suspends_ticket_creation_witness :
  let st1 := (patch_admin_users_mark_fraud (Verified Sample.administrator) (Hex24 1)
                Sample.shop).2 in
  let st2 := (patch_admin_users_make_vendor (Verified Sample.administrator) (Hex24 1)
                st1).2 in
  Part002Rest.post_tickets Sample.not_a_number SampleRest.new_date (Verified Sample.vendor)
    SampleRest.draft 10 st1
  = (inl (Send 403
            (Message "Your vendor account has been suspended due to fraud activity")),
     st1)
  ∧ ∃ id,
      (Part002Rest.post_tickets Sample.not_a_number SampleRest.new_date
         (Verified Sample.vendor) SampleRest.draft 10 st2).1 = inr (TicketCreated id).
Proof.
  apply (fraud_suspends_ticket_creation Sample.not_a_number SampleRest.new_date
           Sample.administrator 1%N (mkUser Sample.vendor "vendor" false)
           SampleRest.draft 10%Z Sample.shop).
  - apply (bool_decide_unpack _). vm_compute. reflexivity.
  - sample_admin.
  - reflexivity.
  - reflexivity.
  - intros k Hk.
    repeat (apply elem_of_cons in Hk as [->|Hk]; [reflexivity|]).
    by apply elem_of_nil in Hk.
Defined.

(** ** Acceptance and cancellation *)

Lemma accept_pending r vendor now st bid b :
  bookingsCollection st !! bid = Some b →
  b_status b = pending →
  is_string (b_vendorEmail b) vendor = true →
  patch_bookings_accept r (Verified vendor) (Hex24 bid) now st
  = (Send 200 (SuccessModified 1),
     with_bookings
       (<[bid := mkBooking (b_ticketId b) (b_vendorEmail b) (b_customerEmail b)
                   (b_title b) (b_price b) (b_quantity b) accepted (b_createdAt b)
                   (Some now) (b_rejectedAt b) (b_paidAt b)]> (bookingsCollection st))
       st).
Proof.
  intros Hb Hp Hv.
  assert (Hne : ∀ x, mkBooking (b_ticketId b) (b_vendorEmail b) (b_customerEmail b)
                   (b_title b) (b_price b) (b_quantity b) accepted (b_createdAt b)
                   x (b_rejectedAt b) (b_paidAt b) ≠ b).
  { intros x Heq. apply (f_equal b_status) in Heq. simpl in Heq. congruence. }
  destruct r; simpl; rewrite Hb, Hv; simpl.
  - unfold is_pending. rewrite Hp. simpl.
    erewrite updateOne_hit by done. by rewrite decide_False.
  - erewrite updateOne_hit; [|done|by unfold is_pending; rewrite Hp|done].
    by rewrite decide_False.
Qed.



(** The payment cancellation of an accepted booking. *)
Lemma cancel_accepted st bid b d m :
  bookingsCollection st !! bid = Some b →
  b_status b = accepted →
  ticketsCollection st !! b_ticketId b = Some d →
  quantity_of d = Some m →
  Part002.get_stripe_payment_cancelled (Hex24 bid) st
  = (Redirect "/payment-cancelled",
     mkStore (usersCollection st)
       (<[b_ticketId b := <["quantity" := VNum (m + b_quantity b)]> d]>
          (ticketsCollection st))
       (<[bid := mkBooking (b_ticketId b) (b_vendorEmail b) (b_customerEmail b)
                   (b_title b) (b_price b) (b_quantity b) cancelled (b_createdAt b)
                   (b_acceptedAt b) (b_rejectedAt b) (b_paidAt b)]> (bookingsCollection st))
       (paymentsCollection st)).
Proof.
  intros Hb Hs Hd Hm.
  assert (Hq : d !! "quantity" = Some (VNum m)).
  { unfold quantity_of in Hm. by destruct (d !! "quantity") as [[]|]; simplify_eq. }
  unfold Part002.get_stripe_payment_cancelled. simpl. rewrite Hb.
  rewrite bool_decide_eq_true_2 by done.
  erewrite updateOne_hit; [|done|done|unfold inc_field; by rewrite Hq]. simpl.
  erewrite updateOne_hit by done. done.
Qed.

Lemma cancel_cases id st :
  Part002.get_stripe_payment_cancelled id st = (Redirect "/payment-cancelled", st)
  ∨ ∃ bid b',
      toObjectId id = Some bid
      ∧ bookingsCollection (Part002.get_stripe_payment_cancelled id st).2 !! bid = Some b'
      ∧ b_status b' = cancelled.
Proof.
  unfold Part002.get_stripe_payment_cancelled.
  destruct (toObjectId id) as [bid|] eqn:Hid; [|by left].
  destruct (bookingsCollection st !! bid) as [b|] eqn:Hb; [|by left].
  case_bool_decide as Hs; [|by left].
  destruct (updateOne (b_ticketId b) _ _ _) as [[res tickets']|] eqn:Hu; [|by left].
  simpl. erewrite updateOne_hit by done. simpl.
  right. eexists bid, _. split; [done|]. by rewrite lookup_insert_eq.
Qed.

(** X14.  [GET /stripe/payment-cancelled] (part_002): a second
    request for the same booking changes nothing, so the seats go back to
    the ticket once only; the first request for an accepted booking sets
    it [cancelled] and adds its seats to the ticket's quantity. *)
Theorem cancel_is_idempotent (id : raw_id) (st : store) :
  let st1 := (Part002.get_stripe_payment_cancelled id st).2 in
  Part002.get_stripe_payment_cancelled id st1 = (Redirect "/payment-cancelled", st1)
  ∧ (∀ bid b d m,
       id = Hex24 bid → bookingsCollection st !! bid = Some b → b_status b = accepted →
       ticketsCollection st !! b_ticketId b = Some d → quantity_of d = Some m →
       b_status <$> bookingsCollection st1 !! bid = Some cancelled
       ∧ quantity_of <$> ticketsCollection st1 !! b_ticketId b
         = Some (Some (m + b_quantity b)%Z)).
Proof.
  cbv zeta. split.
  - destruct (cancel_cases id st) as [Heq|(bid & b' & Hid & Hb' & Hs)].
    + by rewrite !Heq.
    + remember (Part002.get_stripe_payment_cancelled id st).2 as st1. clear Heqst1.
      unfold Part002.get_stripe_payment_cancelled. rewrite Hid, Hb'.
      by rewrite bool_decide_eq_false_2 by (by rewrite Hs).
  - intros bid b d m -> Hb Hs Hd Hm.
    rewrite (cancel_accepted st bid b d m) by done. simpl.
    rewrite !lookup_insert_eq. simpl. unfold quantity_of. by rewrite lookup_insert_eq.
Qed.

Lemma cancel_is_idempotent_witness :
  let st1 := (Part002.get_stripe_payment_cancelled (Hex24 0) (Sample.shop_with accepted)).2 in
  Part002.get_stripe_payment_cancelled (Hex24 0) st1 = (Redirect "/payment-cancelled", st1)
  ∧ b_status <$> bookingsCollection st1 !! 0%N = Some cancelled
  ∧ quantity_of <$> ticketsCollection st1 !! 1%N = Some (Some 7%Z).
Proof.
  destruct (cancel_is_idempotent (Hex24 0) (Sample.shop_with accepted)) as [H1 H2].
  split; [exact H1|].
  exact (H2 0%N (Sample.booked accepted) (Sample.ticket "approved" 5 false) 5%Z
           eq_refl eq_refl eq_refl eq_refl eq_refl).
Defined.

(** X15.  The life of a booking in part_002: created, then
    accepted by the vendor, the ticket holds [n - q] seats.  Cancelling the
    payment then gives the ticket document back as it was before the
    booking.  Paying instead keeps the [n - q] seats, sets the booking
    [paid] and records one payment of [q] seats for that booking, customer
    and transaction; a payment-cancelled request after that changes
    nothing. *)
Theorem accepted_booking_cancel_or_pay (customer vendor : string) (req : booking_request)
    (now1 now2 now3 : Z) (st : store) (bid tid : oid) (d : doc) (n : Z)
    (s : checkout_session) :
  r_ticketId req = Some (Hex24 tid) →
  ticketsCollection st !! tid = Some d →
  quantity_of d = Some n →
  is_string (d !! "vendorEmail") vendor = true →
  (Part002.post_bookings (Verified customer) req now1 st).1 = Send 200 (SuccessBooking bid) →
  payment_status s = "paid" → metadata_bookingId s = Hex24 bid →
  findPayment (payment_intent s) (paymentsCollection st) = None →
  let st1 := (Part002.post_bookings (Verified customer) req now1 st).2 in
  let st2 := (Part002.patch_bookings_accept (Verified vendor) (Hex24 bid) now2 st1).2 in
  let cancelled_ := (Part002.get_stripe_payment_cancelled (Hex24 bid) st2).2 in
  let paid_ := (Part002.post_payments_verify (Some s) now3 st2).2 in
  ∃ q, r_quantity req = Some q
    ∧ quantity_of <$> ticketsCollection st2 !! tid = Some (Some (n - q)%Z)
    ∧ ticketsCollection cancelled_ !! tid = Some d
    ∧ b_status <$> bookingsCollection cancelled_ !! bid = Some cancelled
    ∧ quantity_of <$> ticketsCollection paid_ !! tid = Some (Some (n - q)%Z)
    ∧ b_status <$> bookingsCollection paid_ !! bid = Some paid
    ∧ (∃ p, paymentsCollection paid_ = paymentsCollection st ++ [p]
          ∧ p_bookingId p = bid ∧ p_quantity p = q ∧ p_customerEmail p = customer
          ∧ p_transactionId p = payment_intent s)
    ∧ Part002.get_stripe_payment_cancelled (Hex24 bid) paid_
      = (Redirect "/payment-cancelled", paid_).
Proof.
  intros Hrid Hd Hn Hv Hok Hpaid Hmeta Hfresh. cbv zeta.
  destruct (post_bookings_success part_002 (λ v, v) customer req now1 st bid Hok)
    as (rid & tid' & d' & q & _ & Hrid' & Htid & Hq & Hd' & _ & _ & _ & _ & -> & Hst1).
  change (post_bookings part_002 (λ v, v) (Verified customer) req now1 st)
    with (Part002.post_bookings (Verified customer) req now1 st) in Hst1.
  rewrite Hst1. clear Hst1 Hok.
  rewrite Hrid in Hrid'. injection Hrid' as <-. simpl in Htid. injection Htid as <-.
  rewrite Hd in Hd'. injection Hd' as <-.
  set (bid := fresh (dom (bookingsCollection st))) in *.
  assert (Hts : take_stock q d = <["quantity" := VNum (n - q)]> d).
  { unfold take_stock. by rewrite Hn. }
  simpl reserved. rewrite Hts.
  set (d1 := <["quantity" := VNum (n - q)]> d).
  set (b := new_booking tid d customer q now1).
  exists q. split; [done|].
  change (Part002.patch_bookings_accept (Verified vendor) (Hex24 bid) now2)
    with (patch_bookings_accept part_002 (Verified vendor) (Hex24 bid) now2).
  erewrite (accept_pending part_002 vendor now2 _ bid b);
    [| simpl; by rewrite lookup_insert_eq | done | done ].
  cbn [snd].
  set (b2 := mkBooking tid (d !! "vendorEmail") customer (d !! "title")
               (d !! "price") q accepted now1 (Some now2) None None).
  remember (with_bookings _ _) as st2 eqn:Hst2.
  assert (Ht2 : ticketsCollection st2 !! tid = Some d1)
    by (subst st2; simpl; by rewrite lookup_insert_eq).
  assert (Hb2 : bookingsCollection st2 !! bid = Some b2)
    by (subst st2; simpl; by rewrite lookup_insert_eq).
  assert (Hp2 : paymentsCollection st2 = paymentsCollection st) by (by subst st2).
  clear Hst2.
  assert (Hq1 : quantity_of d1 = Some (n - q)%Z).
  { unfold d1, quantity_of. by rewrite lookup_insert_eq. }
  split; [by rewrite Ht2; simpl; rewrite Hq1|].
  erewrite (cancel_accepted st2 bid _ d1 (n - q)); [| exact Hb2 | done | exact Ht2 | done ].
  cbn [snd ticketsCollection bookingsCollection b_ticketId b_quantity].
  split.
  { rewrite lookup_insert_eq. f_equal. unfold d1. rewrite insert_insert_eq.
    apply insert_id. replace (n - q + b_quantity b2)%Z with n by (simpl; lia).
    unfold quantity_of in Hn. destruct (d !! "quantity") as [[]|]; by simplify_eq. }
  split; [by rewrite lookup_insert_eq|].
  assert (Hfin : finalizable s st2 bid b2).
  { split; [done|]. split; [by rewrite Hmeta|exact Hb2]. }
  rewrite <- Hp2 in Hfresh.
  destruct (verify_payment_fresh part_002 s now3 st2 bid _ Hfin Hfresh)
    as [(p & tickets' & Htx & Heq)|[[=] _]].
  pose proof (part002_verify_keeps_tickets (Some s) now3 st2) as Hkeep.
  change (verify_payment part_002 (Some s) now3 st2)
    with (Part002.post_payments_verify (Some s) now3 st2) in Heq.
  assert (Hp : p = mkPayment bid (Some tid) customer (d !! "title")
                     (QArith_base.Qmake (amount_total s) 100) q (currency s)
                     (payment_intent s) now3).
  { unfold Part002.post_payments_verify in Heq. rewrite Hpaid, Hmeta in Heq.
    simpl in Heq. rewrite Hb2, Hfresh in Heq. simpl in Heq.
    erewrite updateOne_hit in Heq by (simpl; done). simpl in Heq.
    apply (f_equal (λ x, paymentsCollection x.2)) in Heq. simpl in Heq.
    by apply app_inv_head in Heq as [= <-]. }
  rewrite Heq in *. cbn [snd ticketsCollection bookingsCollection paymentsCollection] in *.
  rewrite Hkeep, Ht2. simpl. rewrite Hq1. split; [done|].
  rewrite lookup_insert_eq. split; [done|]. split.
  { exists p. split; [by rewrite Hp2|]. by rewrite Hp. }
  unfold Part002.get_stripe_payment_cancelled. simpl. rewrite lookup_insert_eq. done.
Qed.

Lemma accepted_booking_cancel_or_pay_witness :
  let st1 := (Part002.post_bookings (Verified Sample.customer) Sample.request 10
                Sample.shop).2 in
  let st2 := (Part002.patch_bookings_accept (Verified Sample.vendor) (Hex24 0) 20 st1).2 in
  let cancelled_ := (Part002.get_stripe_payment_cancelled (Hex24 0) st2).2 in
  let paid_ := (Part002.post_payments_verify (Some Sample.session) 30 st2).2 in
  ticketsCollection cancelled_ !! 1%N = Some (Sample.ticket "approved" 5 false)
  ∧ quantity_of <$> ticketsCollection paid_ !! 1%N = Some (Some 3%Z)
  ∧ b_status <$> bookingsCollection paid_ !! 0%N = Some paid.
Proof.
  destruct (accepted_booking_cancel_or_pay Sample.customer Sample.vendor Sample.request
              10%Z 20%Z 30%Z Sample.shop 0%N 1%N (Sample.ticket "approved" 5 false) 5%Z
              Sample.session)
    as (q & Hq & _ & Hback & _ & Hkept & Hpaid & _);
    [reflexivity | reflexivity | reflexivity | reflexivity | vm_compute; reflexivity
     | reflexivity | reflexivity | reflexivity |].
  injection Hq as <-.
  split; [exact Hback|]. split; [exact Hkept | exact Hpaid].
Defined.

(** ** Deleting a ticket *)

(** X16.  [DELETE /tickets/:id] by the vendor of a ticket that
    is not rejected removes the ticket and nothing else, so its bookings
    stay; another caller gets Forbidden.  Afterwards a booking request for
    the ticket (both revisions), the checkout of an accepted booking of it
    (part_002) and a second delete are all answered 404 "Ticket not
    found", the store unchanged. *)
Theorem delete_ticket_orphans_bookings (ston snum : value → value)
    (stripe_create : checkout_request → option string)
    (vendor customer : string) (tid bid : oid) (d : doc) (b : booking)
    (req : booking_request) (q now : Z) (st : store) :
  ticketsCollection st !! tid = Some d →
  is_string (d !! "vendorEmail") vendor = true →
  is_string (d !! "verificationStatus") "rejected" = false →
  bookingsCollection st !! bid = Some b → b_ticketId b = tid → b_status b = accepted →
  r_customerEmail req = Some customer → customer ≠ EmptyString →
  r_ticketId req = Some (Hex24 tid) → r_quantity req = Some q → (0 < q)%Z →
  let st1 := (delete_tickets (Verified vendor) (Hex24 tid) st).2 in
  (delete_tickets (Verified vendor) (Hex24 tid) st).1 = Send 200 (DeleteResult 1)
  ∧ st1 = with_tickets (delete tid (ticketsCollection st)) st
  ∧ (∀ other, is_string (d !! "vendorEmail") other = false →
       delete_tickets (Verified other) (Hex24 tid) st
       = (Send 403 (Message "Forbidden"), st))
  ∧ (∀ r, post_bookings r ston (Verified customer) req now st1
          = (Send 404 (Message "Ticket not found"), st1))
  ∧ Part002Rest.post_create_ticket_checkout snum stripe_create (Hex24 bid) now st1
    = (inl (Send 404 (Message "Ticket not found")), st1)
  ∧ delete_tickets (Verified vendor) (Hex24 tid) st1
    = (Send 404 (Message "Ticket not found"), st1).
Proof.
  intros Hd Hv Hrej Hb Htid Hacc Hc Hne Hrid Hq Hpos. cbv zeta.
  assert (Hdel : delete_tickets (Verified vendor) (Hex24 tid) st
                 = (Send 200 (DeleteResult 1),
                    with_tickets (delete tid (ticketsCollection st)) st)).
  { unfold delete_tickets, deleteOne. simpl. by rewrite Hd, Hv, Hrej. }
  rewrite Hdel. cbn [fst snd].
  set (st1 := with_tickets _ st).
  assert (Ht1 : ticketsCollection st1 !! tid = None) by (simpl; apply lookup_delete_eq).
  assert (Hb1 : bookingsCollection st1 !! bid = Some b) by done.
  clearbody st1.
  split; [done|]. split; [done|]. split.
  { intros other Ho. unfold delete_tickets. simpl. by rewrite Hd, Ho. }
  split.
  { intros r. assert (Hem : email_is (r_customerEmail req) customer = true).
    { rewrite Hc. unfold email_is. simpl. by rewrite String.eqb_refl. }
    destruct r; simpl; rewrite Hem, Hrid, Hq; simpl.
    - destruct (Z.leb_spec q 0); [lia|]. by rewrite Ht1.
    - destruct (Z.eqb_spec q 0); [lia|]. simpl.
      destruct (String.eqb_spec customer EmptyString); [done|]. by rewrite Ht1. }
  split.
  { unfold Part002Rest.post_create_ticket_checkout. simpl. rewrite Hb1, Hacc, Htid. simpl.
    by rewrite Ht1. }
  unfold delete_tickets. simpl. by rewrite Ht1.
Qed.

Lemma delete_ticket_orphans_bookings_witness :
  let st1 := (delete_tickets (Verified Sample.vendor) (Hex24 1)
                (Sample.shop_with accepted)).2 in
  bookingsCollection st1 !! 0%N = Some (Sample.booked accepted)
  ∧ post_bookings part_002 Sample.not_a_number (Verified Sample.customer) Sample.request 20 st1
    = (Send 404 (Message "Ticket not found"), st1)
  ∧ Part002Rest.post_create_ticket_checkout Sample.not_a_number SampleRest.stripe
      (Hex24 0) 20 st1
    = (inl (Send 404 (Message "Ticket not found")), st1).
Proof.
  destruct (delete_ticket_orphans_bookings Sample.not_a_number Sample.not_a_number
              SampleRest.stripe Sample.vendor Sample.customer 1%N 0%N
              (Sample.ticket "approved" 5 false) (Sample.booked accepted) Sample.request
              2%Z 20%Z (Sample.shop_with accepted))
    as (_ & Hst & _ & Hbook & Hpay & _);
    [reflexivity | reflexivity | reflexivity | reflexivity | reflexivity | reflexivity
     | reflexivity | discriminate | reflexivity | reflexivity | lia |].
  split; [by rewrite Hst|]. split; [exact (Hbook part_002) | exact Hpay].
Defined.

(** ** Checkout *)

(** X17.  [POST /create-ticket-checkout] in part_002 never
    writes the store, and answers with a checkout url only for an existing
    booking in status [accepted] whose ticket exists and has not departed,
    with a positive price and quantity; the payment provider is then asked
    for the price times 100 per seat, the booking's quantity as line
    quantity, and the booking's id, ticket id and quantity as metadata. *)
Theorem part002_checkout_only_when_accepted (snum : value → value)
    (stripe_create : checkout_request → option string)
    (bookingId : raw_id) (now : Z) (st : store) :
  (Part002Rest.post_create_ticket_checkout snum stripe_create bookingId now st).2 = st
  ∧ ∀ url,
      (Part002Rest.post_create_ticket_checkout snum stripe_create bookingId now st).1
      = inr (CheckoutUrl url) →
      ∃ bid b d price rq,
        toObjectId bookingId = Some bid
        ∧ bookingsCollection st !! bid = Some b ∧ b_status b = accepted
        ∧ ticketsCollection st !! b_ticketId b = Some d
        ∧ Part002Rest.not_after snum (d !! "departure") now = false
        ∧ ToNumber snum (b_price b) = VNum price
        ∧ (0 < price)%Z ∧ (0 < b_quantity b)%Z
        ∧ stripe_create rq = Some url
        ∧ unit_amount rq = VNum (price * 100) ∧ line_quantity rq = b_quantity b
        ∧ meta_bookingId rq = bid ∧ meta_ticketId rq = b_ticketId b
        ∧ meta_quantity rq = b_quantity b.
Proof.
  unfold Part002Rest.post_create_ticket_checkout.
  destruct (toObjectId bookingId) as [bid|]; [|by split].
  destruct (bookingsCollection st !! bid) as [b|] eqn:Hb; [|by split].
  case_bool_decide as Hpaid; [by split|].
  case_bool_decide as Hacc; simpl; [|by split].
  destruct (ticketsCollection st !! b_ticketId b) as [d|] eqn:Hd; [|by split].
  destruct (Part002Rest.not_after snum (d !! "departure") now) eqn:Hdep; [by split|].
  destruct (ToNumber snum (b_price b)) as [| |price| | | | | |] eqn:Hprice; try by split.
  destruct (Z.leb_spec price 0); simpl; [by split|].
  destruct (Z.leb_spec (b_quantity b) 0); simpl; [by split|].
  destruct (stripe_create _) as [u|] eqn:Hs; [|by split].
  split; [done|]. intros url [= <-].
  eexists bid, b, d, price, _. repeat split; try done.
Qed.

Lemma part002_checkout_only_when_accepted_witness :
  (Part002Rest.post_create_ticket_checkout Sample.not_a_number SampleRest.stripe
     (Hex24 0) 20 (SampleRest.timed_shop_with accepted)).1
  = inr (CheckoutUrl "https://checkout.tixgo.test/session")
  ∧ ∃ b rq, bookingsCollection (SampleRest.timed_shop_with accepted) !! 0%N = Some b
            ∧ b_status b = accepted
            ∧ SampleRest.stripe rq = Some "https://checkout.tixgo.test/session"
            ∧ unit_amount rq = VNum 50000 ∧ line_quantity rq = 2%Z.
Proof.
  split; [vm_compute; reflexivity|].
  destruct (part002_checkout_only_when_accepted Sample.not_a_number SampleRest.stripe
              (Hex24 0) 20%Z (SampleRest.timed_shop_with accepted)) as [_ H].
  destruct (H "https://checkout.tixgo.test/session")
    as (bid & b & d & price & rq & Hid & Hb & Hacc & _ & _ & Hprice & _ & _ & Hs & Hu & Hl & _);
    [vm_compute; reflexivity|].
  injection Hid as <-. exists b, rq. split; [exact Hb|]. split; [exact Hacc|].
  split; [exact Hs|].
  assert (Some b = Some (Sample.booked accepted)) as [= ->] by (rewrite <-Hb; reflexivity).
  assert (VNum price = VNum 500) as [= ->] by (rewrite <-Hprice; reflexivity).
  split; [exact Hu | exact Hl].
Defined.




(** ** Revenue *)








(** ** Registration *)

Lemma findUser_app_None email users u :
  findUser email users = None →
  findUser email (users ++ [u])
  = if String.eqb (u_email u) email then Some u else None.
Proof.
  unfold findUser. induction users as [|v users IH]; simpl; [done|].
  by destruct (String.eqb (u_email v) email).
Qed.

Lemma findUser_app_Some email users u v :
  findUser email users = Some v → findUser email (users ++ [u]) = Some v.
Proof.
  unfold findUser. induction users as [|w users IH]; simpl; [done|].
  by destruct (String.eqb (u_email w) email).
Qed.

Lemma findUser_email email users u : findUser email users = Some u → u_email u = email.
Proof.
  unfold findUser. intros H. apply find_some in H as [_ H]. by apply String.eqb_eq.
Qed.

Lemma findUser_updateUserByEmail email f users other :
  (∀ u, u_email (f u) = u_email u) →
  findUser other (updateUserByEmail email f users)
  = if String.eqb email other then f <$> findUser other users else findUser other users.
Proof.
  intros Hf. unfold findUser. induction users as [|u users IH]; simpl.
  - by destruct (String.eqb email other).
  - destruct (String.eqb_spec (u_email u) email) as [He|He]; simpl.
    + rewrite Hf, He. destruct (String.eqb email other); simpl; [done|done].
    + rewrite IH. destruct (String.eqb_spec email other) as [<-|Ho].
      * destruct (String.eqb_spec (u_email u) email); [done|done].
      * by destruct (String.eqb (u_email u) other).
Qed.

(** X20.  [POST /users] in src/index.js takes no credential and
    [$set]s the body: afterwards the user with the body's e-mail has the
    body's role, or "user" when the body has none, whether the user
    existed or not.  So a body with role "admin" makes that e-mail an
    admin, and a body without a role takes the admin role away; users with
    another e-mail, tickets, bookings and payments are unchanged. *)
Theorem indexjs_post_users_sets_role (email : string) (role : option string)
    (isFraud : option bool) (st : store) :
  email ≠ EmptyString →
  let st1 := (IndexJsRest.post_users (mkUserBody (Some email) role isFraud) st).2 in
  let role' := match role with
               | Some r => if String.eqb r EmptyString then "user" else r
               | None => "user"
               end in
  findUser email (usersCollection st1)
  = Some (mkUser email role'
            (default (default false (u_isFraud <$> findUser email (usersCollection st)))
               isFraud))
  ∧ (role = Some "admin" → is_admin email st1)
  ∧ (is_admin email st → role = None → ¬ is_admin email st1)
  ∧ (∀ other, other ≠ email →
       findUser other (usersCollection st1) = findUser other (usersCollection st))
  ∧ ticketsCollection st1 = ticketsCollection st
  ∧ bookingsCollection st1 = bookingsCollection st
  ∧ paymentsCollection st1 = paymentsCollection st.
Proof.
  intros Hne. cbv zeta.
  set (role' := match role with Some r => _ | None => _ end).
  assert (Hfound : findUser email
             (usersCollection (IndexJsRest.post_users (mkUserBody (Some email) role isFraud) st).2)
           = Some (mkUser email role'
                     (default (default false (u_isFraud <$> findUser email (usersCollection st)))
                        isFraud))).
  { unfold IndexJsRest.post_users. simpl.
    destruct (String.eqb_spec email EmptyString); [done|]. fold role'.
    destruct (findUser email (usersCollection st)) as [u|] eqn:Hu; simpl.
    - rewrite findUser_updateUserByEmail by done. rewrite String.eqb_refl, Hu. simpl.
      unfold set_user. simpl. by rewrite (findUser_email _ _ _ Hu).
    - rewrite findUser_app_None by done. simpl. by rewrite String.eqb_refl. }
  split; [exact Hfound|]. split; [|split; [|split]].
  - intros ->. apply is_admin_role. fold (findUser email). by rewrite Hfound.
  - intros _ -> Ha. apply is_admin_role in Ha. fold (findUser email) in Ha.
    rewrite Hfound in Ha. done.
  - intros other Ho. unfold IndexJsRest.post_users. simpl.
    destruct (String.eqb_spec email EmptyString); [done|].
    destruct (findUser email (usersCollection st)) as [u|] eqn:Hu; simpl.
    + rewrite findUser_updateUserByEmail by done.
      by destruct (String.eqb_spec email other); [congruence|].
    + destruct (findUser other (usersCollection st)) as [v|] eqn:Hv.
      * by apply findUser_app_Some.
      * rewrite findUser_app_None by done. simpl.
        by destruct (String.eqb_spec email other); [congruence|].
  - unfold IndexJsRest.post_users. simpl.
    destruct (String.eqb_spec email EmptyString); [done|].
    by destruct (findUser email (usersCollection st)).
Qed.

Lemma indexjs_post_users_sets_role_witness :
  let st1 := (IndexJsRest.post_users
                (mkUserBody (Some SampleRest.newcomer) (Some "admin") None) Sample.shop).2 in
  ¬ is_admin SampleRest.newcomer Sample.shop
  ∧ is_admin SampleRest.newcomer st1
  ∧ findUser Sample.administrator (usersCollection st1)
    = findUser Sample.administrator (usersCollection Sample.shop).
Proof.
  destruct (indexjs_post_users_sets_role SampleRest.newcomer (Some "admin") None Sample.shop)
    as (_ & H2 & _ & H4 & _); [discriminate|].
  split.
  - intros (u & Hu & _). vm_compute in Hu. discriminate Hu.
  - split; [exact (H2 eq_refl)|]. apply H4. discriminate.
Defined.

(** X21.  [POST /users] in part_002 never changes a role: every
    user found by e-mail before is found unchanged afterwards, a user found
    only afterwards is the body's e-mail with role "user" and no fraud
    flag, the admins are the same before and after, and tickets, bookings
    and payments are unchanged. *)
Theorem part002_post_users_keeps_roles (email name photo : option string) (now : Z)
    (st : store) :
  let st1 := (Part002Rest.post_users email name photo now st).2 in
  (∀ other u, findUser other (usersCollection st) = Some u →
     findUser other (usersCollection st1) = Some u)
  ∧ (∀ other u, findUser other (usersCollection st) = None →
       findUser other (usersCollection st1) = Some u →
       email = Some other ∧ u = mkUser other "user" false)
  ∧ (∀ a, is_admin a st1 ↔ is_admin a st)
  ∧ ticketsCollection st1 = ticketsCollection st
  ∧ bookingsCollection st1 = bookingsCollection st
  ∧ paymentsCollection st1 = paymentsCollection st.
Proof.
  cbv zeta.
  assert (Hcases : (Part002Rest.post_users email name photo now st).2 = st
            ∨ ∃ e, email = Some e ∧ findUser e (usersCollection st) = None
                ∧ (Part002Rest.post_users email name photo now st).2
                  = with_users (usersCollection st ++ [mkUser e "user" false]) st).
  { unfold Part002Rest.post_users. destruct email as [e|]; [|by left].
    destruct (String.eqb e EmptyString); [by left|].
    destruct (findUser e (usersCollection st)) eqn:He; [by left|]. right. by exists e. }
  destruct Hcases as [->|(e & -> & He & ->)]; simpl.
  { split; [done|]. split; [|done]. intros other u H1 H2. congruence. }
  assert (H1 : ∀ other u, findUser other (usersCollection st) = Some u →
                 findUser other (usersCollection st ++ [mkUser e "user" false]) = Some u).
  { intros other u Hu. by apply findUser_app_Some. }
  assert (H2 : ∀ other u, findUser other (usersCollection st) = None →
                 findUser other (usersCollection st ++ [mkUser e "user" false]) = Some u →
                 Some e = Some other ∧ u = mkUser other "user" false).
  { intros other u Hn. rewrite findUser_app_None by done. simpl.
    destruct (String.eqb_spec e other) as [->|]; [|done]. by intros [= <-]. }
  split; [exact H1|]. split; [exact H2|]. split; [|done].
  intros a. rewrite !is_admin_role. simpl.
  destruct (findUser a (usersCollection st)) as [u|] eqn:Hu.
  - by rewrite (H1 _ _ Hu).
  - destruct (findUser a (usersCollection st ++ _)) as [v|] eqn:Hv; [|done].
    destruct (H2 _ _ Hu Hv) as [_ ->]. done.
Qed.

Lemma part002_post_users_keeps_roles_witness :
  let st1 := (Part002Rest.post_users (Some SampleRest.newcomer) None None 10 Sample.shop).2 in
  findUser SampleRest.newcomer (usersCollection st1)
  = Some (mkUser SampleRest.newcomer "user" false)
  ∧ (is_admin SampleRest.newcomer st1 ↔ is_admin SampleRest.newcomer Sample.shop)
  ∧ findUser Sample.administrator (usersCollection st1)
    = Some (mkUser Sample.administrator "admin" false).
Proof.
  destruct (part002_post_users_keeps_roles (Some SampleRest.newcomer) None None 10%Z
              Sample.shop) as (H1 & _ & H3 & _).
  split; [vm_compute; reflexivity|]. split; [exact (H3 SampleRest.newcomer)|].
  apply H1. vm_compute. reflexivity.
Defined.

(** ** From booking to payment in src/index.js *)



(** ** Promotion and demotion *)

Lemma findUser_alter_other (f : user → user) (users : list user) (i : nat) u other :
  users !! i = Some u → other ≠ u_email u →
  (∀ u, u_email (f u) = u_email u) →
  findUser other (alter f i users) = findUser other users.
Proof.
  intros Hi Ho Hf. unfold findUser. revert i Hi.
  induction users as [|v users IH]; intros i Hi; [done|].
  destruct i as [|i]; simpl in *.
  - injection Hi as ->. rewrite Hf.
    by destruct (String.eqb_spec (u_email u) other); [congruence|].
  - destruct (String.eqb (u_email v) other); [done|]. by apply IH.
Qed.

(** X23.  Where e-mails identify users: [PATCH
    /admin/users/:id/make-admin] by an admin gives the named user the admin
    role, fraud flag kept, other users unchanged; the new admin may call
    make-vendor on its own id, which makes it a vendor with no fraud flag,
    after which the admin routes answer it 403.  An id that is no ObjectId
    is answered 200 by make-admin and 400 by make-vendor, the store
    unchanged in both. *)
Theorem make_admin_then_make_vendor (admin : string) (uid : oid) (u : user) (st : store) :
  NoDup (u_email <$> usersCollection st) →
  is_admin admin st →
  findUserById uid (usersCollection st) = Some u →
  let st1 := (patch_admin_users_make_admin (Verified admin) (Hex24 uid) st).2 in
  let st2 := (patch_admin_users_make_vendor (Verified (u_email u)) (Hex24 uid) st1).2 in
  findUser (u_email u) (usersCollection st1) = Some (mkUser (u_email u) "admin" (u_isFraud u))
  ∧ (∀ other, other ≠ u_email u →
       findUser other (usersCollection st1) = findUser other (usersCollection st))
  ∧ (patch_admin_users_make_vendor (Verified (u_email u)) (Hex24 uid) st1).1
    = Send 200 Success
  ∧ findUser (u_email u) (usersCollection st2) = Some (mkUser (u_email u) "vendor" false)
  ∧ (∀ id, patch_admin_users_make_admin (Verified (u_email u)) id st2
           = (Send 403 (Message "Forbidden"), st2))
  ∧ (∀ text, patch_admin_users_make_admin (Verified admin) (NotAnId text) st
             = (Send 200 Success, st))
  ∧ (∀ text, patch_admin_users_make_vendor (Verified admin) (NotAnId text) st
             = (Send 400 (Message "Invalid id"), st)).
Proof.
  intros Hnd Ha Hu. cbv zeta. unfold findUserById in Hu.
  assert (H1 : patch_admin_users_make_admin (Verified admin) (Hex24 uid) st
               = (Send 200 Success,
                  with_users (alter (set_user (Some "admin") None) (N.to_nat uid)
                                (usersCollection st)) st)).
  { unfold patch_admin_users_make_admin. simpl. by rewrite verifyAdmin_admin. }
  rewrite H1. cbn [snd].
  set (users1 := alter _ _ (usersCollection st)).
  assert (Hf1 : findUser (u_email u) users1 = Some (mkUser (u_email u) "admin" (u_isFraud u))).
  { unfold users1. by rewrite (findUser_alter_unique _ _ _ u). }
  assert (Hnd1 : NoDup (u_email <$> users1)).
  { unfold users1. by rewrite alter_keeps_emails. }
  assert (Hu1 : users1 !! N.to_nat uid = Some (mkUser (u_email u) "admin" (u_isFraud u))).
  { unfold users1. by rewrite list_lookup_alter_eq, Hu. }
  assert (Ho1 : ∀ other, other ≠ u_email u →
                 findUser other users1 = findUser other (usersCollection st)).
  { intros other Ho. unfold users1. by apply (findUser_alter_other _ _ _ u). }
  clearbody users1.
  assert (Ha1 : is_admin (u_email u) (with_users users1 st)).
  { apply is_admin_role. simpl. by rewrite Hf1. }
  assert (H2 : patch_admin_users_make_vendor (Verified (u_email u)) (Hex24 uid)
                 (with_users users1 st)
               = (Send 200 Success,
                  with_users (alter (set_user (Some "vendor") (Some false)) (N.to_nat uid)
                                users1) st)).
  { unfold patch_admin_users_make_vendor. simpl. by rewrite verifyAdmin_admin. }
  rewrite H2. cbn [fst snd].
  assert (Hf2 : findUser (u_email u)
                  (alter (set_user (Some "vendor") (Some false)) (N.to_nat uid) users1)
                = Some (mkUser (u_email u) "vendor" false)).
  { change (u_email u) with (u_email (mkUser (u_email u) "admin" (u_isFraud u))) at 1.
    by rewrite (findUser_alter_unique _ _ _ _ Hnd1 Hu1). }
  split; [exact Hf1|]. split.
  { intros other Ho. by apply Ho1. }
  split; [done|]. split; [exact Hf2|]. split.
  { intros id. unfold patch_admin_users_make_admin. simpl.
    apply verifyAdmin_not_admin. rewrite is_admin_role. simpl. by rewrite Hf2. }
  split.
  - intros text. unfold patch_admin_users_make_admin. simpl. by rewrite verifyAdmin_admin.
  - intros text. unfold patch_admin_users_make_vendor. simpl. by rewrite verifyAdmin_admin.
Qed.

Lemma make_admin_then_make_vendor_witness :
  let st1 := (patch_admin_users_make_admin (Verified Sample.administrator) (Hex24 2)
                Sample.shop).2 in
  let st2 := (patch_admin_users_make_vendor (Verified Sample.customer) (Hex24 2) st1).2 in
  findUser Sample.customer (usersCollection st1)
  = Some (mkUser Sample.customer "admin" false)
  ∧ findUser Sample.customer (usersCollection st2)
    = Some (mkUser Sample.customer "vendor" false)
  ∧ patch_admin_users_make_admin (Verified Sample.customer) (Hex24 0) st2
    = (Send 403 (Message "Forbidden"), st2).
Proof.
  destruct (make_admin_then_make_vendor Sample.administrator 2%N
              (mkUser Sample.customer "user" false) Sample.shop)
    as (H1 & _ & _ & H4 & H5 & _);
    [apply (bool_decide_unpack _); vm_compute; reflexivity | sample_admin | reflexivity |].
  split; [exact H1|]. split; [exact H4 | exact (H5 (Hex24 0))].
Defined.

(** ** Ticket lists *)

Lemma find_elem natural_order (f : doc → bool) coll kd :
  (∀ coll, natural_order coll ≡ₚ map_to_list coll) →
  kd ∈ find natural_order f coll ↔ coll !! kd.1 = Some kd.2 ∧ f kd.2 = true.
Proof.
  intros Hnat. unfold find. rewrite list_elem_of_In, filter_In, <-list_elem_of_In.
  rewrite (Hnat coll). destruct kd as [k d]. by rewrite elem_of_map_to_list.
Qed.

Lemma limit_elem {A} n (l : list A) x : x ∈ limit n l → x ∈ l.
Proof.
  unfold limit. destruct (n =? 0)%Z; [done|].
  intros H. rewrite <-(take_drop (Z.abs_nat n) l). apply elem_of_app. by left.
Qed.

(** What the three list routes show is in the collection and not hidden. *)
Lemma listed_visible natural_order sort_newest kd q parsed c email st :
  (∀ coll, natural_order coll ≡ₚ map_to_list coll) →
  (∀ l, sort_newest l ≡ₚ l) →
  listed kd (get_tickets natural_order sort_newest q st)
  ∨ listed kd (get_tickets_advertised natural_order parsed st)
  ∨ listed kd (get_tickets_vendor natural_order sort_newest c email st) →
  ticketsCollection st !! kd.1 = Some kd.2
  ∧ field_is (VBool true) (kd.2 !! "hidden") = false.
Proof.
  intros Hnat Hsort [(l & Hl & Hin)|[(l & Hl & Hin)|(l & Hl & Hin)]].
  - unfold get_tickets in Hl. simpl in Hl. injection Hl as <-.
    assert (Hf : kd ∈ find natural_order (tickets_filter q) (ticketsCollection st)).
    { destruct (q_limit q); [apply limit_elem in Hin|];
        (destruct (q_sort q) as [s|]; [destruct (String.eqb s "newest")|]);
        by rewrite ?Hsort in Hin. }
    apply find_elem in Hf as [Hk Hf]; [|done]. split; [done|].
    unfold tickets_filter in Hf. rewrite !andb_true_iff in Hf.
    by destruct Hf as [[[->%negb_true_iff _] _] _].
  - unfold get_tickets_advertised in Hl. simpl in Hl. injection Hl as <-.
    apply limit_elem, find_elem in Hin as [Hk Hf]; [|done]. split; [done|].
    rewrite !andb_true_iff in Hf. by destruct Hf as [_ ->%negb_true_iff].
  - unfold get_tickets_vendor, verifyJWT_route in Hl. destruct c as [| |caller]; try done.
    destruct (negb (String.eqb email caller)); [done|]. simpl in Hl. injection Hl as <-.
    rewrite Hsort in Hin. apply find_elem in Hin as [Hk Hf]; [|done]. split; [done|].
    rewrite !andb_true_iff in Hf. by destruct Hf as [_ ->%negb_true_iff].
Qed.

(** X24.  Whatever order the server returns and sorts documents
    in: after a mark-fraud, a ticket that [GET /tickets], [GET
    /tickets/advertised] or [GET /tickets/vendor/:email] lists, for any
    query, is not one of the vendor's and is unchanged from the store
    before; and a ticket that is not the vendor's and that [GET /tickets]
    without a limit listed before is still listed. *)
Theorem fraud_vendor_leaves_every_list
    (natural_order : gmap oid doc → list (oid * doc))
    (sort_newest : list (oid * doc) → list (oid * doc))
    (admin : string) (uid : oid) (vendor : user) (st : store) :
  (∀ coll, natural_order coll ≡ₚ map_to_list coll) →
  (∀ l, sort_newest l ≡ₚ l) →
  is_admin admin st →
  findUserById uid (usersCollection st) = Some vendor →
  u_role vendor = "vendor" →
  let st1 := (patch_admin_users_mark_fraud (Verified admin) (Hex24 uid) st).2 in
  (∀ kd q parsed c email,
     listed kd (get_tickets natural_order sort_newest q st1)
     ∨ listed kd (get_tickets_advertised natural_order parsed st1)
     ∨ listed kd (get_tickets_vendor natural_order sort_newest c email st1) →
     field_is (VStr (u_email vendor)) (kd.2 !! "vendorEmail") = false
     ∧ ticketsCollection st !! kd.1 = Some kd.2)
  ∧ (∀ kd q, q_limit q = None →
       field_is (VStr (u_email vendor)) (kd.2 !! "vendorEmail") = false →
       listed kd (get_tickets natural_order sort_newest q st) →
       listed kd (get_tickets natural_order sort_newest q st1)).
Proof.
  intros Hnat Hsort Hadmin Hu Hrole. cbv zeta.
  rewrite (mark_fraud_applied admin uid vendor st) by done. cbn [snd].
  set (st1 := mkStore _ _ _ _).
  assert (Ht1 : ∀ k, ticketsCollection st1 !! k
                     = (λ d, if field_is (VStr (u_email vendor)) (d !! "vendorEmail")
                             then <["hidden" := VBool true]> d else d)
                       <$> ticketsCollection st !! k).
  { intros k. simpl. unfold updateMany. by rewrite lookup_fmap. }
  clearbody st1. split.
  - intros [k d] q parsed c email Hl.
    apply (listed_visible _ _ _ _ _ _ _ _ Hnat Hsort) in Hl as [Hk Hh]. simpl in *.
    rewrite Ht1 in Hk. destruct (ticketsCollection st !! k) as [d0|] eqn:Hd0; [|done].
    simpl in Hk. destruct (field_is _ (d0 !! "vendorEmail")) eqn:Hv; injection Hk as <-.
    + by rewrite lookup_insert_eq in Hh.
    + done.
  - intros [k d] q Hlim Hv (l & Hl & Hin). simpl in Hv.
    unfold get_tickets in *. rewrite Hlim in *. simpl in *. injection Hl as <-.
    eexists. split; [reflexivity|].
    assert (Hf : (k, d) ∈ find natural_order (tickets_filter q) (ticketsCollection st)).
    { destruct (q_sort q) as [s|]; [destruct (String.eqb s "newest")|];
        by rewrite ?Hsort in Hin. }
    apply find_elem in Hf as [Hk Hf]; [|done]. simpl in *.
    assert ((k, d) ∈ find natural_order (tickets_filter q) (ticketsCollection st1)).
    { apply find_elem; [done|]. simpl. by rewrite Ht1, Hk; simpl; rewrite Hv. }
    destruct (q_sort q) as [s|]; [destruct (String.eqb s "newest")|];
      by rewrite ?Hsort.
Qed.

Lemma fraud_vendor_leaves_every_list_witness :
  let st1 := (patch_admin_users_mark_fraud (Verified Sample.administrator) (Hex24 1)
                SampleRest.two_vendor_shop).2 in
  let res := get_tickets SampleRest.by_id SampleRest.unsorted SampleRest.everything st1 in
  (∃ found, res.1 = inr (Tickets found)
            ∧ Forall (λ kd, field_is (VStr Sample.vendor) (kd.2 !! "vendorEmail") = false)
                found)
  ∧ listed (2%N, SampleRest.rival_ticket) res.
Proof.
  destruct (fraud_vendor_leaves_every_list SampleRest.by_id SampleRest.unsorted
              Sample.administrator 1%N (mkUser Sample.vendor "vendor" false)
              SampleRest.two_vendor_shop)
    as [H1 H2]; [reflexivity | reflexivity | sample_admin | reflexivity | reflexivity |].
  split.
  - eexists. split; [reflexivity|]. apply Forall_forall. intros kd Hin.
    apply (H1 kd SampleRest.everything None NoBearer EmptyString).
    left. eexists. split; [reflexivity | exact Hin].
  - apply (H2 (2%N, SampleRest.rival_ticket) SampleRest.everything eq_refl);
      [reflexivity|].
    eexists. split; [reflexivity|].
    apply find_elem; [reflexivity|]. split; reflexivity.
Defined.

Lemma countAdvertised_fmap (f : doc → doc) (m : gmap oid doc) :
  (∀ d, approved_advertised (f d) = approved_advertised d) →
  countAdvertised (f <$> m) = countAdvertised m.
Proof.
  intros Hf. unfold countAdvertised.
  rewrite map_filter_fmap, map_size_fmap. f_equal.
  apply map_filter_ext. intros k d _. simpl. by rewrite Hf.
Qed.

Lemma filter_nil_all {A} (f : A → bool) (l : list A) :
  (∀ x, x ∈ l → f x = false) → List.filter f l = [].
Proof.
  induction l as [|x l IH]; intros H; simpl; [done|].
  rewrite (H x) by apply list_elem_of_here. apply IH. intros y Hy. apply H. by right.
Qed.

(** X25.  Hidden tickets keep their advertise slots: when at
    least 6 tickets are approved and advertised and every advertised
    approved ticket is the vendor's, after the mark-fraud [GET
    /tickets/advertised] answers with the empty list, and [PATCH
    /tickets/:id/advertise] still refuses every new advertisement with
    400 "Cannot advertise more than 6 tickets". *)
Theorem hidden_tickets_keep_their_slots
    (natural_order : gmap oid doc → list (oid * doc))
    (admin : string) (uid : oid) (vendor : user) (st : store) :
  (∀ coll, natural_order coll ≡ₚ map_to_list coll) →
  is_admin admin st →
  findUserById uid (usersCollection st) = Some vendor →
  u_role vendor = "vendor" →
  6 ≤ countAdvertised (ticketsCollection st) →
  (∀ tid d, ticketsCollection st !! tid = Some d →
     field_is (VBool true) (d !! "advertised") = true →
     field_is (VStr "approved") (d !! "verificationStatus") = true →
     field_is (VStr (u_email vendor)) (d !! "vendorEmail") = true) →
  let st1 := (patch_admin_users_mark_fraud (Verified admin) (Hex24 uid) st).2 in
  (∀ parsed, get_tickets_advertised natural_order parsed st1 = (inr (Tickets []), st1))
  ∧ (∀ id, patch_tickets_advertise (Verified admin) id (Some (VBool true)) st1
           = (Send 400 (Message "Cannot advertise more than 6 tickets"), st1)).
Proof.
  intros Hnat Hadmin Hu Hrole Hfull Hall. cbv zeta.
  rewrite (mark_fraud_applied admin uid vendor st) by done. cbn [snd].
  set (st1 := mkStore _ _ _ _).
  assert (Ht1 : ∀ k, ticketsCollection st1 !! k
                     = (λ d, if field_is (VStr (u_email vendor)) (d !! "vendorEmail")
                             then <["hidden" := VBool true]> d else d)
                       <$> ticketsCollection st !! k).
  { intros k. simpl. unfold updateMany. by rewrite lookup_fmap. }
  assert (Hcount : countAdvertised (ticketsCollection st1)
                   = countAdvertised (ticketsCollection st)).
  { simpl. unfold updateMany. apply countAdvertised_fmap. intros d.
    destruct (field_is _ _); [|done]. unfold approved_advertised.
    by rewrite !lookup_insert_ne. }
  assert (Hadmin1 : is_admin admin st1).
  { apply is_admin_role. simpl. unfold updateUserById.
    rewrite findUser_alter_role by apply set_user_keeps_role. by apply is_admin_role. }
  clearbody st1. split.
  - intros parsed. unfold get_tickets_advertised. do 2 f_equal.
    assert (find natural_order
              (λ d, field_is (VBool true) (d !! "advertised")
                    && field_is (VStr "approved") (d !! "verificationStatus")
                    && negb (field_is (VBool true) (d !! "hidden")))
              (ticketsCollection st1) = []) as ->.
    { apply filter_nil_all. intros [k d] Hin. simpl.
      rewrite (Hnat _) in Hin. apply elem_of_map_to_list in Hin.
      rewrite Ht1 in Hin. destruct (ticketsCollection st !! k) as [d0|] eqn:Hd0; [|done].
      simpl in Hin. destruct (field_is _ (d0 !! "vendorEmail")) eqn:Hv; injection Hin as <-.
      - rewrite lookup_insert_eq. simpl. by rewrite andb_false_r.
      - destruct (field_is (VBool true) (d0 !! "advertised")) eqn:Ha; [|done].
        destruct (field_is (VStr "approved") (d0 !! "verificationStatus")) eqn:Hs; [|done].
        by rewrite (Hall k d0 Hd0 Ha Hs) in Hv. }
    unfold limit. destruct (_ =? 0)%Z; [done|]. by rewrite take_nil.
  - intros id. unfold patch_tickets_advertise, verifyJWT.
    rewrite verifyAdmin_admin by done.
    pose proof (countAdvertised_le (ticketsCollection st1)) as Hmatch.
    assert ((6 <=? countDocuments advertised_query (ticketsCollection st1)) = true) as Hle
      by (apply Nat.leb_le; lia).
    assert (true && (6 <=? countDocuments advertised_query (ticketsCollection st1)) = true)
      as Hc by (by rewrite Hle).
    cbv beta iota. by rewrite Hc.
Qed.

Lemma hidden_tickets_keep_their_slots_witness :
  let st1 := (patch_admin_users_mark_fraud (Verified Sample.administrator) (Hex24 1)
                (Sample.gallery 6)).2 in
  get_tickets_advertised SampleRest.by_id None st1 = (inr (Tickets []), st1)
  ∧ patch_tickets_advertise (Verified Sample.administrator) (Hex24 7) (Some (VBool true)) st1
    = (Send 400 (Message "Cannot advertise more than 6 tickets"), st1).
Proof.
  destruct (hidden_tickets_keep_their_slots SampleRest.by_id Sample.administrator 1%N
              (mkUser Sample.vendor "vendor" false) (Sample.gallery 6))
    as [H1 H2]; [reflexivity | sample_admin | reflexivity | reflexivity | vm_compute; lia | |].
  - intros tid d Hd _ _.
    assert (Hall : map_Forall
                     (λ _ d, field_is (VStr Sample.vendor) (d !! "vendorEmail") = true)
                     (ticketsCollection (Sample.gallery 6))).
    { apply (bool_decide_unpack _). vm_compute. reflexivity. }
    exact (Hall tid d Hd).
  - split; [exact (H1 None) | exact (H2 (Hex24 7))].
Defined.

(** X26.  [PATCH /tickets/:id] looks neither at the fraud flag
    nor at which field it writes beyond the protected ones: after the
    mark-fraud has hidden a ticket ([GET /tickets/:id] answers 404), its
    vendor's PATCH with body [{ hidden: false }] is answered 200, the
    ticket is served again, and the vendor is still marked as fraud.  Both
    revisions. *)
Theorem fraud_vendor_can_unhide (r : revision) (StringToNumber : value → value)
    (admin : string) (uid tid : oid) (vendor : user) (d : doc) (st : store) :
  is_admin admin st →
  findUserById uid (usersCollection st) = Some vendor →
  u_role vendor = "vendor" →
  ticketsCollection st !! tid = Some d →
  is_string (d !! "vendorEmail") (u_email vendor) = true →
  is_string (d !! "verificationStatus") "rejected" = false →
  let st1 := (patch_admin_users_mark_fraud (Verified admin) (Hex24 uid) st).2 in
  let res := patch_tickets r StringToNumber (Verified (u_email vendor)) (Hex24 tid)
               {[ "hidden" := VBool false ]} st1 in
  (get_ticket (Hex24 tid) st1).1 = inl (Send 404 (Message "Ticket not found"))
  ∧ (∃ n, res.1 = Send 200 (SuccessModified n))
  ∧ (get_ticket (Hex24 tid) res.2).1 = inr (Ticket (<["hidden" := VBool false]> d))
  ∧ u_isFraud <$> findUserById uid (usersCollection res.2) = Some true.
Proof.
  intros Hadmin Hu Hrole Hd Hv Hrej. cbv zeta.
  rewrite (mark_fraud_applied admin uid vendor st) by done. cbn [snd].
  set (st1 := mkStore _ _ _ _).
  set (d1 := <["hidden" := VBool true]> d).
  assert (Hfi : field_is (VStr (u_email vendor)) (d !! "vendorEmail") = true).
  { apply is_string_lookup in Hv. rewrite Hv. simpl. by apply bool_decide_eq_true_2. }
  assert (Hd1 : ticketsCollection st1 !! tid = Some d1).
  { simpl. unfold updateMany. rewrite lookup_fmap, Hd. simpl. by rewrite Hfi. }
  assert (Hu1 : u_isFraud <$> findUserById uid (usersCollection st1) = Some true).
  { simpl. unfold findUserById, updateUserById in *.
    by rewrite list_lookup_alter_eq, Hu. }
  assert (Hv1 : is_string (d1 !! "vendorEmail") (u_email vendor) = true)
    by (unfold d1; by rewrite lookup_insert_ne).
  assert (Hr1 : is_string (d1 !! "verificationStatus") "rejected" = false)
    by (unfold d1; by rewrite lookup_insert_ne).
  clearbody st1. split.
  { unfold get_ticket. simpl. rewrite Hd1. unfold d1. by rewrite lookup_insert_eq. }
  assert (Hres : ∃ n, patch_tickets r StringToNumber (Verified (u_email vendor)) (Hex24 tid)
                        {[ "hidden" := VBool false ]} st1
                      = (Send 200 (SuccessModified n),
                         with_tickets (<[tid := <["hidden" := VBool false]> d]>
                                         (ticketsCollection st1)) st1)).
  { assert (Hun : ({[ "hidden" := VBool false ]} : doc) ∪ d1 = <["hidden" := VBool false]> d).
    { unfold d1. rewrite <-insert_union_singleton_l. by rewrite insert_insert_eq. }
    assert (Hplain : map_Forall (λ k _, plain k = true)
                       ({[ "hidden" := VBool false ]} : doc)).
    { intros k v [<- _]%lookup_singleton_Some. reflexivity. }
    destruct r.
    - destruct (part002_patch_applied StringToNumber (u_email vendor) tid
                  {[ "hidden" := VBool false ]} d1 st1 Hd1 Hv1 Hr1 Hplain) as (n & Heq).
      exists n. unfold patch_tickets. rewrite Heq. do 3 f_equal. rewrite <-Hun. f_equal.
    - assert (Hid : ({[ "hidden" := VBool false ]} : doc) !! "_id" = None) by done.
      destruct (indexjs_patch_applied (u_email vendor) tid
                  {[ "hidden" := VBool false ]} d1 st1 Hd1 Hr1 Hid Hplain) as (n & Heq).
      exists n. unfold patch_tickets. rewrite Heq. do 3 f_equal. rewrite <-Hun. f_equal. }
  destruct Hres as (n & ->). cbn [fst snd]. split; [by exists n|]. split.
  - unfold get_ticket. simpl. rewrite lookup_insert_eq. by rewrite lookup_insert_eq.
  - exact Hu1.
Qed.

Lemma fraud_vendor_can_unhide_witness :
  let st1 := (patch_admin_users_mark_fraud (Verified Sample.administrator) (Hex24 1)
                Sample.shop).2 in
  let res := patch_tickets part_002 Sample.not_a_number (Verified Sample.vendor) (Hex24 1)
               {[ "hidden" := VBool false ]} st1 in
  (get_ticket (Hex24 1) st1).1 = inl (Send 404 (Message "Ticket not found"))
  ∧ (get_ticket (Hex24 1) res.2).1
    = inr (Ticket (<["hidden" := VBool false]> (Sample.ticket "approved" 5 false))).
Proof.
  destruct (fraud_vendor_can_unhide part_002 Sample.not_a_number Sample.administrator
              1%N 1%N (mkUser Sample.vendor "vendor" false)
              (Sample.ticket "approved" 5 false) Sample.shop)
    as (H1 & _ & H3 & _);
    [sample_admin | reflexivity | reflexivity | reflexivity | reflexivity | reflexivity |].
  split; [exact H1 | exact H3].
Defined.
